(** * The colour relay: a shallow embedding of the WebSocket server
      (the server script) and of the browser client (script.js, config.js).

    The server keeps a set of open sockets ([wss.clients], owned by the
    [ws] package), a [Map] from client id to a metadata record and a
    counter for client ids.  Every handler of the script is embedded as a
    state transformer that may complete normally or raise; a raise keeps
    the mutations made before it, as in JavaScript.

    What lies outside the repository is modelled at its interface:
    - [JSON.parse] by an executable parser of the JSON grammar;
    - a socket's [send] by the socket's own disposition [send_fault]
      (which data, if any, make the call raise);
    - the clock by a time stamp handed to the handler that reads it;
    - the page of the browser client by the elements and buttons the
      script reads and writes, its pending timers and its sockets. *)

From Stdlib Require Import ZArith List String Ascii Bool Lia.
From stdpp Require Import gmap strings list pretty.
Import ListNotations.
Set Warnings "-register-all".

Local Open Scope string_scope.
Local Open Scope list_scope.

(** ** JavaScript values and completions *)

(** A number read by [JSON.parse] is kept as the decimal it was written
    as: [JNum m e] stands for [m * 10^e]. *)
Inductive jsval : Type :=
| JUndefined
| JNull
| JBool (b : bool)
| JNum (m e : Z)
| JStr (s : string)
| JArr (items : list jsval)
| JObj (fields : list (string * jsval)).

Record js_error : Type := mkError { err_name : string; err_message : string }.

Inductive completion (A : Type) : Type :=
| Normal (a : A)
| Throw (e : js_error).
Arguments Normal {A} a.
Arguments Throw {A} e.

(** State and exceptions: a raise returns the state reached so far. *)
Definition M (S A : Type) : Type := S -> completion A * S.

Definition ret {S A : Type} (a : A) : M S A := fun s => (Normal a, s).

Definition throw {S A : Type} (e : js_error) : M S A := fun s => (Throw e, s).

Definition bind {S A B : Type} (m : M S A) (k : A -> M S B) : M S B :=
  fun s => match m s with
           | (Normal a, s') => k a s'
           | (Throw e, s') => (Throw e, s')
           end.

Definition try_catch {S A : Type} (m : M S A) (h : js_error -> M S A) : M S A :=
  fun s => match m s with
           | (Normal a, s') => (Normal a, s')
           | (Throw e, s') => h e s'
           end.

Definition get {S : Type} : M S S := fun s => (Normal s, s).

Definition modify {S : Type} (f : S -> S) : M S unit := fun s => (Normal tt, f s).

Definition lift {S A : Type} (c : completion A) : M S A := fun s => (c, s).

Declare Scope js_scope.
Delimit Scope js_scope with js.
Notation "x <- m ;; k" := (bind m (fun x => k))
  (at level 100, m at next level, right associativity) : js_scope.
Notation "m ;;; k" := (bind m (fun _ => k))
  (at level 100, k at level 200, right associativity) : js_scope.

(** [ToBoolean].  A decimal [m * 10^e] converts to the double [0] exactly
    when [m = 0] or [|m| * 10^e <= 2^-1075] (half the least subnormal,
    where the tie rounds to even). *)
Definition num_truthy (m e : Z) : bool :=
  negb (m =? 0)%Z &&
  ((0 <=? e)%Z || (10 ^ (- e) <? Z.abs m * 2 ^ 1075)%Z).

Definition truthy (v : jsval) : bool :=
  match v with
  | JUndefined | JNull => false
  | JBool b => b
  | JNum m e => num_truthy m e
  | JStr s => negb (String.eqb s EmptyString)
  | JArr _ | JObj _ => true
  end.

(** [a || b]: the left operand when it is truthy, else the right one. *)
Definition js_or (a b : jsval) : jsval := if truthy a then a else b.

(** An own property of an object built by [JSON.parse]: with a key
    written twice the last one stays. *)
Fixpoint own_property (k : string) (fields : list (string * jsval)) : jsval :=
  match fields with
  | [] => JUndefined
  | (k', v) :: rest =>
      match own_property k rest with
      | JUndefined => if String.eqb k k' then v else JUndefined
      | later => later
      end
  end.

Definition type_error (what k : string) : js_error :=
  mkError "TypeError"
    ("Cannot read properties of " +:+ what +:+ " (reading '" +:+ k +:+ "')").

(** [v.k] for the keys the server reads ([color], [message],
    [clientType]): no prototype defines them, so primitives and arrays
    answer [undefined]; reading a property of [null] or [undefined]
    raises a TypeError. *)
Definition get_prop (v : jsval) (k : string) : completion jsval :=
  match v with
  | JUndefined => Throw (type_error "undefined" k)
  | JNull => Throw (type_error "null" k)
  | JObj fields => Normal (own_property k fields)
  | _ => Normal JUndefined
  end.

(** [ToString] of a value built by [JSON.parse], as a template literal
    applies it, completes unless it meets an object with an own property
    [toString]: that property is not a function, and neither it nor the
    inherited [valueOf] yields a primitive.  An array is joined, so each
    of its items is converted in turn ([null] gives the empty text). *)
Fixpoint printable (v : jsval) : bool :=
  match v with
  | JObj fields =>
      match own_property "toString" fields with
      | JUndefined => true
      | _ => false
      end
  | JArr items => forallb printable items
  | _ => true
  end.

Definition to_primitive_error : js_error :=
  mkError "TypeError" "Cannot convert object to primitive value".

(** The conversion made by [`${v}`]. *)
Definition interpolate (v : jsval) : completion unit :=
  if printable v then Normal tt else Throw to_primitive_error.

(** ** JSON.parse *)

Module Json.

Definition dquote : ascii := "034"%char.
Definition backslash : ascii := "092"%char.

Definition is_ws (c : ascii) : bool :=
  let n := nat_of_ascii c in
  Nat.eqb n 32 || Nat.eqb n 9 || Nat.eqb n 10 || Nat.eqb n 13.

Fixpoint skip_ws (l : list ascii) : list ascii :=
  match l with
  | c :: r => if is_ws c then skip_ws r else l
  | [] => []
  end.

Definition digit_of (c : ascii) : option Z :=
  let n := nat_of_ascii c in
  if Nat.leb 48 n && Nat.leb n 57 then Some (Z.of_nat (n - 48)) else None.

Definition hex_of (c : ascii) : option N :=
  let n := N_of_ascii c in
  if (48 <=? n)%N && (n <=? 57)%N then Some (n - 48)%N
  else if (65 <=? n)%N && (n <=? 70)%N then Some (n - 55)%N
  else if (97 <=? n)%N && (n <=? 102)%N then Some (n - 87)%N
  else None.

(** The digits at the head of [l]: their value, their number, the rest. *)
Fixpoint digits (l : list ascii) (acc : Z) (count : nat) : Z * nat * list ascii :=
  match l with
  | c :: r =>
      match digit_of c with
      | Some d => digits r (10 * acc + d)%Z (S count)
      | None => (acc, count, l)
      end
  | [] => (acc, count, [])
  end.

(** A JSON number: an optional minus sign, an integer part without a
    leading zero (unless it is the single digit 0), an optional fraction
    and an optional exponent. *)
Definition parse_number (l : list ascii) : option (jsval * list ascii) :=
  let (neg, l1) := match l with
                   | c :: r => if Ascii.eqb c "-" then (true, r) else (false, l)
                   | [] => (false, l)
                   end in
  let '(ip, ic, l2) := digits l1 0%Z 0 in
  let leading_zero := match l1 with
                      | c :: _ => Ascii.eqb c "0"
                      | [] => false
                      end in
  if Nat.eqb ic 0 || (leading_zero && negb (Nat.eqb ic 1)) then None else
  let frac := match l2 with
              | c :: r =>
                  if Ascii.eqb c "." then
                    let '(fp, fc, l3) := digits r 0%Z 0 in
                    if Nat.eqb fc 0 then None else Some (fp, fc, l3)
                  else Some (0%Z, 0, l2)
              | [] => Some (0%Z, 0, l2)
              end in
  match frac with
  | None => None
  | Some (fp, fc, l3) =>
      let expo := match l3 with
                  | c :: r =>
                      if Ascii.eqb c "e" || Ascii.eqb c "E" then
                        let (eneg, r1) :=
                          match r with
                          | s :: r' =>
                              if Ascii.eqb s "-" then (true, r')
                              else if Ascii.eqb s "+" then (false, r')
                              else (false, r)
                          | [] => (false, r)
                          end in
                        let '(ep, ec, l4) := digits r1 0%Z 0 in
                        if Nat.eqb ec 0 then None
                        else Some ((if eneg then - ep else ep)%Z, l4)
                      else Some (0%Z, l3)
                  | [] => Some (0%Z, l3)
                  end in
      match expo with
      | None => None
      | Some (ex, l4) =>
          let mant := (ip * 10 ^ Z.of_nat fc + fp)%Z in
          Some (JNum (if neg then - mant else mant)%Z (ex - Z.of_nat fc)%Z, l4)
      end
  end.

(** The UTF-8 bytes of a code point (a lone surrogate escape keeps its
    three-byte form). *)
Definition utf8 (n : N) : list ascii :=
  (if n <? 128 then [ascii_of_N n]
   else if n <? 2048 then
     [ascii_of_N (192 + n / 64); ascii_of_N (128 + n mod 64)]
   else if n <? 65536 then
     [ascii_of_N (224 + n / 4096); ascii_of_N (128 + (n / 64) mod 64);
      ascii_of_N (128 + n mod 64)]
   else
     [ascii_of_N (240 + n / 262144); ascii_of_N (128 + (n / 4096) mod 64);
      ascii_of_N (128 + (n / 64) mod 64); ascii_of_N (128 + n mod 64)])%N.

Definition hex4 (a b c d : ascii) : option N :=
  match hex_of a, hex_of b, hex_of c, hex_of d with
  | Some x, Some y, Some z, Some w => Some (((x * 16 + y) * 16 + z) * 16 + w)%N
  | _, _, _, _ => None
  end.

Definition simple_escape (c : ascii) : option ascii :=
  let n := nat_of_ascii c in
  if Nat.eqb n 34 then Some dquote
  else if Nat.eqb n 92 then Some backslash
  else if Nat.eqb n 47 then Some "/"%char
  else if Nat.eqb n 98 then Some (ascii_of_nat 8)
  else if Nat.eqb n 102 then Some (ascii_of_nat 12)
  else if Nat.eqb n 110 then Some (ascii_of_nat 10)
  else if Nat.eqb n 114 then Some (ascii_of_nat 13)
  else if Nat.eqb n 116 then Some (ascii_of_nat 9)
  else None.

(** The rest of a string literal after its opening quote; [acc] holds
    the characters read so far, last first. *)
Fixpoint parse_string_body (l : list ascii) (acc : list ascii)
  : option (string * list ascii) :=
  match l with
  | [] => None
  | c :: r =>
      if Ascii.eqb c dquote then Some (string_of_list_ascii (rev acc), r)
      else if Ascii.eqb c backslash then
        match r with
        | e :: r1 =>
            if Ascii.eqb e "u" then
              match r1 with
              | h1 :: h2 :: h3 :: h4 :: r2 =>
                  match hex4 h1 h2 h3 h4 with
                  | None => None
                  | Some hi =>
                      let single := parse_string_body r2 (rev (utf8 hi) ++ acc) in
                      if (55296 <=? hi)%N && (hi <=? 56319)%N then
                        match r2 with
                        | b :: u :: k1 :: k2 :: k3 :: k4 :: r3 =>
                            if Ascii.eqb b backslash && Ascii.eqb u "u" then
                              match hex4 k1 k2 k3 k4 with
                              | Some lo =>
                                  if (56320 <=? lo)%N && (lo <=? 57343)%N then
                                    parse_string_body r3
                                      (rev (utf8 (65536 + (hi - 55296) * 1024 + (lo - 56320))%N)
                                       ++ acc)
                                  else single
                              | None => single
                              end
                            else single
                        | _ => single
                        end
                      else single
                  end
              | _ => None
              end
            else
              match simple_escape e with
              | Some x => parse_string_body r1 (x :: acc)
              | None => None
              end
        | [] => None
        end
      else if Nat.ltb (nat_of_ascii c) 32 then None
      else parse_string_body r (c :: acc)
  end.

Fixpoint expect (word : list ascii) (l : list ascii) : option (list ascii) :=
  match word, l with
  | [], _ => Some l
  | w :: ws, c :: r => if Ascii.eqb w c then expect ws r else None
  | _ :: _, [] => None
  end.

Fixpoint parse_value (fuel : nat) (l : list ascii) {struct fuel}
  : option (jsval * list ascii) :=
  match fuel with
  | O => None
  | S f =>
      match skip_ws l with
      | [] => None
      | c :: r =>
          if Ascii.eqb c "{" then
            match skip_ws r with
            | c' :: r' =>
                if Ascii.eqb c' "}" then Some (JObj [], r')
                else parse_members f r []
            | [] => None
            end
          else if Ascii.eqb c "[" then
            match skip_ws r with
            | c' :: r' =>
                if Ascii.eqb c' "]" then Some (JArr [], r')
                else parse_elements f r []
            | [] => None
            end
          else if Ascii.eqb c dquote then
            match parse_string_body r [] with
            | Some (s, r') => Some (JStr s, r')
            | None => None
            end
          else if Ascii.eqb c "t" then
            option_map (fun r' => (JBool true, r')) (expect (list_ascii_of_string "rue") r)
          else if Ascii.eqb c "f" then
            option_map (fun r' => (JBool false, r')) (expect (list_ascii_of_string "alse") r)
          else if Ascii.eqb c "n" then
            option_map (fun r' => (JNull, r')) (expect (list_ascii_of_string "ull") r)
          else parse_number (c :: r)
      end
  end
with parse_elements (fuel : nat) (l : list ascii) (acc : list jsval) {struct fuel}
  : option (jsval * list ascii) :=
  match fuel with
  | O => None
  | S f =>
      match parse_value f l with
      | None => None
      | Some (v, r) =>
          match skip_ws r with
          | c :: r' =>
              if Ascii.eqb c "," then parse_elements f r' (v :: acc)
              else if Ascii.eqb c "]" then Some (JArr (rev (v :: acc)), r')
              else None
          | [] => None
          end
      end
  end
with parse_members (fuel : nat) (l : list ascii) (acc : list (string * jsval))
  {struct fuel} : option (jsval * list ascii) :=
  match fuel with
  | O => None
  | S f =>
      match skip_ws l with
      | q :: r =>
          if Ascii.eqb q dquote then
            match parse_string_body r [] with
            | None => None
            | Some (k, r1) =>
                match skip_ws r1 with
                | c :: r2 =>
                    if Ascii.eqb c ":" then
                      match parse_value f r2 with
                      | None => None
                      | Some (v, r3) =>
                          match skip_ws r3 with
                          | d :: r4 =>
                              if Ascii.eqb d "," then parse_members f r4 ((k, v) :: acc)
                              else if Ascii.eqb d "}" then
                                Some (JObj (rev ((k, v) :: acc)), r4)
                              else None
                          | [] => None
                          end
                      end
                    else None
                | [] => None
                end
            end
          else None
      | [] => None
      end
  end.

Definition syntax_error : js_error :=
  mkError "SyntaxError" "Unexpected token in JSON".

(** [JSON.parse(text)]: one value between optional white space, or a
    SyntaxError. *)
Definition parse (text : string) : completion jsval :=
  let l := list_ascii_of_string text in
  match parse_value (2 * List.length l + 2) l with
  | Some (v, r) =>
      match skip_ws r with
      | [] => Normal v
      | _ :: _ => Throw syntax_error
      end
  | None => Throw syntax_error
  end.

(** [JSON.stringify] of a string: quoted, with the quote, the backslash
    and the control characters escaped. *)
Definition hex_digit (n : nat) : ascii :=
  if Nat.ltb n 10 then ascii_of_nat (48 + n) else ascii_of_nat (87 + n).

Definition escape_char (c : ascii) : list ascii :=
  let n := nat_of_ascii c in
  if Nat.eqb n 34 then [backslash; dquote]
  else if Nat.eqb n 92 then [backslash; backslash]
  else if Nat.eqb n 8 then [backslash; "b"%char]
  else if Nat.eqb n 12 then [backslash; "f"%char]
  else if Nat.eqb n 10 then [backslash; "n"%char]
  else if Nat.eqb n 13 then [backslash; "r"%char]
  else if Nat.eqb n 9 then [backslash; "t"%char]
  else if Nat.ltb n 32 then
    [backslash; "u"%char; "0"%char; "0"%char; hex_digit (n / 16); hex_digit (n mod 16)]
  else [c].

Definition quote (s : string) : string :=
  string_of_list_ascii
    (dquote :: List.concat (List.map escape_char (list_ascii_of_string s)) ++ [dquote]).

(** [JSON.stringify] of an object literal whose values are strings. *)
Fixpoint members (fields : list (string * string)) : string :=
  match fields with
  | [] => EmptyString
  | [(k, v)] => quote k +:+ ":" +:+ quote v
  | (k, v) :: rest => quote k +:+ ":" +:+ quote v +:+ "," +:+ members rest
  end.

Definition stringify_record (fields : list (string * string)) : string :=
  "{" +:+ members fields +:+ "}".

(** JSON texts are written below with ['] standing for the double quote. *)
Definition dq (s : string) : string :=
  string_of_list_ascii
    (List.map (fun c => if Ascii.eqb c "'" then dquote else c) (list_ascii_of_string s)).

End Json.

(** ** The server *)

Module Server.

Local Open Scope js_scope.

(** A socket handed to the [connection] listener has completed its
    handshake: it is never [CONNECTING]. *)
Inductive ReadyState : Type := OPEN | CLOSING | CLOSED.

Definition is_open (r : ReadyState) : bool :=
  match r with OPEN => true | _ => false end.

(** What a socket has put on the wire. *)
Inductive frame : Type :=
| Data (d : jsval)
| Ping
| CloseFrame (code : Z) (reason : string).

(** A socket object of the [ws] package.  [handle] is the identity of
    the object (what [!==] compares); [outbox] lists what the script has
    handed to the socket, oldest first; [send_fault] is the disposition
    of the socket: the error [send] raises for a given datum, if any. *)
Record WebSocket : Type := mkSocket {
  handle : nat;
  clientId : string;
  readyState : ReadyState;
  ws_isAlive : bool;
  outbox : list frame;
  terminated : bool;
  send_fault : jsval -> option js_error
}.

(** The metadata record stored in the [clients] map. *)
Record Client : Type := mkClient {
  client_ws : nat;
  client_id : string;
  client_ip : string;
  connectedAt : Z;
  client_type : jsval;
  isAlive : bool;
  messageCount : Z
}.

(** The text [`${clientId} (${shown})`] of [getClientInfo], kept as its
    parts; [shown] is absent when the id has no record. *)
Record client_info : Type := mkInfo { info_id : string; info_shown : option jsval }.

(** The lines of the console the properties below read. *)
Inductive log_entry : Type :=
| LogConnection (id : string)
| LogReceived (info : client_info)
| LogClientType (v : jsval)
| LogBroadcast (hexCode : jsval) (others : Z)
| LogProcessingError (id : string) (msg : string)
| LogSendError (msg : string)
| LogClosed (info : client_info) (remaining : Z)
| LogSocketError (info : client_info)
| LogTerminating (id : string)
| LogForcedShutdown.

Record State : Type := mkState {
  wss_clients : list WebSocket;      (* the set of the ws server, in insertion order *)
  clients : gmap string Client;
  clientIdCounter : Z;
  next_handle : nat;                 (* the next fresh object identity *)
  heartbeatTimer : bool;             (* the interval is still set *)
  wss_closing : bool;                (* wss.close(cb) called, cb pending *)
  http_closing : bool;               (* server.close(cb) called, cb pending *)
  grace_timers : list Z;             (* due times of the pending forced exits *)
  exit_code : option Z;              (* process.exit(code) was reached *)
  console : list log_entry
}.

Definition initial : State :=
  mkState [] ∅ 1 0 true false false [] None [].

Definition set_wss_clients (f : list WebSocket -> list WebSocket) (st : State) : State :=
  mkState (f (wss_clients st)) (clients st) (clientIdCounter st) (next_handle st)
    (heartbeatTimer st) (wss_closing st) (http_closing st) (grace_timers st)
    (exit_code st) (console st).

Definition set_clients (f : gmap string Client -> gmap string Client) (st : State) : State :=
  mkState (wss_clients st) (f (clients st)) (clientIdCounter st) (next_handle st)
    (heartbeatTimer st) (wss_closing st) (http_closing st) (grace_timers st)
    (exit_code st) (console st).

Definition log (e : log_entry) (st : State) : State :=
  mkState (wss_clients st) (clients st) (clientIdCounter st) (next_handle st)
    (heartbeatTimer st) (wss_closing st) (http_closing st) (grace_timers st)
    (exit_code st) (console st ++ [e]).

Definition process_exit (code : Z) (st : State) : State :=
  mkState (wss_clients st) (clients st) (clientIdCounter st) (next_handle st)
    (heartbeatTimer st) (wss_closing st) (http_closing st) (grace_timers st)
    (Some code) (console st).

(** [n++] on a number holding an integer between 0 and 2^53: doubles
    hold every such integer, and [2^53 + 1] rounds back to [2^53]. *)
Definition js_succ (n : Z) : Z := if (n <? 2 ^ 53)%Z then (n + 1)%Z else n.

(** [generateClientId] *)
Definition generateClientId : M State string :=
  fun st =>
    (Normal ("client_" +:+ pretty (clientIdCounter st)),
     mkState (wss_clients st) (clients st) (js_succ (clientIdCounter st))
       (next_handle st) (heartbeatTimer st) (wss_closing st) (http_closing st)
       (grace_timers st) (exit_code st) (console st)).

(** [getClientInfo(clientId)]: the template converts the type of the
    record to text, which raises for a type that is not [printable]. *)
Definition getClientInfo (id : string) : M State client_info :=
  fun st =>
    match clients st !! id with
    | None => (Normal (mkInfo id None), st)
    | Some client =>
        let shown := js_or (client_type client) (JStr "unknown") in
        match interpolate shown with
        | Normal _ => (Normal (mkInfo id (Some shown)), st)
        | Throw e => (Throw e, st)
        end
    end.

(** *** The socket operations of the ws package *)

Definition put (f : frame) (c : WebSocket) : WebSocket :=
  mkSocket (handle c) (clientId c) (readyState c) (ws_isAlive c)
    (outbox c ++ [f]) (terminated c) (send_fault c).

Definition set_readyState (r : ReadyState) (c : WebSocket) : WebSocket :=
  mkSocket (handle c) (clientId c) r (ws_isAlive c) (outbox c) (terminated c)
    (send_fault c).

Definition set_isAlive (b : bool) (c : WebSocket) : WebSocket :=
  mkSocket (handle c) (clientId c) (readyState c) b (outbox c) (terminated c)
    (send_fault c).

Definition set_clientId (id : string) (c : WebSocket) : WebSocket :=
  mkSocket (handle c) id (readyState c) (ws_isAlive c) (outbox c) (terminated c)
    (send_fault c).

(** [ws.send(data)], called by the script on open sockets only: the
    datum goes on the wire, or the call raises. *)
Definition ws_send (data : jsval) (c : WebSocket) : completion unit * WebSocket :=
  match send_fault c data with
  | Some e => (Throw e, c)
  | None => (Normal tt, put (Data data) c)
  end.

(** [ws.close(code, reason)] on an open socket sends the close frame
    and starts the closing handshake. *)
Definition ws_close (code : Z) (reason : string) (c : WebSocket) : WebSocket :=
  match readyState c with
  | OPEN => set_readyState CLOSING (put (CloseFrame code reason) c)
  | _ => c
  end.

(** [ws.terminate()] destroys the connection without a frame; the close
    event of the socket comes later. *)
Definition ws_terminate (c : WebSocket) : WebSocket :=
  match readyState c with
  | CLOSED => c
  | _ =>
      mkSocket (handle c) (clientId c) CLOSING (ws_isAlive c) (outbox c) true
        (send_fault c)
  end.

(** [ws.ping()] sends a probe on an open socket; on a socket that is
    closing or closed the probe goes nowhere. *)
Definition ws_ping (c : WebSocket) : WebSocket :=
  match readyState c with
  | OPEN => put Ping c
  | _ => c
  end.

(** [wss.clients.forEach(body)]: the sockets are visited in order; a
    raise in [body] ends the visit and leaves the rest untouched. *)
Fixpoint forEach (body : WebSocket -> completion unit * WebSocket)
  (l : list WebSocket) : completion unit * list WebSocket :=
  match l with
  | [] => (Normal tt, [])
  | c :: rest =>
      match body c with
      | (Normal _, c') =>
          let (r, rest') := forEach body rest in (r, c' :: rest')
      | (Throw e, c') => (Throw e, c' :: rest)
      end
  end.

Definition wss_forEach (body : WebSocket -> completion unit * WebSocket) : M State unit :=
  fun st =>
    let (r, l) := forEach body (wss_clients st) in
    (r, set_wss_clients (fun _ => l) st).

Definition is_sender (sender : option nat) (c : WebSocket) : bool :=
  match sender with
  | Some h => Nat.eqb (handle c) h
  | None => false
  end.

(** *** Broadcasting functions *)

(** The body of the loop of [broadcast]. *)
Definition broadcast_body (message : jsval) (sender : option nat) (client : WebSocket)
  : completion unit * WebSocket :=
  if negb (is_sender sender client) && is_open (readyState client)
  then ws_send message client
  else (Normal tt, client).

(** [broadcast(message, sender = null)]; the function has no [return],
    so a call that completes yields [undefined]. *)
Definition broadcast (message : jsval) (sender : option nat) : M State jsval :=
  wss_forEach (broadcast_body message sender) ;;;
  ret JUndefined.

Definition system_message (message timestamp : string) : string :=
  Json.stringify_record
    [("type", "system"); ("message", message); ("timestamp", timestamp)].

(** [broadcastSystemMessage(message, sender = null)]; [timestamp] is
    what [new Date().toISOString()] answers. *)
Definition broadcastSystemMessage (message timestamp : string) (sender : option nat)
  : M State jsval :=
  broadcast (JStr (system_message message timestamp)) sender ;;;
  ret JUndefined.

Definition find_socket (h : nat) (st : State) : option WebSocket :=
  List.find (fun c => Nat.eqb (handle c) h) (wss_clients st).

Definition update_socket (h : nat) (f : WebSocket -> WebSocket) (st : State) : State :=
  set_wss_clients (List.map (fun c => if Nat.eqb (handle c) h then f c else c)) st.

(** [sendToClient(ws, message)] for the socket [h] of the set. *)
Definition sendToClient (h : nat) (message : string) : M State unit :=
  fun st =>
    match find_socket h st with
    | Some ws =>
        if is_open (readyState ws) then
          match ws_send (JStr message) ws with
          | (Normal _, ws') => (Normal tt, update_socket h (fun _ => ws') st)
          | (Throw error, _) => (Normal tt, log (LogSendError (err_message error)) st)
          end
        else (Normal tt, st)
    | None => (Normal tt, st)
    end.

(** *** Event handlers *)

(** What the handlers read from the clock: [Date.now()] in milliseconds
    and [new Date().toISOString()]. *)
Record Clock : Type := mkClock { now_ms : Z; now_iso : string }.

(** The ws server adds the new socket to its set, then emits
    [connection]; the handler of the script follows.  [ip] is
    [req.socket.remoteAddress], [fault] the disposition of the new
    transport. *)
Definition on_connection (ip : string) (clk : Clock) (fault : jsval -> option js_error)
  : M State unit :=
  fun st =>
    let h := next_handle st in
    let ws := mkSocket h EmptyString OPEN true [] false fault in
    let st1 :=
      mkState (wss_clients st ++ [ws]) (clients st) (clientIdCounter st) (S h)
        (heartbeatTimer st) (wss_closing st) (http_closing st) (grace_timers st)
        (exit_code st) (console st) in
    (id <- generateClientId ;;
     modify (set_clients
               (insert id (mkClient h id ip (now_ms clk) (JStr "unknown") true 0))) ;;;
     modify (update_socket h (set_clientId id)) ;;;
     modify (log (LogConnection id)) ;;;
     modify (update_socket h (set_isAlive true))) st1.

Definition incr_messageCount (c : Client) : Client :=
  mkClient (client_ws c) (client_id c) (client_ip c) (connectedAt c) (client_type c)
    (isAlive c) (js_succ (messageCount c)).

Definition set_type (v : jsval) (c : Client) : Client :=
  mkClient (client_ws c) (client_id c) (client_ip c) (connectedAt c) v
    (isAlive c) (messageCount c).

Definition set_client_alive (c : Client) : Client :=
  mkClient (client_ws c) (client_id c) (client_ip c) (connectedAt c) (client_type c)
    true (messageCount c).

(** Lines 134-148: the inner [try] around [JSON.parse].  The answer is
    the pair of [isJson] and [parsedData].  [isJson] is set before
    [parsedData.clientType] is read, so whatever raises after the parse
    (the read of a property of [null], the log line for a type that is
    not printable) is caught with [isJson] already true and leaves the
    text in [parsedData]. *)
Definition parse_payload (id : string) (has_client : bool) (message : string)
  : M State (bool * jsval) :=
  fun st =>
    match Json.parse message with
    | Throw _ => (Normal (false, JStr message), st)
    | Normal parsedData =>
        try_catch
          (declared <- lift (get_prop parsedData "clientType") ;;
           (if truthy declared && has_client then
              modify (set_clients (alter (set_type declared) id)) ;;;
              lift (interpolate declared) ;;;
              modify (log (LogClientType declared))
            else ret tt) ;;;
           ret (true, parsedData))
          (fun _ => ret (true, JStr message)) st
    end.

(** Line 151:
    [isJson ? (parsedData.color || parsedData.message || message) : message] *)
Definition extract_hexCode (isJson : bool) (parsedData : jsval) (message : string)
  : completion jsval :=
  if isJson then
    match get_prop parsedData "color" with
    | Throw e => Throw e
    | Normal color =>
        if truthy color then Normal color
        else
          match get_prop parsedData "message" with
          | Throw e => Throw e
          | Normal m => Normal (js_or m (JStr message))
          end
    end
  else Normal (JStr message).

(** Lines 133-151 together: the classifier of the payload. *)
Definition classify (id : string) (has_client : bool) (message : string)
  : M State jsval :=
  r <- parse_payload id has_client message ;;
  lift (extract_hexCode (fst r) (snd r) message).

Definition error_notice (detail : string) : string :=
  Json.stringify_record
    [("type", "error"); ("message", "Failed to process message"); ("error", detail)].

(** The body of the outer [try] of the message handler; [message] is
    [data.toString()]. *)
Definition message_try (h : nat) (id : string) (message : string) : M State unit :=
  st <- get ;;
  let client := clients st !! id in
  match client with
  | Some _ => modify (set_clients (alter incr_messageCount id))
  | None => ret tt
  end ;;;
  info <- getClientInfo id ;;
  modify (log (LogReceived info)) ;;;
  hexCode <- classify id (bool_decide (is_Some client)) message ;;
  broadcast hexCode (Some h) ;;;
  st' <- get ;;
  lift (interpolate hexCode) ;;;
  modify (log (LogBroadcast hexCode (Z.of_nat (List.length (wss_clients st')) - 1))).

Definition message_handler (h : nat) (id : string) (message : string) : M State unit :=
  try_catch (message_try h id message)
    (fun error =>
       modify (log (LogProcessingError id (err_message error))) ;;;
       sendToClient h (error_notice (err_message error))).

(** The handlers close over [ws] and [clientId]; [ws.clientId] holds the
    same id, so the socket found by its handle gives both.  An event
    for a socket that has left the set does not occur. *)
Definition on_message (h : nat) (message : string) : M State unit :=
  fun st =>
    match find_socket h st with
    | Some ws => message_handler h (clientId ws) message st
    | None => (Normal tt, st)
    end.

(** The ws server removes the socket from its set at the close event;
    the handler of the script follows. *)
Definition on_close (h : nat) (clk : Clock) : M State unit :=
  fun st =>
    match find_socket h st with
    | Some ws =>
        let id := clientId ws in
        let st1 :=
          set_wss_clients (List.filter (fun c => negb (Nat.eqb (handle c) h))) st in
        (info <- getClientInfo id ;;
         st2 <- get ;;
         modify (log (LogClosed info (Z.of_nat (List.length (wss_clients st2)) - 1))) ;;;
         modify (set_clients (delete id)) ;;;
         broadcastSystemMessage ("Client " +:+ id +:+ " left") (now_iso clk) None ;;;
         ret tt) st1
    | None => (Normal tt, st)
    end.

(** The [error] listener of a socket only writes a log line. *)
Definition on_error (h : nat) : M State unit :=
  fun st =>
    match find_socket h st with
    | Some ws =>
        (info <- getClientInfo (clientId ws) ;;
         modify (log (LogSocketError info))) st
    | None => (Normal tt, st)
    end.

Definition on_pong (h : nat) : M State unit :=
  fun st =>
    match find_socket h st with
    | Some ws =>
        (modify (update_socket h (set_isAlive true)) ;;;
         modify (set_clients (alter set_client_alive (clientId ws)))) st
    | None => (Normal tt, st)
    end.

(** *** Connection health check *)

(** The body of the loop of [heartbeat]: the lines it writes to the
    console, and what it does to the socket. *)
Definition heartbeat_body (ws : WebSocket)
  : list log_entry * (completion unit * WebSocket) :=
  if negb (ws_isAlive ws)
  then ([LogTerminating (clientId ws)], (Normal tt, ws_terminate ws))
  else ([], (Normal tt, ws_ping (set_isAlive false ws))).

(** [wss.clients.forEach(body)] for a body that writes to the console. *)
Fixpoint forEach_logging
  (body : WebSocket -> list log_entry * (completion unit * WebSocket))
  (l : list WebSocket) : list log_entry * (completion unit * list WebSocket) :=
  match l with
  | [] => ([], (Normal tt, []))
  | c :: rest =>
      match body c with
      | (lines, (Normal _, c')) =>
          let '(lines', (r, rest')) := forEach_logging body rest in
          (lines ++ lines', (r, c' :: rest'))
      | (lines, (Throw e, c')) => (lines, (Throw e, c' :: rest))
      end
  end.

Definition heartbeat : M State unit :=
  fun st =>
    let '(lines, (r, l)) := forEach_logging heartbeat_body (wss_clients st) in
    (r, mkState l (clients st) (clientIdCounter st) (next_handle st)
          (heartbeatTimer st) (wss_closing st) (http_closing st) (grace_timers st)
          (exit_code st) (console st ++ lines)).

(** *** Graceful shutdown *)

Definition GRACE_PERIOD : Z := 5000.

Definition shutdown_body (shutdownMsg : string) (client : WebSocket)
  : completion unit * WebSocket :=
  if is_open (readyState client) then
    match ws_send (JStr shutdownMsg) client with
    | (Normal _, client') => (Normal tt, ws_close 1001 "Server shutdown" client')
    | (Throw e, client') => (Throw e, client')
    end
  else (Normal tt, client).

Definition clearInterval (st : State) : State :=
  mkState (wss_clients st) (clients st) (clientIdCounter st) (next_handle st)
    false (wss_closing st) (http_closing st) (grace_timers st)
    (exit_code st) (console st).

Definition wss_close (st : State) : State :=
  mkState (wss_clients st) (clients st) (clientIdCounter st) (next_handle st)
    (heartbeatTimer st) true (http_closing st) (grace_timers st)
    (exit_code st) (console st).

Definition server_close (st : State) : State :=
  mkState (wss_clients st) (clients st) (clientIdCounter st) (next_handle st)
    (heartbeatTimer st) (wss_closing st) true (grace_timers st)
    (exit_code st) (console st).

Definition setTimeout_forced_exit (due : Z) (st : State) : State :=
  mkState (wss_clients st) (clients st) (clientIdCounter st) (next_handle st)
    (heartbeatTimer st) (wss_closing st) (http_closing st) (grace_timers st ++ [due])
    (exit_code st) (console st).

Definition shutdown (clk : Clock) : M State unit :=
  modify clearInterval ;;;
  wss_forEach (shutdown_body (system_message "Server is shutting down" (now_iso clk))) ;;;
  modify wss_close ;;;
  modify (setTimeout_forced_exit (now_ms clk + GRACE_PERIOD)%Z).

(** *** The event loop *)

Inductive event : Type :=
| Connection (ip : string) (fault : jsval -> option js_error)
| Message (h : nat) (data : string)
| Close (h : nat)
| Pong (h : nat)
| SocketError (h : nat)
| HeartbeatTick
| Signal
| UnhandledRejection
| WssClosed
| HttpClosed
| Idle.

(** The listener run for an event. *)
Definition listener (clk : Clock) (ev : event) : M State unit :=
  match ev with
  | Connection ip fault => on_connection ip clk fault
  | Message h data => on_message h data
  | Close h => on_close h clk
  | Pong h => on_pong h
  | SocketError h => on_error h
  | HeartbeatTick => fun st => if heartbeatTimer st then heartbeat st else (Normal tt, st)
  | Signal => shutdown clk
  | UnhandledRejection => ret tt
  | WssClosed => fun st => if wss_closing st then (Normal tt, server_close st) else (Normal tt, st)
  | HttpClosed => fun st => if http_closing st then (Normal tt, process_exit 0 st) else (Normal tt, st)
  | Idle => ret tt
  end.

(** The handler of [uncaughtException] calls [shutdown]; an error raised
    by that handler itself ends the process with Node's status 7. *)
Definition on_uncaughtException (clk : Clock) (st : State) : State :=
  match shutdown clk st with
  | (Normal _, st') => st'
  | (Throw _, st') => process_exit 7 st'
  end.

(** A forced exit whose time has come runs before the event at hand. *)
Definition fire_timers (clk : Clock) (st : State) : State :=
  if existsb (fun due => (due <=? now_ms clk)%Z) (grace_timers st)
  then process_exit 1 (log LogForcedShutdown st)
  else st.

Definition dispatch (clk : Clock) (ev : event) (st : State) : State :=
  match exit_code st with
  | Some _ => st
  | None =>
      let st1 := fire_timers clk st in
      match exit_code st1 with
      | Some _ => st1
      | None =>
          match listener clk ev st1 with
          | (Normal _, st2) => st2
          | (Throw _, st2) => on_uncaughtException clk st2
          end
      end
  end.

Fixpoint run (trace : list (Clock * event)) (st : State) : State :=
  match trace with
  | [] => st
  | (clk, ev) :: rest => run rest (dispatch clk ev st)
  end.

(** *** What the properties below speak of *)

(** The identities handed out so far, oldest first (the console line
    [New connection: id] of each accept). *)
Definition assigned_ids (st : State) : list string :=
  omap (fun e => match e with LogConnection id => Some id | _ => None end) (console st).

(** The sockets a call of [broadcast] sends to: every open one but the
    sender. *)
Definition is_target (sender : option nat) (c : WebSocket) : bool :=
  negb (is_sender sender c) && is_open (readyState c).

(** What one cycle of the heartbeat does to a socket, and the lines
    the cycle writes for a list of sockets. *)
Definition heartbeat_step (c : WebSocket) : WebSocket :=
  if ws_isAlive c then ws_ping (set_isAlive false c) else ws_terminate c.

Definition terminating_lines (l : list WebSocket) : list log_entry :=
  List.map (fun c => LogTerminating (clientId c))
    (List.filter (fun c => negb (ws_isAlive c)) l).

(** The lines [lines] written after the console of [st]. *)
Definition log_all (lines : list log_entry) (st : State) : State :=
  fold_left (fun s e => log e s) lines st.

(** The number of frames a list of sockets has sent. *)
Definition frames_sent (l : list WebSocket) : nat :=
  list_sum (List.map (fun c => List.length (outbox c)) l).

(** The data a socket has sent. *)
Definition data_sent (c : WebSocket) : list jsval :=
  omap (fun f => match f with Data d => Some d | _ => None end) (outbox c).

(** The member [k] of a parsed value, [undefined] when the value is not
    an object or has no such member. *)
Definition field (v : jsval) (k : string) : jsval :=
  match v with
  | JObj fields => own_property k fields
  | _ => JUndefined
  end.

(** The role a payload declares: its truthy [clientType]. *)
Definition declared_role (message : string) : option jsval :=
  match Json.parse message with
  | Throw _ => None
  | Normal v => if truthy (field v "clientType") then Some (field v "clientType") else None
  end.

(** The token the handler forwards for a payload; [has_client] tells
    whether the sender has a record. *)
Definition hexCode_of (has_client : bool) (message : string) : jsval :=
  match Json.parse message with
  | Throw _ => JStr message
  | Normal v =>
      let declared := field v "clientType" in
      if truthy declared && has_client && negb (printable declared) then JStr message
      else js_or (field v "color") (js_or (field v "message") (JStr message))
  end.

(** What the handler of a message does to the record of the sender
    before it forwards: the message is counted, and the role the payload
    declares is recorded, also when the log line for it raises. *)
Definition counted (id : string) (st : State) : State :=
  match clients st !! id with
  | Some _ => set_clients (alter incr_messageCount id) st
  | None => st
  end.

Definition role_update (id : string) (has_client : bool) (message : string) (st : State)
  : State :=
  match declared_role message with
  | Some role =>
      if has_client then
        let st1 := set_clients (alter (set_type role) id) st in
        if printable role then log (LogClientType role) st1 else st1
      else st
  | None => st
  end.

(** The token as the specification words it: the value of the field
    [color] when the payload has one, else the value of the field
    [message], else the text; the text when the payload does not
    parse. *)
Definition spec_token (message : string) : jsval :=
  match Json.parse message with
  | Throw _ => JStr message
  | Normal v =>
      match field v "color" with
      | JUndefined =>
          match field v "message" with
          | JUndefined => JStr message
          | m => m
          end
      | color => color
      end
  end.

(** The count the specification has [broadcast] answer: the sockets
    the call has sent to. *)
Definition spec_delivery_count (sender : option nat) (st : State) : Z :=
  Z.of_nat (List.length (List.filter (is_target sender) (wss_clients st))).

(** The states the server reaches from its start. *)
Definition reachable (st : State) : Prop :=
  exists trace, st = run trace initial.

(** A computation preserves an observation of the state when the
    state it ends in, raising or not, shows what the state it started
    in showed. *)
Definition preserves {X A : Type} (obs : State -> X) (m : M State A) : Prop :=
  forall st, obs (snd (m st)) = obs st.

(** What is allotted to the connections: the counter of the ids and
    the ids handed out. *)
Definition allotted (st : State) : Z * list string :=
  (clientIdCounter st, assigned_ids st).

(** The course of the process: the timers, the servers being closed
    and the exit. *)
Definition lifecycle (st : State) : bool * bool * bool * list Z * option Z :=
  (heartbeatTimer st, wss_closing st, http_closing st, grace_timers st, exit_code st).


Definition shutdown_notice (clk : Clock) : jsval :=
  JStr (system_message "Server is shutting down" (now_iso clk)).

(** The [n]-th id the server hands out. *)
Definition nth_id (n : nat) : string :=
  "client_" +:+ pretty (Z.min (Z.of_nat n) (2 ^ 53)).

(** *** Sample runs *)

Definition no_fault : jsval -> option js_error := fun _ => None.

Definition broken_pipe : jsval -> option js_error :=
  fun _ => Some (mkError "Error" "write EPIPE").

Definition noon : Clock := mkClock 1769596200000 "2026-01-28T10:30:00.000Z".

Definition accept : Clock * event := (noon, Connection "::1" no_fault).

(** Two and three clients that have connected and sent nothing yet;
    their sockets are 0, 1 and 2, their ids client_1 to client_3. *)
Definition two_clients : State := run [accept; accept] initial.

Definition three_clients : State := run [accept; accept; accept] initial.

(** Three clients, the second of which has a socket that raises on
    [send]. *)
Definition faulty_second : State :=
  run [accept; (noon, Connection "::1" broken_pipe); accept] initial.

(** Two clients after two heartbeats of which only the first client
    has answered the first: the socket of the second is terminated and
    its close event has not come yet. *)
Definition one_silent : State :=
  run [accept; accept; (noon, HeartbeatTick); (noon, Pong 0); (noon, HeartbeatTick)] initial.

(** Two clients after one heartbeat that only the first has answered. *)
Definition one_unanswered : State :=
  run [accept; accept; (noon, HeartbeatTick); (noon, Pong 0)] initial.

(** A payload whose [clientType] is an object with an own member
    [toString], and two clients of which the first has sent it. *)
Definition rogue_message : string :=
  Json.dq "{'clientType':{'toString':0}}".

Definition rogue_client : State :=
  run [accept; accept; (noon, Message 0 rogue_message)] initial.

Definition later : Clock := mkClock 1769596201000 "2026-01-28T10:30:01.000Z".

Definition unity_message : string :=
  Json.dq "{'color':'#FF0000','clientType':'unity'}".

Definition web_message : string := Json.dq "{'clientType':'web'}".

Definition number_role_message : string := Json.dq "{'clientType':42}".

Definition falsy_color_message : string :=
  Json.dq "{'color':'','message':'#00FF00'}".

End Server.

(** ** The browser client (script.js and config.js) *)

Module Browser.

Local Open Scope js_scope.

(** config.js *)
Definition WS_SERVER_URL (hostname : string) : string :=
  if String.eqb hostname "localhost" || String.eqb hostname "127.0.0.1"
  then "ws://localhost:8080"
  else "wss://vrcia-controller-site.onrender.com".

Definition RECONNECT_INTERVAL : Z := 3000.
Definition MAX_RECONNECT_ATTEMPTS : Z := 5.

Inductive ReadyState : Type := CONNECTING | OPEN | CLOSING | CLOSED.

Definition is_open (r : ReadyState) : bool :=
  match r with OPEN => true | _ => false end.

Definition is_connecting (r : ReadyState) : bool :=
  match r with CONNECTING => true | _ => false end.

(** What a call can throw, as the [catch] of [sendData] sees it: an
    Error object, whose [message] is a text; [undefined] or [null], of
    which no property can be read; or any other value, given by what
    [`${error.message}`] comes to for it: a text ([undefined] for a
    value without that property), or the error that the read of the
    property or its conversion to text raises. *)
Inductive thrown : Type :=
| ThrownError (e : js_error)
| ThrownUndefined
| ThrownNull
| ThrownOther (message : completion string).

(** What a method of an object of the caller's making does when it is
    called: it returns a text or it throws. *)
Inductive outcome : Type :=
| Returns (text : string)
| Throws (error : thrown).

(** The argument of [sendData], which any script on the page can call:
    a value of the kind JSON writes (a text among them), or an object
    with a method [toString] of its own. *)
Inductive datum : Type :=
| Value (v : jsval)
| Custom (toString : outcome).

(** The browser's socket: [send_calls] counts the calls of [send],
    [sent] lists the data it accepted, [send_fault] tells which data
    make it raise and what it then throws, [close_calls] counts the
    calls of [close]. *)
Record WebSocket : Type := mkSocket {
  url : string;
  readyState : ReadyState;
  send_calls : nat;
  sent : list datum;
  send_fault : datum -> option thrown;
  close_calls : nat
}.

(** An element of the page the script writes to. *)
Record Element : Type := mkElement { textContent : string; classList : list string }.

(** A button of class [color-btn] with its two data attributes. *)
Record Button : Type := mkButton {
  data_color : option string;
  data_name : option string;
  disabled : bool;
  opacity : string
}.

(** The callbacks the script hands to [setTimeout]. *)
Inductive timer : Type :=
| Reconnect                          (* line 126, after RECONNECT_INTERVAL *)
| ClearMessage (message : string)    (* line 209, after 3 seconds *)
| RestoreOpacity (button : nat).     (* line 254, after 150 ms *)

Inductive log_entry : Type :=
| LogSent (data : datum)
| LogSendError (error : thrown)
| LogConnectError (e : js_error)
| LogNoColor
| LogReconnectAttempt (n : Z).

(** The module state of script.js (its four variables), the page it
    reads and writes, and the browser around it: the pending timers,
    the sockets the variable [websocket] no longer refers to, and what
    the constructor of a socket does. *)
Record Page : Type := mkPage {
  websocket : option WebSocket;
  reconnectAttempts : Z;
  reconnectTimer : option positive;
  isManualDisconnect : bool;
  connectionStatus : option Element;
  messageDisplay : option Element;
  colorButtons : list Button;
  timers : list (positive * timer);
  next_timer : positive;
  released : list WebSocket;
  hostname : string;
  construct_fault : option js_error;
  transport_fault : datum -> option thrown;
  console : list log_entry
}.

Definition set_websocket (w : option WebSocket) (p : Page) : Page :=
  mkPage w (reconnectAttempts p) (reconnectTimer p) (isManualDisconnect p)
    (connectionStatus p) (messageDisplay p) (colorButtons p) (timers p) (next_timer p)
    (released p) (hostname p) (construct_fault p) (transport_fault p) (console p).

Definition set_reconnectAttempts (n : Z) (p : Page) : Page :=
  mkPage (websocket p) n (reconnectTimer p) (isManualDisconnect p)
    (connectionStatus p) (messageDisplay p) (colorButtons p) (timers p) (next_timer p)
    (released p) (hostname p) (construct_fault p) (transport_fault p) (console p).

Definition set_reconnectTimer (t : option positive) (p : Page) : Page :=
  mkPage (websocket p) (reconnectAttempts p) t (isManualDisconnect p)
    (connectionStatus p) (messageDisplay p) (colorButtons p) (timers p) (next_timer p)
    (released p) (hostname p) (construct_fault p) (transport_fault p) (console p).

Definition set_isManualDisconnect (b : bool) (p : Page) : Page :=
  mkPage (websocket p) (reconnectAttempts p) (reconnectTimer p) b
    (connectionStatus p) (messageDisplay p) (colorButtons p) (timers p) (next_timer p)
    (released p) (hostname p) (construct_fault p) (transport_fault p) (console p).

Definition set_connectionStatus (e : Element) (p : Page) : Page :=
  mkPage (websocket p) (reconnectAttempts p) (reconnectTimer p) (isManualDisconnect p)
    (Some e) (messageDisplay p) (colorButtons p) (timers p) (next_timer p)
    (released p) (hostname p) (construct_fault p) (transport_fault p) (console p).

Definition set_messageDisplay (e : Element) (p : Page) : Page :=
  mkPage (websocket p) (reconnectAttempts p) (reconnectTimer p) (isManualDisconnect p)
    (connectionStatus p) (Some e) (colorButtons p) (timers p) (next_timer p)
    (released p) (hostname p) (construct_fault p) (transport_fault p) (console p).

Definition set_colorButtons (f : list Button -> list Button) (p : Page) : Page :=
  mkPage (websocket p) (reconnectAttempts p) (reconnectTimer p) (isManualDisconnect p)
    (connectionStatus p) (messageDisplay p) (f (colorButtons p)) (timers p) (next_timer p)
    (released p) (hostname p) (construct_fault p) (transport_fault p) (console p).

Definition set_timers (ts : list (positive * timer)) (next : positive) (p : Page) : Page :=
  mkPage (websocket p) (reconnectAttempts p) (reconnectTimer p) (isManualDisconnect p)
    (connectionStatus p) (messageDisplay p) (colorButtons p) ts next
    (released p) (hostname p) (construct_fault p) (transport_fault p) (console p).

Definition release (w : WebSocket) (p : Page) : Page :=
  mkPage (websocket p) (reconnectAttempts p) (reconnectTimer p) (isManualDisconnect p)
    (connectionStatus p) (messageDisplay p) (colorButtons p) (timers p) (next_timer p)
    (released p ++ [w]) (hostname p) (construct_fault p) (transport_fault p) (console p).

Definition console_log (e : log_entry) (p : Page) : Page :=
  mkPage (websocket p) (reconnectAttempts p) (reconnectTimer p) (isManualDisconnect p)
    (connectionStatus p) (messageDisplay p) (colorButtons p) (timers p) (next_timer p)
    (released p) (hostname p) (construct_fault p) (transport_fault p) (console p ++ [e]).

(** *** The browser's interface *)

(** [setTimeout(callback, delay)] answers the id of the new timer. *)
Definition setTimeout (t : timer) : M Page positive :=
  fun p =>
    (Normal (next_timer p),
     set_timers (timers p ++ [(next_timer p, t)]) (Pos.succ (next_timer p)) p).

(** [clearTimeout(id)] *)
Definition clearTimeout (id : positive) (p : Page) : Page :=
  set_timers (List.filter (fun t => negb (Pos.eqb (fst t) id)) (timers p)) (next_timer p) p.

(** [classList.remove(...names)] and [classList.add(name)] *)
Definition classList_remove (names : list string) (l : list string) : list string :=
  List.filter (fun c => negb (existsb (String.eqb c) names)) l.

Definition classList_add (name : string) (l : list string) : list string :=
  if existsb (String.eqb name) l then l else l ++ [name].

Definition set_property_error (k : string) : js_error :=
  mkError "TypeError" ("Cannot set properties of null (setting '" +:+ k +:+ "')").

(** [new WebSocket(url)] *)
Definition new_WebSocket (address : string) : M Page WebSocket :=
  fun p =>
    match construct_fault p with
    | Some e => (Throw e, p)
    | None => (Normal (mkSocket address CONNECTING 0 [] (transport_fault p) 0), p)
    end.

(** [websocket.close()] without arguments never raises; it starts the
    closing handshake unless the socket is closing or closed already. *)
Definition ws_close (w : WebSocket) : WebSocket :=
  mkSocket (url w)
    (match readyState w with CLOSED => CLOSED | _ => CLOSING end)
    (send_calls w) (sent w) (send_fault w) (S (close_calls w)).

(** The conversion of the argument of [send] to the text to send: a
    value of the JSON kind is converted as a template literal converts
    it, an object with its own [toString] by the call of that method. *)
Definition conversion (data : datum) : option thrown :=
  match data with
  | Value v => if printable v then None else Some (ThrownError to_primitive_error)
  | Custom (Returns _) => None
  | Custom (Throws error) => Some error
  end.

Inductive send_result : Type :=
| Returned
| Raised (error : thrown).

Definition invalid_state_error : js_error :=
  mkError "InvalidStateError" "Still in CONNECTING state.".

(** [websocket.send(data)] on the socket the variable refers to: the
    argument is converted; then a socket that is still connecting
    throws, an open socket takes the data unless it has a fault of its
    own, and a socket that is closing or closed drops them. *)
Definition websocket_send (data : datum) (p : Page) : send_result * Page :=
  match websocket p with
  | None => (Raised (ThrownError (type_error "null" "send")), p)
  | Some ws =>
      let called sent' :=
        set_websocket
          (Some (mkSocket (url ws) (readyState ws) (S (send_calls ws)) sent'
                   (send_fault ws) (close_calls ws))) p in
      match conversion data with
      | Some error => (Raised error, called (sent ws))
      | None =>
          match readyState ws with
          | CONNECTING => (Raised (ThrownError invalid_state_error), called (sent ws))
          | OPEN =>
              match send_fault ws data with
              | Some error => (Raised error, called (sent ws))
              | None => (Returned, called (sent ws ++ [data]))
              end
          | CLOSING | CLOSED => (Returned, called (sent ws))
          end
      end
  end.

(** *** UI update functions *)

(** [updateConnectionStatus(isConnected)] *)
Definition updateConnectionStatus (isConnected : bool) : M Page unit :=
  fun p =>
    match connectionStatus p with
    | None => (Throw (set_property_error "textContent"), p)
    | Some el =>
        (Normal tt,
         set_connectionStatus
           (if isConnected
            then mkElement "Connected"
                   (classList_add "connected" (classList_remove ["disconnected"] (classList el)))
            else mkElement "Disconnected"
                   (classList_add "disconnected" (classList_remove ["connected"] (classList el))))
           p)
    end.

(** [displayMessage(message, type)] *)
Definition displayMessage (message type : string) : M Page unit :=
  fun p =>
    match messageDisplay p with
    | None => (Throw (set_property_error "textContent"), p)
    | Some el =>
        let removed := classList_remove ["success"; "error"; "info"] (classList el) in
        let classes :=
          if String.eqb type "success" || String.eqb type "error"
          then classList_add type removed else removed in
        let p1 := set_messageDisplay (mkElement message classes) p in
        if String.eqb type "success"
        then (setTimeout (ClearMessage message) ;;; ret tt) p1
        else (Normal tt, p1)
    end.

(** [enableButtons(enabled)] *)
Definition enableButtons (enabled : bool) (p : Page) : Page :=
  set_colorButtons
    (List.map (fun b => mkButton (data_color b) (data_name b) (negb enabled) (opacity b))) p.

(** *** Connection management *)

(** [scheduleReconnect()]; the callback of the timer is [Reconnect]. *)
Definition scheduleReconnect : M Page unit :=
  p <- get ;;
  match reconnectTimer p with
  | Some id => modify (clearTimeout id)
  | None => ret tt
  end ;;;
  if (MAX_RECONNECT_ATTEMPTS <=? reconnectAttempts p)%Z then
    displayMessage
      "Failed to reconnect after 5 attempts. Please refresh the page." "error"
  else
    modify (set_reconnectAttempts (reconnectAttempts p + 1)%Z) ;;;
    id <- setTimeout Reconnect ;;
    modify (set_reconnectTimer (Some id)).

(** [connectWebSocket()] *)
Definition connectWebSocket : M Page unit :=
  try_catch
    (p <- get ;;
     if match websocket p with
        | Some ws => is_connecting (readyState ws)
        | None => false
        end
     then ret tt
     else
       displayMessage "Connecting to server..." "info" ;;;
       ws <- new_WebSocket (WS_SERVER_URL (hostname p)) ;;
       modify (fun q =>
                 set_websocket (Some ws)
                   (match websocket q with Some old => release old q | None => q end)))
    (fun error =>
       modify (console_log (LogConnectError error)) ;;;
       updateConnectionStatus false ;;;
       displayMessage ("Connection failed: " +:+ err_message error) "error" ;;;
       scheduleReconnect).

(** [handleConnectionOpen()] *)
Definition handleConnectionOpen : M Page unit :=
  modify (set_reconnectAttempts 0) ;;;
  modify (set_isManualDisconnect false) ;;;
  updateConnectionStatus true ;;;
  modify (enableButtons true) ;;;
  displayMessage "Connected to server. Ready to send colors!" "success".

(** [handleConnectionClose(event)] *)
Definition handleConnectionClose : M Page unit :=
  updateConnectionStatus false ;;;
  modify (enableButtons false) ;;;
  p <- get ;;
  if negb (isManualDisconnect p) then
    displayMessage "Connection lost. Attempting to reconnect..." "error" ;;;
    scheduleReconnect
  else displayMessage "Disconnected from server" "info".

(** [handleConnectionError(error)] *)
Definition handleConnectionError : M Page unit :=
  displayMessage "Connection error occurred" "error".

(** [handleMessage(event)] for a text frame [data]. *)
Definition handleMessage (data : string) : M Page unit :=
  displayMessage ("Server response: " +:+ data) "info".

(** [`${error.message}`] in a [catch]. *)
Definition message_text (error : thrown) : completion string :=
  match error with
  | ThrownError e => Normal (err_message e)
  | ThrownUndefined => Throw (type_error "undefined" "message")
  | ThrownNull => Throw (type_error "null" "message")
  | ThrownOther message => message
  end.

(** [sendData(data)], exported as [window.ColorController.send].  The
    [catch] receives whatever [send] has thrown; what its own body
    raises goes to the caller. *)
Definition sendData (data : datum) : M Page bool :=
  p <- get ;;
  if match websocket p with
     | None => true
     | Some ws => negb (is_open (readyState ws))
     end
  then
    displayMessage "Cannot send: Not connected to server" "error" ;;;
    ret false
  else
    fun p0 =>
      match websocket_send data p0 with
      | (Returned, p1) =>
          (modify (console_log (LogSent data)) ;;;
           ret true) p1
      | (Raised error, p1) =>
          (modify (console_log (LogSendError error)) ;;;
           text <- lift (message_text error) ;;
           displayMessage ("Error sending data: " +:+ text) "error" ;;;
           ret false) p1
      end.

(** [disconnectWebSocket()] *)
Definition disconnectWebSocket : M Page unit :=
  modify (set_isManualDisconnect true) ;;;
  p <- get ;;
  match reconnectTimer p with
  | Some id => modify (clearTimeout id) ;;; modify (set_reconnectTimer None)
  | None => ret tt
  end ;;;
  match websocket p with
  | Some ws => modify (release (ws_close ws)) ;;; modify (set_websocket None)
  | None => ret tt
  end.

(** [window.ColorController.getStatus()]: the number of the ready
    state, or the text [Not initialized]. *)
Definition getStatus (p : Page) : jsval :=
  match websocket p with
  | Some ws =>
      JNum (match readyState ws with
            | CONNECTING => 0 | OPEN => 1 | CLOSING => 2 | CLOSED => 3
            end) 0
  | None => JStr "Not initialized"
  end.

(** *** Buttons and keys *)

Definition set_opacity (i : nat) (o : string) (p : Page) : Page :=
  set_colorButtons
    (fun bs =>
       match bs !! i with
       | Some b => <[i := mkButton (data_color b) (data_name b) (disabled b) o]> bs
       | None => bs
       end) p.

(** [handleColorButtonClick(event)] where [event.currentTarget] is the
    button at index [i]. *)
Definition handleColorButtonClick (i : nat) : M Page unit :=
  p <- get ;;
  match colorButtons p !! i with
  | None => ret tt
  | Some button =>
      match data_color button with
      | None => modify (console_log LogNoColor)
      | Some colorHex =>
          if String.eqb colorHex EmptyString then modify (console_log LogNoColor)
          else
            let colorName :=
              match data_name button with
              | Some n => if String.eqb n EmptyString then colorHex else n
              | None => colorHex
              end in
            success <- sendData (Value (JStr colorHex)) ;;
            if success then
              displayMessage ("Sent: " +:+ colorName +:+ " (" +:+ colorHex +:+ ")") "success" ;;;
              modify (set_opacity i "0.7") ;;;
              setTimeout (RestoreOpacity i) ;;;
              ret tt
            else ret tt
      end
  end.

(** [String.prototype.toLowerCase] on the letters of ASCII. *)
Definition lower (c : ascii) : ascii :=
  let n := nat_of_ascii c in
  if Nat.leb 65 n && Nat.leb n 90 then ascii_of_nat (n + 32) else c.

Definition toLowerCase (s : string) : string :=
  string_of_list_ascii (List.map lower (list_ascii_of_string s)).

(** The object literal [keyMap] of [handleKeyPress]. *)
Definition keyMap : list (string * string) :=
  [("1", "#00FF00"); ("2", "#FFFF00"); ("3", "#0080FF"); ("4", "#FFFFFF");
   ("5", "#808080"); ("6", "#000000"); ("7", "#FF00FF"); ("8", "#8000FF");
   ("9", "#FF0000"); ("0", "#00FF80"); ("q", "#FF0080"); ("w", "#80FF00");
   ("e", "#0000FF"); ("r", "#00FFFF")].

Fixpoint assoc (k : string) (l : list (string * string)) : option string :=
  match l with
  | [] => None
  | (k', v) :: rest => if String.eqb k k' then Some v else assoc k rest
  end.

(** [document.querySelector(`[data-color="${color}"]`)]: the first
    element in document order that carries the attribute with this
    value; the colour buttons are the elements that carry it. *)
Fixpoint querySelector (color : string) (bs : list Button) (i : nat) : option (nat * Button) :=
  match bs with
  | [] => None
  | b :: rest =>
      match data_color b with
      | Some c => if String.eqb c color then Some (i, b) else querySelector color rest (S i)
      | None => querySelector color rest (S i)
      end
  end.

(** [button.click()] runs the click listener of the button; what the
    listener raises is reported by the browser, not raised to the
    caller of [click]. *)
Definition click (i : nat) : M Page unit :=
  try_catch (handleColorButtonClick i) (fun _ => ret tt).

(** [handleKeyPress(event)] for [event.target.tagName] and [event.key],
    a key of the keyboard (so not the name of a member that [keyMap]
    inherits). *)
Definition handleKeyPress (tagName key : string) : M Page unit :=
  if String.eqb tagName "INPUT" || String.eqb tagName "TEXTAREA" then ret tt
  else
    match assoc (toLowerCase key) keyMap with
    | None => ret tt
    | Some color =>
        p <- get ;;
        match querySelector color (colorButtons p) 0 with
        | Some (i, button) =>
            if negb (disabled button) then click i else ret tt
        | None => ret tt
        end
    end.

(** [handleVisibilityChange()] for [document.hidden]. *)
Definition handleVisibilityChange (hidden : bool) : M Page unit :=
  p <- get ;;
  if negb hidden &&
     match websocket p with
     | None => true
     | Some ws => negb (is_open (readyState ws))
     end
  then if negb (isManualDisconnect p) then connectWebSocket else ret tt
  else ret tt.

(** *** Timers *)

(** The callback of a timer. *)
Definition callback (t : timer) : M Page unit :=
  match t with
  | Reconnect =>
      p <- get ;;
      modify (console_log (LogReconnectAttempt (reconnectAttempts p))) ;;;
      connectWebSocket
  | ClearMessage message =>
      p <- get ;;
      match messageDisplay p with
      | None => throw (type_error "null" "textContent")
      | Some el =>
          if String.eqb (textContent el) message
          then modify (set_messageDisplay
                         (mkElement EmptyString (classList_remove ["success"] (classList el))))
          else ret tt
      end
  | RestoreOpacity i => modify (set_opacity i "1")
  end.

(** The timer [id] comes due: it leaves the pending ones and its
    callback runs. *)
Definition fire (id : positive) : M Page unit :=
  p <- get ;;
  match List.find (fun t => Pos.eqb (fst t) id) (timers p) with
  | Some (_, t) => modify (clearTimeout id) ;;; callback t
  | None => ret tt
  end.

(** [init()]: the buttons start disabled and the first connection is
    attempted. *)
Definition init : M Page unit :=
  modify (enableButtons false) ;;;
  displayMessage "Initializing connection..." "info" ;;;
  connectWebSocket.

(** *** The events of the page *)

(** What the browser brings to the script: the events of a socket the
    script made ([current] tells whether it is the socket the variable
    [websocket] refers to, whose ready state has then changed), a timer
    that comes due, the events of the page and the calls of
    [window.ColorController]. *)
Inductive event : Type :=
| Loaded
| SocketOpens (current : bool)
| SocketCloses (current : bool)
| SocketFails
| SocketMessage (data : string)
| TimerFires (id : positive)
| ButtonClick (i : nat)
| KeyPress (tagName key : string)
| VisibilityChange (hidden : bool)
| BeforeUnload
| CallConnect
| CallDisconnect
| CallSend (data : datum).

Definition set_readyState (r : ReadyState) (p : Page) : Page :=
  match websocket p with
  | Some ws =>
      set_websocket
        (Some (mkSocket (url ws) r (send_calls ws) (sent ws) (send_fault ws) (close_calls ws))) p
  | None => p
  end.

Definition listener (ev : event) : M Page unit :=
  match ev with
  | Loaded => init
  | SocketOpens current =>
      (if current then modify (set_readyState OPEN) else ret tt) ;;; handleConnectionOpen
  | SocketCloses current =>
      (if current then modify (set_readyState CLOSED) else ret tt) ;;; handleConnectionClose
  | SocketFails => handleConnectionError
  | SocketMessage data => handleMessage data
  | TimerFires id => fire id
  | ButtonClick i => handleColorButtonClick i
  | KeyPress tagName key => handleKeyPress tagName key
  | VisibilityChange hidden => handleVisibilityChange hidden
  | BeforeUnload => disconnectWebSocket
  | CallConnect => connectWebSocket
  | CallDisconnect => disconnectWebSocket
  | CallSend data => sendData data ;;; ret tt
  end.

(** What a listener raises is reported by the browser; the page goes
    on in the state the listener left. *)
Definition dispatch (ev : event) (p : Page) : Page := snd (listener ev p).

Fixpoint run (trace : list event) (p : Page) : Page :=
  match trace with
  | [] => p
  | ev :: rest => run rest (dispatch ev p)
  end.

(** *** What the properties below speak of *)

(** The state of the script when the page has loaded it. *)
Definition script_start (p : Page) : Prop :=
  websocket p = None /\ reconnectAttempts p = 0%Z /\ reconnectTimer p = None /\
  isManualDisconnect p = false /\ timers p = [] /\ released p = [].

Definition is_reconnect (t : positive * timer) : bool :=
  match snd t with Reconnect => true | _ => false end.

(** The reconnections that are pending. *)
Definition pending_reconnects (p : Page) : list (positive * timer) :=
  List.filter is_reconnect (timers p).

(** The ids of the pending timers are distinct and were handed out
    before. *)
Definition timers_fresh (p : Page) : Prop :=
  NoDup (List.map fst (timers p)) /\
  forall t, In t (timers p) -> (fst t < next_timer p)%positive.

(** The invariant of the reconnection: the attempts are counted from 0
    to [MAX_RECONNECT_ATTEMPTS], and a pending reconnection is the timer
    the variable [reconnectTimer] names. *)
Definition reconnect_invariant (p : Page) : Prop :=
  (0 <= reconnectAttempts p <= MAX_RECONNECT_ATTEMPTS)%Z /\
  (forall t, In t (pending_reconnects p) -> reconnectTimer p = Some (fst t)) /\
  timers_fresh p.

(** A listener keeps a property of the page when it holds after the
    listener, raising or not, whenever it held before. *)
Definition keeps {A : Type} (I : Page -> Prop) (m : M Page A) : Prop :=
  forall p, I p -> I (snd (m p)).

(** The page after a manual disconnect: no socket, no reconnection
    pending. *)
Definition disconnected (p : Page) : Prop :=
  isManualDisconnect p = true /\ websocket p = None /\ pending_reconnects p = [].

(** The events that leave a page disconnected: every event but the
    opening of a socket and the calls that connect. *)
Definition stays_disconnected (ev : event) : bool :=
  match ev with
  | Loaded | SocketOpens _ | CallConnect => false
  | _ => true
  end.

(** What a call of [send] on an open socket [ws] throws, if anything:
    what the conversion of the argument throws, else what the socket
    does. *)
Definition send_raises (ws : WebSocket) (data : datum) : option thrown :=
  match conversion data with
  | Some error => Some error
  | None => send_fault ws data
  end.

(** *** Sample pages *)

(** The page as the script finds it, served from localhost, with two
    buttons; the browser constructs sockets and sends without raising. *)
Definition fresh_page : Page :=
  mkPage None 0 None false
    (Some (mkElement "Disconnected" ["status"; "disconnected"]))
    (Some (mkElement EmptyString ["message"]))
    [mkButton (Some "#FF0000") (Some "Rouge") false "1";
     mkButton (Some "#00FF00") None false "1"]
    [] 1%positive [] "localhost" None (fun _ => None) [].

(** The same page with an open socket. *)
Definition connected_page : Page :=
  set_websocket (Some (mkSocket "ws://localhost:8080" OPEN 0 [] (fun _ => None) 0)) fresh_page.

(** A page without the element [messageDisplay], the script loaded and
    no socket made. *)
Definition bare_page : Page :=
  mkPage None 0 None false
    (Some (mkElement "Disconnected" ["status"; "disconnected"]))
    None
    [mkButton (Some "#FF0000") (Some "Rouge") false "1"]
    [] 1%positive [] "localhost" None (fun _ => None) [].

(** An object whose [toString] throws [null]. *)
Definition throws_null : datum := Custom (Throws ThrownNull).

End Browser.

(** * Properties of the server *)

Module ServerFacts.

Import Server.
Local Open Scope js_scope.

(** ** The loop over the sockets *)

Lemma forEach_normal body l :
  (forall c, In c l -> fst (body c) = Normal tt) ->
  forEach body l = (Normal tt, List.map (fun c => snd (body c)) l).
Proof.
  induction l as [|c rest IH]; intros Hb; simpl; [reflexivity|].
  pose proof (Hb c (or_introl eq_refl)) as Hc.
  destruct (body c) as [r c'] eqn:E. simpl in Hc. subst r.
  rewrite IH by (intros x Hx; apply Hb; right; exact Hx).
  reflexivity.
Qed.

Lemma forEach_throw body pre c rest e c' :
  (forall x, In x pre -> fst (body x) = Normal tt) ->
  body c = (Throw e, c') ->
  forEach body (pre ++ c :: rest)
  = (Throw e, List.map (fun x => snd (body x)) pre ++ c' :: rest).
Proof.
  induction pre as [|x pre IH]; intros Hpre Hc; simpl.
  - rewrite Hc. reflexivity.
  - pose proof (Hpre x (or_introl eq_refl)) as Hx.
    destruct (body x) as [r x'] eqn:E. simpl in Hx. subst r.
    rewrite IH; [reflexivity| |exact Hc].
    intros y Hy. apply Hpre. right. exact Hy.
Qed.

Lemma forEach_Forall2 body l :
  Forall2 (fun c c' => c' = c \/ c' = snd (body c)) l (snd (forEach body l)).
Proof.
  induction l as [|c rest IH]; simpl; [constructor|].
  destruct (body c) as [[u|e] c'] eqn:E.
  - destruct (forEach body rest) as [r rest']. simpl in *.
    constructor; [right; rewrite E; reflexivity|exact IH].
  - simpl. constructor; [right; rewrite E; reflexivity|].
    apply Forall_Forall2_diag, Forall_forall. intros; left; reflexivity.
Qed.

Lemma Forall2_compose {A} (P Q R : A -> A -> Prop) l1 l2 l3 :
  (forall x y z, P x y -> Q y z -> R x z) ->
  Forall2 P l1 l2 -> Forall2 Q l2 l3 -> Forall2 R l1 l3.
Proof.
  intros HR H12. revert l3.
  induction H12; intros l3 H23; inversion H23; subst; constructor; eauto.
Qed.

(** ** broadcast *)

Lemma broadcast_body_accept token sender c :
  (is_target sender c = true -> send_fault c token = None) ->
  broadcast_body token sender c
  = (Normal tt, if is_target sender c then put (Data token) c else c).
Proof.
  intros H. unfold broadcast_body. fold (is_target sender c).
  destruct (is_target sender c); [|reflexivity].
  unfold ws_send. rewrite H; reflexivity.
Qed.

Lemma broadcast_body_cases token sender c :
  snd (broadcast_body token sender c) = c \/
  (is_target sender c = true /\ snd (broadcast_body token sender c) = put (Data token) c).
Proof.
  unfold broadcast_body. fold (is_target sender c).
  destruct (is_target sender c); [|left; reflexivity].
  unfold ws_send. destruct (send_fault c token); [left|right]; auto.
Qed.

Lemma frames_sent_deliver token sender l :
  frames_sent (List.map (fun c => if is_target sender c then put (Data token) c else c) l)
  = frames_sent l + List.length (List.filter (is_target sender) l).
Proof.
  unfold frames_sent.
  induction l as [|c rest IH]; simpl; [reflexivity|].
  rewrite IH. destruct (is_target sender c); simpl; [|lia].
  rewrite length_app. simpl. lia.
Qed.

(** When no target refuses the token, [broadcast] completes and hands
    the token to the targets, once each. *)
Lemma broadcast_delivers token sender st :
  (forall c, In c (wss_clients st) -> is_target sender c = true ->
             send_fault c token = None) ->
  broadcast token sender st
  = (Normal JUndefined,
     set_wss_clients
       (List.map (fun c => if is_target sender c then put (Data token) c else c)) st).
Proof.
  intros Hok.
  unfold broadcast, bind, wss_forEach, ret.
  rewrite forEach_normal.
  2:{ intros c Hc. rewrite broadcast_body_accept by (apply Hok; exact Hc). reflexivity. }
  assert (Hmap : List.map (fun c => snd (broadcast_body token sender c)) (wss_clients st)
                 = List.map (fun c => if is_target sender c then put (Data token) c else c)
                     (wss_clients st)).
  { apply map_ext_in. intros c Hc.
    rewrite broadcast_body_accept by (apply Hok; exact Hc). reflexivity. }
  unfold set_wss_clients. simpl. rewrite Hmap. reflexivity.
Qed.

(** Whatever the sockets do, a call of [broadcast] touches only its
    targets and hands each of them the message at most once. *)
Lemma broadcast_shape token sender st :
  Forall2 (fun c c' => c' = c \/ (is_target sender c = true /\ c' = put (Data token) c))
    (wss_clients st) (wss_clients (snd (broadcast token sender st))).
Proof.
  unfold broadcast, bind, wss_forEach, ret.
  pose proof (forEach_Forall2 (broadcast_body token sender) (wss_clients st)) as H.
  destruct (forEach (broadcast_body token sender) (wss_clients st)) as [[u|e] l]; simpl in *;
    (eapply Forall2_impl; [exact H|]);
    intros c c' [-> | ->]; auto using broadcast_body_cases.
Qed.

Lemma broadcast_result token sender st :
  fst (broadcast token sender st) = Normal JUndefined \/
  exists e, fst (broadcast token sender st) = Throw e.
Proof.
  unfold broadcast, bind, wss_forEach, ret.
  destruct (forEach (broadcast_body token sender) (wss_clients st)) as [[u|e] l]; simpl; eauto.
Qed.

Lemma broadcast_frame token sender st :
  snd (broadcast token sender st)
  = set_wss_clients (fun _ => wss_clients (snd (broadcast token sender st))) st.
Proof.
  unfold broadcast, bind, wss_forEach, ret.
  destruct (forEach (broadcast_body token sender) (wss_clients st)) as [[u|e] l]; reflexivity.
Qed.


(** ** The message handler *)

Lemma classify_spec id has_client message st :
  classify id has_client message st
  = (Normal (hexCode_of has_client message), role_update id has_client message st).
Proof.
  unfold classify, parse_payload, hexCode_of, role_update, declared_role, interpolate.
  unfold try_catch, lift, modify, ret, bind.
  destruct (Json.parse message) as [v|e]; [|reflexivity].
  destruct v; simpl; try reflexivity.
  destruct (truthy (own_property "clientType" fields)); simpl.
  - destruct has_client; simpl.
    + destruct (printable (own_property "clientType" fields)); simpl; [|reflexivity].
      unfold js_or; destruct (truthy (own_property "color" fields)); reflexivity.
    + unfold js_or; destruct (truthy (own_property "color" fields)); reflexivity.
  - unfold js_or; destruct (truthy (own_property "color" fields)); reflexivity.
Qed.

Lemma getClientInfo_state id st : snd (getClientInfo id st) = st.
Proof.
  unfold getClientInfo, interpolate. destruct (clients st !! id); [|reflexivity].
  destruct (printable _); reflexivity.
Qed.

(** The body of the outer [try], step by step. *)
Lemma message_try_spec h id message st :
  message_try h id message st
  = let has_client := bool_decide (is_Some (clients st !! id)) in
    let token := hexCode_of has_client message in
    match getClientInfo id (counted id st) with
    | (Throw e, _) => (Throw e, counted id st)
    | (Normal info, _) =>
        match broadcast token (Some h)
                (role_update id has_client message (log (LogReceived info) (counted id st)))
        with
        | (Throw e, st3) => (Throw e, st3)
        | (Normal _, st3) =>
            if printable token
            then (Normal tt,
                  log (LogBroadcast token (Z.of_nat (List.length (wss_clients st3)) - 1)) st3)
            else (Throw to_primitive_error, st3)
        end
    end.
Proof.
  unfold message_try, counted. unfold bind at 1 2. unfold get at 1.
  assert (Hstep : forall st1,
    (match clients st !! id with
     | Some _ => modify (set_clients (alter incr_messageCount id))
     | None => ret tt
     end) st1
    = (Normal tt, match clients st !! id with
                  | Some _ => set_clients (alter incr_messageCount id) st1
                  | None => st1
                  end)).
  { intros st1. destruct (clients st !! id); reflexivity. }
  rewrite Hstep. cbv zeta.
  set (st1 := match clients st !! id with
              | Some _ => set_clients (alter incr_messageCount id) st
              | None => st
              end).
  unfold bind at 1.
  pose proof (getClientInfo_state id st1) as Hg.
  destruct (getClientInfo id st1) as [[info|e] st1']; simpl in Hg; subst st1'; [|reflexivity].
  unfold bind at 1. unfold modify at 1.
  unfold bind at 1. rewrite classify_spec.
  unfold bind at 1.
  destruct (broadcast _ _ _) as [[u|e] st3]; [|reflexivity].
  unfold bind, get, lift, interpolate, modify.
  destruct (printable _); reflexivity.
Qed.

Lemma counted_sockets id st : wss_clients (counted id st) = wss_clients st.
Proof. unfold counted. destruct (clients st !! id); reflexivity. Qed.

Lemma role_update_sockets id has_client message st :
  wss_clients (role_update id has_client message st) = wss_clients st.
Proof.
  unfold role_update. destruct (declared_role message); [|reflexivity].
  destruct has_client; [|reflexivity]. destruct (printable j); reflexivity.
Qed.

(** [sendToClient] never raises and touches no socket but its own. *)
Lemma sendToClient_others h message st :
  fst (sendToClient h message st) = Normal tt /\
  Forall2 (fun c c' => handle c <> h -> c' = c)
    (wss_clients st) (wss_clients (snd (sendToClient h message st))).
Proof.
  unfold sendToClient.
  assert (Hid : Forall2 (fun c c' : WebSocket => handle c <> h -> c' = c)
                  (wss_clients st) (wss_clients st)).
  { apply Forall_Forall2_diag, Forall_forall. auto. }
  destruct (find_socket h st) as [ws|]; [|split; [reflexivity|exact Hid]].
  destruct (is_open (readyState ws)); [|split; [reflexivity|exact Hid]].
  destruct (ws_send (JStr message) ws) as [[u|e] ws']; simpl; (split; [reflexivity|]);
    [|exact Hid].
  apply Forall2_fmap_r, Forall_Forall2_diag, Forall_forall.
  intros c _ Hne. destruct (Nat.eqb_spec (handle c) h); [contradiction|reflexivity].
Qed.

(** What the body of the outer [try] leaves of the sockets: each is as
    before, or is a target that was handed the token. *)
Lemma message_try_shape h id message st :
  Forall2 (fun c c' =>
             c' = c \/
             (is_target (Some h) c = true /\
              c' = put (Data (hexCode_of (bool_decide (is_Some (clients st !! id))) message)) c))
    (wss_clients st) (wss_clients (snd (message_try h id message st))).
Proof.
  rewrite message_try_spec. cbv zeta.
  set (token := hexCode_of _ message).
  assert (Hid : forall l : list WebSocket,
             Forall2 (fun c c' => c' = c \/
                        (is_target (Some h) c = true /\ c' = put (Data token) c)) l l).
  { intros l. apply Forall_Forall2_diag, Forall_forall. auto. }
  destruct (getClientInfo id (counted id st)) as [[info|e] s0]; simpl.
  2:{ rewrite counted_sockets. apply Hid. }
  match goal with
  | |- context [broadcast token (Some h) ?s] =>
      pose proof (broadcast_shape token (Some h) s) as Hb;
      assert (Hs : wss_clients s = wss_clients st)
        by (rewrite role_update_sockets; simpl; apply counted_sockets);
      rewrite Hs in Hb;
      destruct (broadcast token (Some h) s) as [[u|e] st3]
  end; simpl in Hb |- *; [|exact Hb].
  destruct (printable token); exact Hb.
Qed.

(** The handler of a message never raises; each socket other than the
    sender's is left as it was or has been handed the token. *)
Lemma message_handler_total h id message st :
  exists st',
    message_handler h id message st = (Normal tt, st') /\
    Forall2 (fun c c' =>
               handle c <> h ->
               c' = c \/
               c' = put (Data (hexCode_of (bool_decide (is_Some (clients st !! id))) message)) c)
      (wss_clients st) (wss_clients st').
Proof.
  unfold message_handler, try_catch.
  pose proof (message_try_shape h id message st) as Hshape.
  destruct (message_try h id message st) as [[u|e] st2]; simpl in Hshape.
  - destruct u. eexists; split; [reflexivity|].
    eapply Forall2_impl; [exact Hshape|]. intros c c' [-> | [_ ->]] _; auto.
  - unfold bind, modify.
    pose proof (sendToClient_others h (error_notice (err_message e))
                  (log (LogProcessingError id (err_message e)) st2)) as [Hs1 Hs2].
    destruct (sendToClient h (error_notice (err_message e))
                (log (LogProcessingError id (err_message e)) st2)) as [r st3].
    simpl in Hs1, Hs2. subst r. eexists; split; [reflexivity|].
    eapply Forall2_compose; [|exact Hshape|exact Hs2].
    simpl. intros x y z [-> | [_ ->]] Hyz Hne.
    + left. apply Hyz. exact Hne.
    + right. apply Hyz. exact Hne.
Qed.

(** ** C3 *)

(** C3 (classifier totality).  For every payload, every sender and every
    state of the server: the classifier completes with a token, which is
    the whole text when the payload does not parse as JSON; the handler
    of the message completes without raising; and each socket other than
    the sender's is left as it was or has been handed that token, so no
    failure of the processing reaches another client. *)
Theorem classifier_totality (h : nat) (id message : string) (st : State) :
  (forall has_client,
     exists token st1,
       classify id has_client message st = (Normal token, st1) /\
       match Json.parse message with
       | Throw _ => token = JStr message
       | Normal _ => token = hexCode_of has_client message
       end) /\
  exists st',
    message_handler h id message st = (Normal tt, st') /\
    Forall2 (fun c c' =>
               handle c <> h ->
               c' = c \/
               c' = put (Data (hexCode_of (bool_decide (is_Some (clients st !! id))) message)) c)
      (wss_clients st) (wss_clients st').
Proof.
  split.
  - intros has_client. rewrite classify_spec. do 2 eexists. split; [reflexivity|].
    unfold hexCode_of. destruct (Json.parse message); reflexivity.
  - apply message_handler_total.
Qed.

(** ** C1 *)

(** C1 (broadcast exclusion).  In any state, for any token and sender:
    if no target of the call (an open socket other than the sender's)
    raises on [send] for this token, then [broadcast] completes, every
    target is handed the token exactly once, every other socket (the
    sender's among them) is left as it was, and the number of frames
    sent grows by the number of targets. *)
Theorem broadcast_exclusion (token : jsval) (sender : option nat) (st : State) :
  (forall c, In c (wss_clients st) -> is_target sender c = true ->
             send_fault c token = None) ->
  exists st',
    broadcast token sender st = (Normal JUndefined, st') /\
    wss_clients st' =
      List.map (fun c => if is_target sender c then put (Data token) c else c)
        (wss_clients st) /\
    frames_sent (wss_clients st') =
      frames_sent (wss_clients st)
      + List.length (List.filter (is_target sender) (wss_clients st)) /\
    (forall c, In c (wss_clients st) -> is_sender sender c = true ->
               In c (wss_clients st')).
Proof.
  intros Hok. rewrite (broadcast_delivers _ _ _ Hok).
  eexists. split; [reflexivity|]. simpl.
  split; [reflexivity|]. split; [apply frames_sent_deliver|].
  intros c Hc Hs. apply in_map_iff. exists c. split; [|exact Hc].
  unfold is_target. rewrite Hs. reflexivity.
Qed.

Lemma three_clients_sockets :
  wss_clients three_clients
  = [mkSocket 0 "client_1" OPEN true [] false no_fault;
     mkSocket 1 "client_2" OPEN true [] false no_fault;
     mkSocket 2 "client_3" OPEN true [] false no_fault].
Proof. vm_compute. reflexivity. Qed.

Lemma broadcast_exclusion_witness :
  exists st',
    broadcast (JStr "red") (Some 0) three_clients = (Normal JUndefined, st') /\
    wss_clients st' =
      List.map (fun c => if is_target (Some 0) c then put (Data (JStr "red")) c else c)
        (wss_clients three_clients) /\
    frames_sent (wss_clients st') =
      frames_sent (wss_clients three_clients)
      + List.length (List.filter (is_target (Some 0)) (wss_clients three_clients)) /\
    (forall c, In c (wss_clients three_clients) -> is_sender (Some 0) c = true ->
               In c (wss_clients st')).
Proof.
  apply (broadcast_exclusion (JStr "red") (Some 0) three_clients).
  intros c Hc _. rewrite three_clients_sockets in Hc.
  destruct Hc as [<- | [<- | [<- | []]]]; reflexivity.
Defined.
(** ** C2 *)

(** C2 (per-target failure isolation), as the code behaves: when the
    sockets before [c] accept the token and the target [c] raises on
    [send], the call of [broadcast] raises that error to its caller, the
    sockets after [c] are handed nothing, and nothing is logged. *)
Theorem broadcast_aborts_on_raise (token : jsval) (sender : option nat) (st : State)
    (pre rest : list WebSocket) (c : WebSocket) (e : js_error) :
  wss_clients st = pre ++ c :: rest ->
  (forall x, In x pre -> is_target sender x = true -> send_fault x token = None) ->
  is_target sender c = true ->
  send_fault c token = Some e ->
  broadcast token sender st
  = (Throw e,
     set_wss_clients
       (fun _ => List.map (fun x => if is_target sender x then put (Data token) x else x) pre
                 ++ c :: rest) st).
Proof.
  intros Hl Hpre Hc He.
  unfold broadcast, bind, wss_forEach, ret. rewrite Hl.
  rewrite (forEach_throw _ pre c rest e c).
  - simpl. unfold set_wss_clients. simpl. do 3 f_equal.
    apply map_ext_in. intros x Hx.
    rewrite broadcast_body_accept by (apply Hpre; exact Hx). reflexivity.
  - intros x Hx. rewrite broadcast_body_accept by (apply Hpre; exact Hx). reflexivity.
  - unfold broadcast_body. fold (is_target sender c). rewrite Hc.
    unfold ws_send. rewrite He. reflexivity.
Qed.

Lemma broadcast_aborts_on_raise_witness :
  broadcast (JStr "red") None faulty_second
  = (Throw (mkError "Error" "write EPIPE"),
     set_wss_clients
       (fun _ =>
          List.map (fun x => if is_target None x then put (Data (JStr "red")) x else x)
            [mkSocket 0 "client_1" OPEN true [] false no_fault]
          ++ mkSocket 1 "client_2" OPEN true [] false broken_pipe
             :: [mkSocket 2 "client_3" OPEN true [] false no_fault])
       faulty_second).
Proof.
  apply (broadcast_aborts_on_raise (JStr "red") None faulty_second
           [mkSocket 0 "client_1" OPEN true [] false no_fault]
           [mkSocket 2 "client_3" OPEN true [] false no_fault]
           (mkSocket 1 "client_2" OPEN true [] false broken_pipe)
           (mkError "Error" "write EPIPE")).
  - vm_compute. reflexivity.
  - intros x Hx _. destruct Hx as [<- | []]. reflexivity.
  - reflexivity.
  - reflexivity.
Defined.

(** ** C4 *)

(** C4 (token extraction), as the code has it.  When the payload does
    not parse as JSON the token is the whole text.  When it parses, the
    token is the member [color] if that is truthy, else the member
    [message] if that is truthy, else the text: a member that is absent
    or holds the empty text, zero, [false] or [null] is passed over.
    One case apart: when the sender has a record and the payload
    declares a truthy [clientType] that cannot be converted to text,
    the token is the text. *)
Theorem token_fallback_chain (id : string) (has_client : bool) (message : string)
    (st : State) :
  fst (classify id has_client message st)
  = Normal
      match Json.parse message with
      | Throw _ => JStr message
      | Normal v =>
          if truthy (field v "clientType") && has_client
             && negb (printable (field v "clientType"))
          then JStr message
          else if truthy (field v "color") then field v "color"
          else if truthy (field v "message") then field v "message"
          else JStr message
      end.
Proof.
  rewrite classify_spec. simpl. unfold hexCode_of, js_or.
  destruct (Json.parse message); reflexivity.
Qed.

(** The payload with an empty [color] and a [message]: the token the
    specification names is the empty value of [color], the token of
    the code is the value of [message]. *)
Lemma token_falsy_color :
  Json.parse falsy_color_message
  = Normal (JObj [("color", JStr EmptyString); ("message", JStr "#00FF00")]) /\
  spec_token falsy_color_message = JStr EmptyString /\
  fst (classify "client_1" true falsy_color_message two_clients) = Normal (JStr "#00FF00").
Proof. vm_compute. repeat split; reflexivity. Qed.

(** ** The records of the clients *)

Lemma on_connection_record ip clk fault st :
  let id := "client_" +:+ pretty (clientIdCounter st) in
  exists st',
    on_connection ip clk fault st = (Normal tt, st') /\
    clients st' !! id
    = Some (mkClient (next_handle st) id ip (now_ms clk) (JStr "unknown") true 0).
Proof.
  unfold on_connection, generateClientId, bind, modify.
  eexists. split; [reflexivity|]. simpl. apply lookup_insert_eq.
Qed.

Lemma getClientInfo_printable id rec st :
  clients st !! id = Some rec ->
  printable (js_or (client_type rec) (JStr "unknown")) = true ->
  getClientInfo id st
  = (Normal (mkInfo id (Some (js_or (client_type rec) (JStr "unknown")))), st).
Proof.
  intros Hrec Hp. unfold getClientInfo, interpolate. rewrite Hrec, Hp. reflexivity.
Qed.

Lemma role_update_record id message role rec st :
  declared_role message = Some role ->
  clients st !! id = Some rec ->
  clients (role_update id true message st) !! id = Some (set_type role rec).
Proof.
  intros Hrole Hrec. unfold role_update. rewrite Hrole.
  destruct (printable role); simpl; rewrite lookup_alter_eq, Hrec; reflexivity.
Qed.

Lemma sendToClient_clients h message st :
  clients (snd (sendToClient h message st)) = clients st.
Proof.
  unfold sendToClient.
  destruct (find_socket h st) as [ws|]; [|reflexivity].
  destruct (is_open (readyState ws)); [|reflexivity].
  destruct (ws_send (JStr message) ws) as [[u|e] ws']; reflexivity.
Qed.

Lemma broadcast_clients token sender st :
  clients (snd (broadcast token sender st)) = clients st.
Proof. rewrite broadcast_frame. reflexivity. Qed.

(** The record of the sender after the handler has run, when the type
    it held could be written to the log. *)
Lemma message_handler_record h id rec message st :
  clients st !! id = Some rec ->
  printable (js_or (client_type rec) (JStr "unknown")) = true ->
  clients (snd (message_handler h id message st))
  = clients (role_update id true message (counted id st)).
Proof.
  intros Hrec Hp.
  unfold message_handler, try_catch. rewrite message_try_spec. cbv zeta.
  rewrite (bool_decide_eq_true_2 _ (mk_is_Some _ _ Hrec)).
  assert (Hc : clients (counted id st) !! id = Some (incr_messageCount rec)).
  { unfold counted. rewrite Hrec. simpl. rewrite lookup_alter_eq, Hrec. reflexivity. }
  rewrite (getClientInfo_printable id (incr_messageCount rec) _ Hc Hp).
  set (info := mkInfo _ _).
  assert (Hr : clients (role_update id true message (log (LogReceived info) (counted id st)))
               = clients (role_update id true message (counted id st))).
  { unfold role_update. destruct (declared_role message); [|reflexivity].
    destruct (printable j); reflexivity. }
  pose proof (broadcast_clients (hexCode_of true message) (Some h)
                (role_update id true message (log (LogReceived info) (counted id st)))) as Hb.
  rewrite Hr in Hb.
  destruct (broadcast _ _ _) as [[u|e] st3]; simpl in Hb.
  - destruct (printable (hexCode_of true message)); simpl; [exact Hb|].
    unfold bind, modify. rewrite sendToClient_clients. exact Hb.
  - unfold bind, modify. rewrite sendToClient_clients. exact Hb.
Qed.

(** The sockets after the handler has run, when the type the record
    held could be written to the log and no target refuses the token:
    every socket but the sender's is a target that has been handed the
    token, or is as it was. *)
Lemma message_handler_delivers h id rec message st :
  clients st !! id = Some rec ->
  printable (js_or (client_type rec) (JStr "unknown")) = true ->
  (forall c, In c (wss_clients st) -> is_target (Some h) c = true ->
             send_fault c (hexCode_of true message) = None) ->
  Forall2 (fun c c' =>
             handle c <> h ->
             c' = if is_target (Some h) c
                  then put (Data (hexCode_of true message)) c else c)
    (wss_clients st) (wss_clients (snd (message_handler h id message st))).
Proof.
  intros Hrec Hp Hok.
  unfold message_handler, try_catch. rewrite message_try_spec. cbv zeta.
  rewrite (bool_decide_eq_true_2 _ (mk_is_Some _ _ Hrec)).
  assert (Hc : clients (counted id st) !! id = Some (incr_messageCount rec)).
  { unfold counted. rewrite Hrec. simpl. rewrite lookup_alter_eq, Hrec. reflexivity. }
  rewrite (getClientInfo_printable id (incr_messageCount rec) _ Hc Hp).
  set (info := mkInfo _ _).
  set (s := role_update id true message (log (LogReceived info) (counted id st))).
  assert (Hs : wss_clients s = wss_clients st).
  { unfold s. rewrite role_update_sockets. simpl. apply counted_sockets. }
  rewrite (broadcast_delivers (hexCode_of true message) (Some h) s)
    by (rewrite Hs; exact Hok).
  assert (Hmap : Forall2 (fun c c' =>
                            c' = if is_target (Some h) c
                                 then put (Data (hexCode_of true message)) c else c)
                   (wss_clients st)
                   (List.map (fun c => if is_target (Some h) c
                                       then put (Data (hexCode_of true message)) c else c)
                      (wss_clients st))).
  { apply Forall2_fmap_r, Forall_Forall2_diag, Forall_forall. intros c _. reflexivity. }
  destruct (printable (hexCode_of true message)).
  - simpl. rewrite Hs. eapply Forall2_impl; [exact Hmap|]. intros c c' -> _. reflexivity.
  - unfold bind at 1. unfold modify at 1.
    match goal with
    | |- context [sendToClient h ?m ?s4] =>
        destruct (sendToClient_others h m s4) as [_ Hothers]
    end.
    simpl in Hothers. rewrite Hs in Hothers.
    eapply Forall2_compose; [|exact Hmap|exact Hothers].
    simpl. intros x y z -> Hyz Hne. apply Hyz.
    destruct (is_target (Some h) x); exact Hne.
Qed.


Lemma two_clients_state :
  wss_clients two_clients
  = [mkSocket 0 "client_1" OPEN true [] false no_fault;
     mkSocket 1 "client_2" OPEN true [] false no_fault] /\
  exit_code two_clients = None /\
  grace_timers two_clients = [].
Proof. vm_compute. repeat split; reflexivity. Qed.

(** ** C5 *)

(** C5 (role assignment), as the code has it.  The record made at the
    accept of a connection has the role [unknown].  Every payload that
    declares a role sets it, the first such payload or a later one: when
    a client whose recorded role can be written to the log sends a
    payload that declares the role [role], the handler completes and
    the record of the client then has [role] as its type and one more
    message; when no target refuses the token, every open socket but
    the sender's then has the token as the last frame it was sent, and
    the other sockets but the sender's are as they were.  For the
    payload with [color] #FF0000 and [clientType] unity the declared
    role is [unity] and the token is the text #FF0000 itself. *)
Theorem role_assignment (h : nat) (ws : WebSocket) (rec : Client) (message : string)
    (role : jsval) (st : State) :
  find_socket h st = Some ws ->
  clients st !! clientId ws = Some rec ->
  printable (js_or (client_type rec) (JStr "unknown")) = true ->
  declared_role message = Some role ->
  (exists st' rec',
     on_message h message st = (Normal tt, st') /\
     clients st' !! clientId ws = Some rec' /\
     client_type rec' = role /\
     messageCount rec' = js_succ (messageCount rec) /\
     ((forall c, In c (wss_clients st) -> is_target (Some h) c = true ->
                 send_fault c (hexCode_of true message) = None) ->
      Forall2 (fun c c' =>
                 handle c <> h ->
                 if is_target (Some h) c
                 then outbox c' = outbox c ++ [Data (hexCode_of true message)]
                      /\ handle c' = handle c /\ readyState c' = readyState c
                 else c' = c)
        (wss_clients st) (wss_clients st'))) /\
  (forall ip clk fault st0,
     exists st1 rec0,
       on_connection ip clk fault st0 = (Normal tt, st1) /\
       clients st1 !! ("client_" +:+ pretty (clientIdCounter st0)) = Some rec0 /\
       client_type rec0 = JStr "unknown") /\
  declared_role unity_message = Some (JStr "unity") /\
  (forall id has_client st0,
     fst (classify id has_client unity_message st0) = Normal (JStr "#FF0000")).
Proof.
  intros Hws Hrec Hp Hrole. split; [|split; [|split]].
  - unfold on_message. rewrite Hws.
    destruct (message_handler_total h (clientId ws) message st) as (st' & Hrun & _).
    exists st', (set_type role (incr_messageCount rec)).
    split; [exact Hrun|]. split; [|split; [reflexivity|split; [reflexivity|]]].
    + pose proof (message_handler_record h _ rec message st Hrec Hp) as Hc.
      rewrite Hrun in Hc. simpl in Hc. rewrite Hc.
      apply role_update_record; [exact Hrole|].
      unfold counted. rewrite Hrec. simpl. rewrite lookup_alter_eq, Hrec. reflexivity.
    + intros Hok.
      pose proof (message_handler_delivers h _ rec message st Hrec Hp Hok) as Hd.
      rewrite Hrun in Hd. simpl in Hd.
      eapply Forall2_impl; [exact Hd|]. intros c c' Hc Hne. specialize (Hc Hne).
      destruct (is_target (Some h) c); subst c'; [|reflexivity].
      repeat split.
  - intros ip clk fault st0.
    destruct (on_connection_record ip clk fault st0) as (st1 & H1 & H2).
    exists st1. eexists. split; [exact H1|]. split; [exact H2|reflexivity].
  - vm_compute. reflexivity.
  - intros id has_client st0. rewrite classify_spec. simpl.
    destruct has_client; vm_compute; reflexivity.
Qed.

Lemma role_assignment_witness :
  exists st' rec',
    on_message 0 unity_message two_clients = (Normal tt, st') /\
    clients st' !! "client_1" = Some rec' /\
    client_type rec' = JStr "unity" /\
    messageCount rec' = js_succ 0 /\
    Forall2 (fun c c' =>
               handle c <> 0 ->
               if is_target (Some 0) c
               then outbox c' = outbox c ++ [Data (JStr "#FF0000")]
                    /\ handle c' = handle c /\ readyState c' = readyState c
               else c' = c)
      (wss_clients two_clients) (wss_clients st').
Proof.
  destruct two_clients_state as (Hs & _).
  destruct (role_assignment 0 (mkSocket 0 "client_1" OPEN true [] false no_fault)
              (mkClient 0 "client_1" "::1" 1769596200000 (JStr "unknown") true 0)
              unity_message (JStr "unity") two_clients)
    as ((st' & rec' & Hrun & Hrec & Htype & Hcount & Hsent) & _).
  - unfold find_socket. rewrite Hs. reflexivity.
  - vm_compute. reflexivity.
  - reflexivity.
  - vm_compute. reflexivity.
  - exists st', rec'. split; [exact Hrun|]. split; [exact Hrec|].
    split; [exact Htype|]. split; [exact Hcount|].
    apply Hsent. intros c Hin _. rewrite Hs in Hin.
    destruct Hin as [<- | [<- | []]]; reflexivity.
Defined.

(** The first client declares unity, then web, then 42: each payload
    replaces the role the one before had set. *)
Lemma role_replaced :
  client_type
    <$> clients (run [accept; accept; (noon, Message 0 unity_message)] initial)
        !! "client_1"
  = Some (JStr "unity") /\
  client_type
    <$> clients (run [accept; accept; (noon, Message 0 unity_message);
                      (noon, Message 0 web_message)] initial) !! "client_1"
  = Some (JStr "web") /\
  client_type
    <$> clients (run [accept; accept; (noon, Message 0 unity_message);
                      (noon, Message 0 web_message);
                      (noon, Message 0 number_role_message)] initial) !! "client_1"
  = Some (JNum 42 0).
Proof. vm_compute. repeat split; reflexivity. Qed.

(** ** C9 *)

(** C9 (what [broadcast] answers and what is logged), as the code has
    it.  A call of [broadcast] that completes answers [undefined], never
    a count.  When the body of the handler completes, the last line it
    logs names the token and the size of the set of sockets less one,
    whatever the number of sockets the token went to. *)
Theorem broadcast_count_logged (h : nat) (id message : string) (st st' : State) :
  message_try h id message st = (Normal tt, st') ->
  (forall token sender s,
     fst (broadcast token sender s) = Normal JUndefined \/
     exists e, fst (broadcast token sender s) = Throw e) /\
  exists pre,
    console st'
    = pre ++ [LogBroadcast (hexCode_of (bool_decide (is_Some (clients st !! id))) message)
                (Z.of_nat (List.length (wss_clients st)) - 1)].
Proof.
  intros Hrun. split; [intros; apply broadcast_result|].
  rewrite message_try_spec in Hrun. cbv zeta in Hrun.
  destruct (getClientInfo id (counted id st)) as [[info|e] s0]; [|discriminate].
  match type of Hrun with
  | context [broadcast ?token ?sender ?s] =>
      pose proof (broadcast_shape token sender s) as Hb;
      apply Forall2_length in Hb;
      rewrite role_update_sockets in Hb; simpl in Hb; rewrite counted_sockets in Hb;
      destruct (broadcast token sender s) as [[u|e] st3]; [|discriminate]
  end.
  simpl in Hb.
  destruct (printable _); [|discriminate].
  injection Hrun as <-. simpl. rewrite Hb. eexists. reflexivity.
Qed.

Lemma broadcast_count_logged_witness :
  (forall token sender s,
     fst (broadcast token sender s) = Normal JUndefined \/
     exists e, fst (broadcast token sender s) = Throw e) /\
  exists pre,
    console (snd (message_try 0 "client_1" "red" two_clients))
    = pre ++ [LogBroadcast
                (hexCode_of (bool_decide (is_Some (clients two_clients !! "client_1"))) "red")
                (Z.of_nat (List.length (wss_clients two_clients)) - 1)].
Proof.
  apply (broadcast_count_logged 0 "client_1" "red" two_clients
           (snd (message_try 0 "client_1" "red" two_clients))).
  vm_compute. reflexivity.
Defined.

(** With a second socket that is closing, the first client sends red:
    the call of [broadcast] answers [undefined], no socket is sent to,
    and the log line speaks of one other client. *)
Lemma broadcast_count_differs :
  fst (broadcast (JStr "red") (Some 0) one_silent) = Normal JUndefined /\
  spec_delivery_count (Some 0) one_silent = 0%Z /\
  List.map data_sent (wss_clients (snd (on_message 0 "red" one_silent))) = [[]; []] /\
  console (snd (on_message 0 "red" one_silent))
  = console one_silent
    ++ [LogReceived (mkInfo "client_1" (Some (JStr "unknown"))); LogBroadcast (JStr "red") 1].
Proof. vm_compute. repeat split; reflexivity. Qed.

(** ** The heartbeat *)

Lemma forEach_logging_heartbeat l :
  forEach_logging heartbeat_body l
  = (terminating_lines l, (Normal tt, List.map heartbeat_step l)).
Proof.
  induction l as [|c l IH]; [reflexivity|].
  simpl. rewrite IH. unfold heartbeat_body, heartbeat_step, terminating_lines.
  simpl. destruct (ws_isAlive c); reflexivity.
Qed.

Lemma log_all_state lines st :
  log_all lines st
  = mkState (wss_clients st) (clients st) (clientIdCounter st) (next_handle st)
      (heartbeatTimer st) (wss_closing st) (http_closing st) (grace_timers st)
      (exit_code st) (console st ++ lines).
Proof.
  revert st. induction lines as [|e lines IH]; intros st.
  - simpl. rewrite app_nil_r. destruct st; reflexivity.
  - unfold log_all. simpl. fold (log_all lines (log e st)). rewrite IH. simpl.
    rewrite <- app_assoc. reflexivity.
Qed.

(** One cycle of the heartbeat completes: every socket is treated by
    its flag, and a line is written for each socket it terminates. *)
Lemma heartbeat_spec st :
  heartbeat st
  = (Normal tt,
     log_all (terminating_lines (wss_clients st))
       (set_wss_clients (List.map heartbeat_step) st)).
Proof.
  unfold heartbeat. rewrite forEach_logging_heartbeat, log_all_state. reflexivity.
Qed.

(** ** What the handlers leave alone *)

Section Frame.

Context {X : Type} (obs : State -> X).

Lemma preserves_ret {A} (a : A) : preserves obs (ret a).
Proof. intros st. reflexivity. Qed.

Lemma preserves_lift {A} (c : completion A) : preserves obs (lift c).
Proof. intros st. reflexivity. Qed.

Lemma preserves_get : preserves obs get.
Proof. intros st. reflexivity. Qed.

Lemma preserves_modify f : (forall st, obs (f st) = obs st) -> preserves obs (modify f).
Proof. intros H st. apply H. Qed.

Lemma preserves_bind {A B} (m : M State A) (k : A -> M State B) :
  preserves obs m -> (forall a, preserves obs (k a)) -> preserves obs (bind m k).
Proof.
  intros Hm Hk st. unfold bind. specialize (Hm st).
  destruct (m st) as [[a|e] st1]; simpl in *; [|exact Hm].
  rewrite Hk. exact Hm.
Qed.

Lemma preserves_try_catch {A} (m : M State A) (k : js_error -> M State A) :
  preserves obs m -> (forall e, preserves obs (k e)) -> preserves obs (try_catch m k).
Proof.
  intros Hm Hk st. unfold try_catch. specialize (Hm st).
  destruct (m st) as [[a|e] st1]; simpl in *; [exact Hm|].
  rewrite Hk. exact Hm.
Qed.

Hypothesis obs_sockets : forall f st, obs (set_wss_clients f st) = obs st.
Hypothesis obs_clients : forall f st, obs (set_clients f st) = obs st.
Hypothesis obs_log :
  forall e st, (forall id, e <> LogConnection id) -> obs (log e st) = obs st.

Lemma preserves_wss_forEach body : preserves obs (wss_forEach body).
Proof.
  intros st. unfold wss_forEach.
  destruct (forEach body (wss_clients st)) as [r l]. apply obs_sockets.
Qed.

Lemma preserves_broadcast token sender : preserves obs (broadcast token sender).
Proof.
  apply preserves_bind; [apply preserves_wss_forEach|]. intros; apply preserves_ret.
Qed.

Lemma preserves_broadcastSystemMessage message timestamp sender :
  preserves obs (broadcastSystemMessage message timestamp sender).
Proof.
  apply preserves_bind; [apply preserves_broadcast|]. intros; apply preserves_ret.
Qed.

Lemma preserves_sendToClient h message : preserves obs (sendToClient h message).
Proof.
  intros st. unfold sendToClient.
  destruct (find_socket h st) as [ws|]; [|reflexivity].
  destruct (is_open (readyState ws)); [|reflexivity].
  destruct (ws_send (JStr message) ws) as [[u|e] ws']; simpl.
  - apply obs_sockets.
  - apply obs_log. discriminate.
Qed.

Lemma preserves_getClientInfo id : preserves obs (getClientInfo id).
Proof. intros st. rewrite getClientInfo_state. reflexivity. Qed.

Lemma preserves_classify id has_client message :
  preserves obs (classify id has_client message).
Proof.
  intros st. rewrite classify_spec. simpl. unfold role_update.
  destruct (declared_role message); [|reflexivity].
  destruct has_client; [|reflexivity].
  destruct (printable j); [rewrite obs_log by discriminate|]; apply obs_clients.
Qed.

Lemma preserves_message_handler h id message :
  preserves obs (message_handler h id message).
Proof.
  apply preserves_try_catch.
  - unfold message_try.
    apply preserves_bind; [apply preserves_get|]. intros st0.
    apply preserves_bind.
    { destruct (clients st0 !! id); [apply preserves_modify; intros; apply obs_clients
                                    |apply preserves_ret]. }
    intros _. apply preserves_bind; [apply preserves_getClientInfo|]. intros info.
    apply preserves_bind.
    { apply preserves_modify. intros; apply obs_log; discriminate. }
    intros _. apply preserves_bind; [apply preserves_classify|]. intros hexCode.
    apply preserves_bind; [apply preserves_broadcast|]. intros _.
    apply preserves_bind; [apply preserves_get|]. intros st'.
    apply preserves_bind; [apply preserves_lift|]. intros _.
    apply preserves_modify. intros; apply obs_log; discriminate.
  - intros e. apply preserves_bind; [|intros; apply preserves_sendToClient].
    apply preserves_modify. intros; apply obs_log; discriminate.
Qed.

Lemma preserves_on_message h message : preserves obs (on_message h message).
Proof.
  intros st. unfold on_message.
  destruct (find_socket h st); [apply preserves_message_handler|reflexivity].
Qed.

Lemma preserves_on_close h clk : preserves obs (on_close h clk).
Proof.
  intros st. unfold on_close.
  destruct (find_socket h st) as [ws|]; [|reflexivity].
  match goal with
  | |- obs (snd (?m ?s)) = _ =>
      assert (Hm : preserves obs m); [|rewrite Hm; apply obs_sockets]
  end.
  apply preserves_bind; [apply preserves_getClientInfo|]. intros info.
  apply preserves_bind; [apply preserves_get|]. intros st2.
  apply preserves_bind.
  { apply preserves_modify. intros; apply obs_log; discriminate. }
  intros _. apply preserves_bind.
  { apply preserves_modify. intros; apply obs_clients. }
  intros _. apply preserves_bind; [apply preserves_broadcastSystemMessage|].
  intros; apply preserves_ret.
Qed.

Lemma preserves_on_pong h : preserves obs (on_pong h).
Proof.
  intros st. unfold on_pong.
  destruct (find_socket h st) as [ws|]; [|reflexivity].
  unfold bind, modify. simpl. rewrite obs_clients. apply obs_sockets.
Qed.

Lemma preserves_on_error h : preserves obs (on_error h).
Proof.
  intros st. unfold on_error.
  destruct (find_socket h st) as [ws|]; [|reflexivity].
  match goal with
  | |- obs (snd (?m ?s)) = _ => assert (Hm : preserves obs m); [|apply Hm]
  end.
  apply preserves_bind; [apply preserves_getClientInfo|]. intros info.
  apply preserves_modify. intros; apply obs_log; discriminate.
Qed.

Lemma preserves_log_all lines st :
  (forall e, In e lines -> forall id, e <> LogConnection id) ->
  obs (log_all lines st) = obs st.
Proof.
  revert st. induction lines as [|e lines IH]; intros st H; [reflexivity|].
  unfold log_all. simpl. fold (log_all lines (log e st)).
  rewrite IH by (intros; apply H; right; assumption).
  apply obs_log. apply H. left. reflexivity.
Qed.

Lemma preserves_heartbeat : preserves obs heartbeat.
Proof.
  intros st. rewrite heartbeat_spec. simpl.
  rewrite preserves_log_all; [apply obs_sockets|].
  intros e He id. unfold terminating_lines in He.
  apply in_map_iff in He as (c & <- & _). discriminate.
Qed.

End Frame.

(** ** The ids handed out *)

Lemma assigned_ids_log e st :
  (forall id, e <> LogConnection id) -> assigned_ids (log e st) = assigned_ids st.
Proof.
  intros He. unfold assigned_ids, log. simpl.
  rewrite omap_app. simpl. destruct e; try (rewrite app_nil_r; reflexivity).
  exfalso. eapply He. reflexivity.
Qed.

Lemma allotted_log e st :
  (forall id, e <> LogConnection id) -> allotted (log e st) = allotted st.
Proof. intros He. unfold allotted. rewrite assigned_ids_log by exact He. reflexivity. Qed.

Lemma preserves_shutdown {X} (obs : State -> X) clk :
  (forall f st, obs (set_wss_clients f st) = obs st) ->
  (forall st, obs (clearInterval st) = obs st) ->
  (forall st, obs (wss_close st) = obs st) ->
  (forall due st, obs (setTimeout_forced_exit due st) = obs st) ->
  preserves obs (shutdown clk).
Proof.
  intros H1 H2 H3 H4. unfold shutdown.
  apply preserves_bind; [apply preserves_modify; exact H2|]. intros _.
  apply preserves_bind.
  { intros st. unfold wss_forEach. destruct (forEach _ _). apply H1. }
  intros _. apply preserves_bind; [apply preserves_modify; exact H3|]. intros _.
  apply preserves_modify. apply H4.
Qed.

Lemma allotted_listener clk ev :
  (forall ip fault, ev <> Connection ip fault) ->
  preserves allotted (listener clk ev).
Proof.
  intros Hev.
  assert (Hs : forall f st, allotted (set_wss_clients f st) = allotted st) by reflexivity.
  assert (Hc : forall f st, allotted (set_clients f st) = allotted st) by reflexivity.
  destruct ev; simpl.
  - exfalso. eapply Hev. reflexivity.
  - apply preserves_on_message; auto using allotted_log.
  - apply preserves_on_close; auto using allotted_log.
  - apply preserves_on_pong; auto using allotted_log.
  - apply preserves_on_error; auto using allotted_log.
  - intros st. destruct (heartbeatTimer st); [|reflexivity].
    apply preserves_heartbeat; auto using allotted_log.
  - apply preserves_shutdown; reflexivity.
  - apply preserves_ret.
  - intros st. destruct (wss_closing st); reflexivity.
  - intros st. destruct (http_closing st); reflexivity.
  - apply preserves_ret.
Qed.

Lemma allotted_fire_timers clk st : allotted (fire_timers clk st) = allotted st.
Proof.
  unfold fire_timers. destruct (existsb _ _); [|reflexivity].
  change (allotted (log LogForcedShutdown st) = allotted st).
  apply allotted_log. discriminate.
Qed.

Lemma allotted_on_uncaughtException clk st :
  allotted (on_uncaughtException clk st) = allotted st.
Proof.
  unfold on_uncaughtException.
  pose proof (preserves_shutdown allotted clk) as H.
  specialize (H ltac:(reflexivity) ltac:(reflexivity) ltac:(reflexivity) ltac:(reflexivity) st).
  destruct (shutdown clk st) as [[u|e] st']; exact H.
Qed.

Lemma on_connection_allotted ip clk fault st :
  exists st',
    on_connection ip clk fault st = (Normal tt, st') /\
    allotted st'
    = (js_succ (clientIdCounter st),
       assigned_ids st ++ ["client_" +:+ pretty (clientIdCounter st)]) /\
    lifecycle st' = lifecycle st.
Proof.
  unfold on_connection, generateClientId, bind, modify.
  eexists. split; [reflexivity|]. split; [|reflexivity].
  unfold allotted, assigned_ids. simpl. rewrite omap_app. reflexivity.
Qed.

(** One event hands out no id, or is an accept that hands out the id
    of the counter and steps the counter. *)
Lemma dispatch_allotted clk ev st :
  allotted (dispatch clk ev st) = allotted st \/
  allotted (dispatch clk ev st)
  = (js_succ (clientIdCounter st),
     assigned_ids st ++ ["client_" +:+ pretty (clientIdCounter st)]).
Proof.
  unfold dispatch.
  destruct (exit_code st); [left; reflexivity|].
  pose proof (allotted_fire_timers clk st) as Hf.
  destruct (exit_code (fire_timers clk st)); [left; exact Hf|].
  destruct ev as [ip fault| | | | | | | | | |].
  1:{ right. cbn [listener].
      destruct (on_connection_allotted ip clk fault (fire_timers clk st)) as (st' & -> & Ha & _).
      rewrite Ha. unfold allotted in Hf. injection Hf as -> ->. reflexivity. }
  all: left.
  all: match goal with
       | |- context [listener ?c ?ev ?s] =>
           pose proof (allotted_listener c ev ltac:(discriminate) s) as Hl;
           destruct (listener c ev s) as [[u|e] st2]; simpl in Hl;
           [|rewrite allotted_on_uncaughtException]; congruence
       end.
Qed.

(** After any run from the start the ids handed out are the first [n]
    of the sequence [nth_id], and the counter stands at [n + 1], held
    back at 2^53. *)
Lemma run_allotted trace st n :
  allotted st = (Z.min (Z.of_nat n + 1) (2 ^ 53), List.map nth_id (seq 1 n)) ->
  exists m,
    allotted (run trace st)
    = (Z.min (Z.of_nat m + 1) (2 ^ 53), List.map nth_id (seq 1 m)).
Proof.
  revert st n. induction trace as [|[clk ev] rest IH]; intros st n Hst; simpl.
  - exists n. exact Hst.
  - destruct (dispatch_allotted clk ev st) as [H | H].
    + apply (IH _ n). rewrite H. exact Hst.
    + apply (IH _ (S n)). rewrite H.
      unfold allotted in Hst. injection Hst as Hc Hi. rewrite Hc, Hi.
      f_equal.
      * unfold js_succ. destruct (Z.ltb_spec (Z.min (Z.of_nat n + 1) (2 ^ 53)) (2 ^ 53)); lia.
      * rewrite seq_S, map_app. cbn [List.map]. do 2 f_equal.
        unfold nth_id. do 2 f_equal. lia.
Qed.

Lemma nth_id_small i :
  (Z.of_nat i <= 2 ^ 53)%Z -> nth_id i = "client_" +:+ pretty (Z.of_nat i).
Proof. intros H. unfold nth_id. rewrite Z.min_l by exact H. reflexivity. Qed.

Lemma client_id_inj a b :
  "client_" +:+ pretty (Z.of_nat a) = "client_" +:+ pretty (Z.of_nat b) -> a = b.
Proof.
  intros H. simpl in H. injection H as H.
  change (pretty (Z.of_nat a) = pretty (Z.of_nat b)) in H.
  apply (inj (@pretty Z _)) in H. lia.
Qed.



(** ** C6 *)


(** ** The heartbeat and the close of a socket *)

(** What one cycle of the heartbeat leaves of a socket, field by field. *)
Lemma heartbeat_step_spec c :
  handle (heartbeat_step c) = handle c /\
  clientId (heartbeat_step c) = clientId c /\
  send_fault (heartbeat_step c) = send_fault c /\
  ws_isAlive (heartbeat_step c) = false /\
  if ws_isAlive c
  then terminated (heartbeat_step c) = terminated c /\
       readyState (heartbeat_step c) = readyState c /\
       outbox (heartbeat_step c)
       = (if is_open (readyState c) then outbox c ++ [Ping] else outbox c)
  else is_open (readyState (heartbeat_step c)) = false /\
       (readyState c <> CLOSED -> terminated (heartbeat_step c) = true) /\
       outbox (heartbeat_step c) = outbox c.
Proof.
  destruct c as [hd id [] [] ob tm sf]; cbv; repeat split; congruence.
Qed.






(** ** C7 *)


Lemma one_unanswered_state :
  wss_clients one_unanswered
  = [mkSocket 0 "client_1" OPEN true [Ping] false no_fault;
     mkSocket 1 "client_2" OPEN false [Ping] false no_fault] /\
  clients one_unanswered !! "client_2"
  = Some (mkClient 1 "client_2" "::1" 1769596200000 (JStr "unknown") true 0).
Proof. vm_compute. split; reflexivity. Qed.


(** ** Shutdown *)

(** What [shutdown] does to a socket that accepts the notice. *)
Lemma shutdown_body_accept msg c :
  (is_open (readyState c) = true -> send_fault c (JStr msg) = None) ->
  shutdown_body msg c
  = (Normal tt,
     if is_open (readyState c)
     then ws_close 1001 "Server shutdown" (put (Data (JStr msg)) c) else c).
Proof.
  intros H. unfold shutdown_body.
  destruct (is_open (readyState c)); [|reflexivity].
  unfold ws_send. rewrite H; reflexivity.
Qed.

Lemma shutdown_spec clk st :
  (forall c, In c (wss_clients st) -> is_open (readyState c) = true ->
             send_fault c (shutdown_notice clk) = None) ->
  shutdown clk st
  = (Normal tt,
     setTimeout_forced_exit (now_ms clk + GRACE_PERIOD)
       (wss_close
          (set_wss_clients
             (List.map (fun c => if is_open (readyState c)
                                 then ws_close 1001 "Server shutdown"
                                        (put (Data (shutdown_notice clk)) c)
                                 else c))
             (clearInterval st)))).
Proof.
  intros Hok. unfold shutdown.
  unfold bind at 1. unfold modify at 1.
  unfold bind at 1. unfold wss_forEach.
  change (wss_clients (clearInterval st)) with (wss_clients st).
  rewrite forEach_normal.
  2:{ intros c Hc. rewrite shutdown_body_accept by (apply Hok; exact Hc). reflexivity. }
  assert (E : List.map (fun c => snd (shutdown_body
                                       (system_message "Server is shutting down" (now_iso clk)) c))
                (wss_clients st)
              = List.map (fun c => if is_open (readyState c)
                                   then ws_close 1001 "Server shutdown"
                                          (put (Data (shutdown_notice clk)) c)
                                   else c) (wss_clients st)).
  { apply map_ext_in. intros c Hc.
    rewrite shutdown_body_accept by (apply Hok; exact Hc). reflexivity. }
  rewrite E. reflexivity.
Qed.

Lemma shutdown_socket_open c notice :
  is_open (readyState c) = true ->
  outbox (ws_close 1001 "Server shutdown" (put (Data notice) c))
  = outbox c ++ [Data notice; CloseFrame 1001 "Server shutdown"] /\
  readyState (ws_close 1001 "Server shutdown" (put (Data notice) c)) = CLOSING.
Proof.
  intros H. unfold ws_close. simpl. destruct (readyState c); try discriminate.
  simpl. rewrite <- app_assoc. split; reflexivity.
Qed.

(** An event in a running server with no forced exit due runs its
    listener; what the listener raises goes to the handler of uncaught
    exceptions. *)
Lemma dispatch_running clk ev st :
  exit_code st = None ->
  existsb (fun due => (due <=? now_ms clk)%Z) (grace_timers st) = false ->
  dispatch clk ev st
  = match listener clk ev st with
    | (Normal _, st2) => st2
    | (Throw _, st2) => on_uncaughtException clk st2
    end.
Proof.
  intros He Hg. unfold dispatch, fire_timers. rewrite He, Hg, He. reflexivity.
Qed.

(** An event that finds a forced exit due: the process exits with
    status 1. *)
Lemma dispatch_due clk ev st :
  exit_code st = None ->
  existsb (fun due => (due <=? now_ms clk)%Z) (grace_timers st) = true ->
  dispatch clk ev st = process_exit 1 (log LogForcedShutdown st).
Proof.
  intros He Hg. unfold dispatch, fire_timers. rewrite He, Hg. reflexivity.
Qed.

(** ** C8 *)

(** C8 (shutdown sequence).  The server is running (no exit yet, no
    forced exit pending) and no open socket refuses the notice.  The
    signal at time [t] then clears the heartbeat timer, hands every open
    socket the shutdown notice and then the close frame with code 1001
    (one of each, in this order; the socket is closing afterwards),
    leaves the other sockets alone, starts the close of the server and
    sets the forced exit for [t + 5000].  From there: when the socket
    server and then the HTTP server report closed before that time, the
    process exits with status 0; an event at or after that time finds
    the forced exit first and the process exits with status 1.  And an
    event whose listener raises, in a running server, ends in the state
    that [shutdown] leaves (with status 7 should [shutdown] raise). *)
Theorem shutdown_sequence (clk : Clock) (st : State) :
  exit_code st = None ->
  grace_timers st = [] ->
  (forall c, In c (wss_clients st) -> is_open (readyState c) = true ->
             send_fault c (shutdown_notice clk) = None) ->
  let st' := run [(clk, Signal)] st in
  heartbeatTimer st' = false /\
  Forall2 (fun c c' =>
             if is_open (readyState c)
             then outbox c' = outbox c ++ [Data (shutdown_notice clk);
                                           CloseFrame 1001 "Server shutdown"]
                  /\ readyState c' = CLOSING
             else c' = c)
    (wss_clients st) (wss_clients st') /\
  wss_closing st' = true /\
  grace_timers st' = [(now_ms clk + 5000)%Z] /\
  exit_code st' = None /\
  (forall clk1 clk2,
     (now_ms clk1 < now_ms clk + 5000)%Z -> (now_ms clk2 < now_ms clk + 5000)%Z ->
     exit_code (run [(clk1, WssClosed); (clk2, HttpClosed)] st') = Some 0%Z) /\
  (forall clk1 ev,
     (now_ms clk + 5000 <= now_ms clk1)%Z ->
     exit_code (run [(clk1, ev)] st') = Some 1%Z) /\
  (forall clk0 ev e st2,
     listener clk0 ev st = (Throw e, st2) ->
     dispatch clk0 ev st
     = match shutdown clk0 st2 with
       | (Normal _, st3) => st3
       | (Throw _, st3) => process_exit 7 st3
       end).
Proof.
  intros He Hg Hok.
  assert (Hg0 : forall c0, existsb (fun due => (due <=? now_ms c0)%Z) (grace_timers st) = false)
    by (intros; rewrite Hg; reflexivity).
  assert (Hrun : run [(clk, Signal)] st = snd (shutdown clk st)).
  { cbn [run]. rewrite (dispatch_running _ _ _ He (Hg0 clk)). cbn [listener].
    rewrite (shutdown_spec clk st Hok). reflexivity. }
  cbv zeta. rewrite Hrun, (shutdown_spec clk st Hok). cbn [snd].
  match goal with |- heartbeatTimer ?s = _ /\ _ => set (S1 := s) end.
  assert (He1 : exit_code S1 = None) by exact He.
  assert (Hg1 : grace_timers S1 = [(now_ms clk + 5000)%Z])
    by (unfold S1; simpl; rewrite Hg; reflexivity).
  split; [reflexivity|]. split.
  { unfold S1, setTimeout_forced_exit, wss_close, set_wss_clients, clearInterval.
    cbn [wss_clients].
    apply Forall2_fmap_r, Forall_Forall2_diag, Forall_forall.
    intros c _. unfold compose. cbv beta.
    destruct (is_open (readyState c)) eqn:E; [|reflexivity].
    apply shutdown_socket_open. exact E. }
  split; [reflexivity|]. split; [exact Hg1|].
  split; [exact He1|]. split; [|split].
  - intros clk1 clk2 H1 H2. cbn [run].
    assert (Hb : forall c0, (now_ms c0 < now_ms clk + 5000)%Z ->
                 existsb (fun due => (due <=? now_ms c0)%Z) [(now_ms clk + 5000)%Z] = false).
    { intros c0 Hc0. cbn [existsb]. destruct (Z.leb_spec (now_ms clk + 5000) (now_ms c0)); [lia|].
      reflexivity. }
    rewrite (dispatch_running clk1 WssClosed S1 He1) by (rewrite Hg1; apply Hb; exact H1).
    cbn [listener]. change (wss_closing S1) with true. cbv iota.
    rewrite (dispatch_running clk2 HttpClosed (server_close S1));
      [reflexivity|exact He1|].
    change (grace_timers (server_close S1)) with (grace_timers S1).
    rewrite Hg1. apply Hb. exact H2.
  - intros clk1 ev Hdue. cbn [run].
    rewrite (dispatch_due clk1 ev S1 He1); [reflexivity|].
    rewrite Hg1. cbn [existsb].
    destruct (Z.leb_spec (now_ms clk + 5000) (now_ms clk1)); [reflexivity|lia].
  - intros clk0 ev e st2 Hl.
    rewrite (dispatch_running _ _ _ He (Hg0 clk0)), Hl. reflexivity.
Qed.
Lemma shutdown_sequence_witness :
  heartbeatTimer (run [(noon, Signal)] two_clients) = false /\
  Forall2 (fun c c' =>
             if is_open (readyState c)
             then outbox c' = outbox c ++ [Data (shutdown_notice noon);
                                           CloseFrame 1001 "Server shutdown"]
                  /\ readyState c' = CLOSING
             else c' = c)
    (wss_clients two_clients) (wss_clients (run [(noon, Signal)] two_clients)) /\
  wss_closing (run [(noon, Signal)] two_clients) = true /\
  grace_timers (run [(noon, Signal)] two_clients) = [(now_ms noon + 5000)%Z] /\
  exit_code (run [(noon, Signal)] two_clients) = None /\
  (forall clk1 clk2,
     (now_ms clk1 < now_ms noon + 5000)%Z -> (now_ms clk2 < now_ms noon + 5000)%Z ->
     exit_code (run [(clk1, WssClosed); (clk2, HttpClosed)]
                  (run [(noon, Signal)] two_clients)) = Some 0%Z) /\
  (forall clk1 ev,
     (now_ms noon + 5000 <= now_ms clk1)%Z ->
     exit_code (run [(clk1, ev)] (run [(noon, Signal)] two_clients)) = Some 1%Z) /\
  (forall clk0 ev e st2,
     listener clk0 ev two_clients = (Throw e, st2) ->
     dispatch clk0 ev two_clients
     = match shutdown clk0 st2 with
       | (Normal _, st3) => st3
       | (Throw _, st3) => process_exit 7 st3
       end).
Proof.
  destruct two_clients_state as (Hs & He & Hg).
  apply (shutdown_sequence noon two_clients).
  - exact He.
  - exact Hg.
  - intros c Hin _. rewrite Hs in Hin. destruct Hin as [<- | [<- | []]]; reflexivity.
Defined.

(** ** Further properties of the server *)

Lemma find_update h ws ws' l :
  List.find (fun c => Nat.eqb (handle c) h) l = Some ws ->
  handle ws' = h ->
  List.find (fun c => Nat.eqb (handle c) h)
    (List.map (fun c => if Nat.eqb (handle c) h then ws' else c) l) = Some ws'.
Proof.
  intros Hf Hh. induction l as [|c l IH]; simpl in *; [discriminate|].
  destruct (Nat.eqb (handle c) h) eqn:E.
  - rewrite Hh, Nat.eqb_refl. reflexivity.
  - rewrite E. apply IH. exact Hf.
Qed.

Lemma sendToClient_sent h message ws st :
  find_socket h st = Some ws -> is_open (readyState ws) = true ->
  send_fault ws (JStr message) = None ->
  find_socket h (snd (sendToClient h message st)) = Some (put (Data (JStr message)) ws).
Proof.
  intros Hws Hopen Hf. unfold sendToClient. rewrite Hws, Hopen.
  unfold ws_send. rewrite Hf. simpl.
  unfold find_socket in *. simpl. apply (find_update h ws); [exact Hws|].
  simpl. apply find_some in Hws as [_ Hh]. apply Nat.eqb_eq. exact Hh.
Qed.

(** X1.  [sendToClient] never raises.  It leaves every socket but its
    own as it was, and leaves the records, the ids handed out and the
    course of the process alone; when its socket is open and accepts
    the message, the message is what the socket is handed. *)
Theorem sendToClient_contained (h : nat) (message : string) (st : State) :
  exists st',
    sendToClient h message st = (Normal tt, st') /\
    Forall2 (fun c c' => handle c <> h -> c' = c) (wss_clients st) (wss_clients st') /\
    clients st' = clients st /\
    lifecycle st' = lifecycle st /\
    allotted st' = allotted st /\
    (forall ws, find_socket h st = Some ws -> is_open (readyState ws) = true ->
                send_fault ws (JStr message) = None ->
                find_socket h st' = Some (put (Data (JStr message)) ws)).
Proof.
  destruct (sendToClient_others h message st) as [H1 H2].
  pose proof (sendToClient_clients h message st) as H3.
  pose proof (preserves_sendToClient lifecycle ltac:(reflexivity) ltac:(reflexivity)
                h message st) as H4.
  pose proof (preserves_sendToClient allotted ltac:(reflexivity) allotted_log
                h message st) as H5.
  pose proof (fun ws => sendToClient_sent h message ws st) as H6.
  destruct (sendToClient h message st) as [r st']. simpl in *. subst r.
  exists st'. repeat split; assumption.
Qed.

(** X2.  A cycle of the heartbeat over sockets of which those whose flag
    is true are open completes and never sends data.  It writes one line
    for each socket whose flag is false, in the order of the sockets,
    after what the console held.  Every socket keeps its identity, its
    id and the data it has sent; a socket whose flag was true is not
    destroyed and is sent one probe; a socket whose flag was false is
    sent nothing and is not open afterwards.  The records and the course
    of the process are as before. *)
Theorem heartbeat_sends_no_data (st : State) :
  (forall c, In c (wss_clients st) -> ws_isAlive c = true ->
             is_open (readyState c) = true) ->
  exists st',
    heartbeat st = (Normal tt, st') /\
    clients st' = clients st /\
    console st'
    = console st
      ++ List.map (fun c => LogTerminating (clientId c))
           (List.filter (fun c => negb (ws_isAlive c)) (wss_clients st)) /\
    lifecycle st' = lifecycle st /\
    Forall2 (fun c c' =>
               handle c' = handle c /\ clientId c' = clientId c /\
               data_sent c' = data_sent c /\
               (ws_isAlive c = true ->
                terminated c' = terminated c /\ readyState c' = readyState c /\
                outbox c' = outbox c ++ [Ping]) /\
               (ws_isAlive c = false ->
                outbox c' = outbox c /\ is_open (readyState c') = false))
      (wss_clients st) (wss_clients st').
Proof.
  intros Hopen. rewrite heartbeat_spec, log_all_state. eexists.
  split; [reflexivity|]. repeat (split; [reflexivity|]). simpl.
  apply Forall2_fmap_r, Forall_Forall2_diag, Forall_forall.
  intros c Hc. unfold compose. cbv beta.
  apply list_elem_of_In in Hc.
  destruct (heartbeat_step_spec c) as (a & b & _ & _ & e).
  split; [exact a|]. split; [exact b|].
  destruct (ws_isAlive c) eqn:Ha.
  - destruct e as (e1 & e2 & e3). rewrite (Hopen c Hc Ha) in e3.
    split; [|split; [auto|discriminate]].
    unfold data_sent. rewrite e3, omap_app. simpl. apply app_nil_r.
  - destruct e as (e1 & _ & e3).
    split; [|split; [discriminate|auto]].
    unfold data_sent. rewrite e3. reflexivity.
Qed.

Lemma heartbeat_sends_no_data_witness :
  exists st',
    heartbeat one_unanswered = (Normal tt, st') /\
    clients st' = clients one_unanswered /\
    console st'
    = console one_unanswered
      ++ List.map (fun c => LogTerminating (clientId c))
           (List.filter (fun c => negb (ws_isAlive c)) (wss_clients one_unanswered)) /\
    lifecycle st' = lifecycle one_unanswered /\
    Forall2 (fun c c' =>
               handle c' = handle c /\ clientId c' = clientId c /\
               data_sent c' = data_sent c /\
               (ws_isAlive c = true ->
                terminated c' = terminated c /\ readyState c' = readyState c /\
                outbox c' = outbox c ++ [Ping]) /\
               (ws_isAlive c = false ->
                outbox c' = outbox c /\ is_open (readyState c') = false))
      (wss_clients one_unanswered) (wss_clients st').
Proof.
  apply (heartbeat_sends_no_data one_unanswered).
  intros c Hc _. destruct one_unanswered_state as [Hs _]. rewrite Hs in Hc.
  destruct Hc as [<- | [<- | []]]; reflexivity.
Defined.

Lemma shutdown_closed clk st :
  (forall c, In c (wss_clients st) -> is_open (readyState c) = false) ->
  shutdown clk st
  = (Normal tt,
     setTimeout_forced_exit (now_ms clk + GRACE_PERIOD) (wss_close (clearInterval st))).
Proof.
  intros Hclosed. rewrite shutdown_spec.
  2:{ intros c Hc Ho. rewrite (Hclosed c Hc) in Ho. discriminate. }
  assert (E : List.map (fun c => if is_open (readyState c)
                                 then ws_close 1001 "Server shutdown"
                                        (put (Data (shutdown_notice clk)) c)
                                 else c) (wss_clients st) = wss_clients st).
  { rewrite <- (map_id (wss_clients st)) at 2.
    apply map_ext_in. intros c Hc. rewrite (Hclosed c Hc). reflexivity. }
  destruct st. unfold set_wss_clients, clearInterval, wss_close, setTimeout_forced_exit.
  simpl in *. rewrite E. reflexivity.
Qed.

(** X3.  A second signal while the server is closing sends nothing: in
    a running server whose open sockets accept the notice, the sockets
    after two signals are what they are after the first, of which each
    formerly open socket holds one notice and one close frame.  Both
    forced exits stay set, so the first one decides. *)
Theorem second_signal_sends_nothing (clk clk2 : Clock) (st : State) :
  exit_code st = None ->
  grace_timers st = [] ->
  (forall c, In c (wss_clients st) -> is_open (readyState c) = true ->
             send_fault c (shutdown_notice clk) = None) ->
  (now_ms clk2 < now_ms clk + 5000)%Z ->
  wss_clients (run [(clk, Signal); (clk2, Signal)] st)
  = wss_clients (run [(clk, Signal)] st) /\
  grace_timers (run [(clk, Signal); (clk2, Signal)] st)
  = [(now_ms clk + 5000)%Z; (now_ms clk2 + 5000)%Z] /\
  exit_code (run [(clk, Signal); (clk2, Signal)] st) = None.
Proof.
  intros He Hg Hok Hlt.
  assert (Hg0 : existsb (fun due => (due <=? now_ms clk)%Z) (grace_timers st) = false)
    by (rewrite Hg; reflexivity).
  assert (Hrun : run [(clk, Signal)] st = snd (shutdown clk st)).
  { cbn [run]. rewrite (dispatch_running _ _ _ He Hg0). cbn [listener].
    rewrite (shutdown_spec clk st Hok). reflexivity. }
  change (run [(clk, Signal); (clk2, Signal)] st)
    with (run [(clk2, Signal)] (run [(clk, Signal)] st)).
  rewrite Hrun, (shutdown_spec clk st Hok). cbn [snd].
  match goal with |- wss_clients (run _ ?s) = _ /\ _ => set (S1 := s) end.
  assert (He1 : exit_code S1 = None) by exact He.
  assert (Hg1 : grace_timers S1 = [(now_ms clk + 5000)%Z])
    by (unfold S1; simpl; rewrite Hg; reflexivity).
  assert (Hclosed : forall c, In c (wss_clients S1) -> is_open (readyState c) = false).
  { intros c Hc. unfold S1 in Hc. simpl in Hc. apply in_map_iff in Hc as (c0 & <- & _).
    destruct (is_open (readyState c0)) eqn:E; [|exact E].
    destruct (shutdown_socket_open c0 (shutdown_notice clk) E) as [_ ->]. reflexivity. }
  pose proof (shutdown_closed clk2 S1 Hclosed) as Hs2.
  cbn [run]. rewrite (dispatch_running clk2 Signal S1 He1).
  2:{ rewrite Hg1. cbn [existsb].
      destruct (Z.leb_spec (now_ms clk + 5000) (now_ms clk2)); [lia|reflexivity]. }
  cbn [listener]. rewrite Hs2. simpl. rewrite Hg. repeat split. exact He.
Qed.

Lemma second_signal_sends_nothing_witness :
  wss_clients (run [(noon, Signal); (later, Signal)] two_clients)
  = wss_clients (run [(noon, Signal)] two_clients) /\
  grace_timers (run [(noon, Signal); (later, Signal)] two_clients)
  = [(now_ms noon + 5000)%Z; (now_ms later + 5000)%Z] /\
  exit_code (run [(noon, Signal); (later, Signal)] two_clients) = None.
Proof.
  destruct two_clients_state as (Hs & He & Hg).
  apply (second_signal_sends_nothing noon later two_clients).
  - exact He.
  - exact Hg.
  - intros c Hin _. rewrite Hs in Hin. destruct Hin as [<- | [<- | []]]; reflexivity.
  - reflexivity.
Defined.

Lemma getClientInfo_unprintable id rec st :
  clients st !! id = Some rec ->
  printable (js_or (client_type rec) (JStr "unknown")) = false ->
  getClientInfo id st = (Throw to_primitive_error, st).
Proof.
  intros Hrec Hp. unfold getClientInfo, interpolate. rewrite Hrec, Hp. reflexivity.
Qed.

(** X4.  A client whose recorded type cannot be converted to text
    brings the server down when its socket closes.  In a running server
    the close handler raises while it builds the line that names the
    client, before the record is removed and before any notice of the
    departure: the record stays, and the error, caught nowhere, starts
    [shutdown]: the heartbeat timer is cleared, every open socket that
    is left is sent the shutdown notice and the close frame and nothing
    else, and the forced exit is set. *)
Theorem unprintable_type_stops_server (clk : Clock) (h : nat) (ws : WebSocket)
    (rec : Client) (st : State) :
  exit_code st = None ->
  grace_timers st = [] ->
  find_socket h st = Some ws ->
  clients st !! clientId ws = Some rec ->
  printable (js_or (client_type rec) (JStr "unknown")) = false ->
  (forall c, In c (wss_clients st) -> is_open (readyState c) = true ->
             send_fault c (shutdown_notice clk) = None) ->
  clients (run [(clk, Close h)] st) !! clientId ws = Some rec /\
  clients (run [(clk, Close h)] st) = clients st /\
  heartbeatTimer (run [(clk, Close h)] st) = false /\
  wss_closing (run [(clk, Close h)] st) = true /\
  grace_timers (run [(clk, Close h)] st) = [(now_ms clk + 5000)%Z] /\
  exit_code (run [(clk, Close h)] st) = None /\
  Forall2 (fun c c' =>
             if is_open (readyState c)
             then outbox c' = outbox c ++ [Data (shutdown_notice clk);
                                           CloseFrame 1001 "Server shutdown"]
                  /\ readyState c' = CLOSING /\ handle c' = handle c
             else c' = c)
    (List.filter (fun c => negb (Nat.eqb (handle c) h)) (wss_clients st))
    (wss_clients (run [(clk, Close h)] st)).
Proof.
  intros He Hg Hws Hrec Hp Hok.
  assert (Hg0 : existsb (fun due => (due <=? now_ms clk)%Z) (grace_timers st) = false)
    by (rewrite Hg; reflexivity).
  cbn [run]. rewrite (dispatch_running _ _ _ He Hg0). cbn [listener].
  set (st1 := set_wss_clients (List.filter (fun c => negb (Nat.eqb (handle c) h))) st).
  assert (Hclose : on_close h clk st = (Throw to_primitive_error, st1)).
  { unfold on_close. rewrite Hws. fold st1. unfold bind at 1.
    rewrite (getClientInfo_unprintable (clientId ws) rec st1 Hrec Hp). reflexivity. }
  rewrite Hclose. unfold on_uncaughtException.
  rewrite shutdown_spec.
  2:{ intros c Hc. simpl in Hc. apply filter_In in Hc as [Hc _]. apply Hok. exact Hc. }
  simpl. rewrite Hg, He. repeat (split; [first [exact Hrec|reflexivity]|]).
  apply Forall2_fmap_r, Forall_Forall2_diag, Forall_forall.
  intros c _. unfold compose. cbv beta.
  destruct (is_open (readyState c)) eqn:Ho; [|reflexivity].
  destruct (shutdown_socket_open c (shutdown_notice clk) Ho) as [H1 H2].
  split; [exact H1|]. split; [exact H2|].
  unfold ws_close. simpl. destruct (readyState c); reflexivity.
Qed.

Lemma rogue_client_state :
  wss_clients rogue_client
  = [mkSocket 0 "client_1" OPEN true [] false no_fault;
     mkSocket 1 "client_2" OPEN true [Data (JStr rogue_message)] false no_fault] /\
  clients rogue_client !! "client_1"
  = Some (mkClient 0 "client_1" "::1" 1769596200000
            (JObj [("toString", JNum 0 0)]) true 1) /\
  exit_code rogue_client = None /\
  grace_timers rogue_client = [].
Proof. vm_compute. repeat split; reflexivity. Qed.

Lemma unprintable_type_stops_server_witness :
  clients (run [(later, Close 0)] rogue_client) !! "client_1"
  = Some (mkClient 0 "client_1" "::1" 1769596200000
            (JObj [("toString", JNum 0 0)]) true 1) /\
  clients (run [(later, Close 0)] rogue_client) = clients rogue_client /\
  heartbeatTimer (run [(later, Close 0)] rogue_client) = false /\
  wss_closing (run [(later, Close 0)] rogue_client) = true /\
  grace_timers (run [(later, Close 0)] rogue_client) = [(now_ms later + 5000)%Z] /\
  exit_code (run [(later, Close 0)] rogue_client) = None /\
  Forall2 (fun c c' =>
             if is_open (readyState c)
             then outbox c' = outbox c ++ [Data (shutdown_notice later);
                                           CloseFrame 1001 "Server shutdown"]
                  /\ readyState c' = CLOSING /\ handle c' = handle c
             else c' = c)
    (List.filter (fun c => negb (Nat.eqb (handle c) 0)) (wss_clients rogue_client))
    (wss_clients (run [(later, Close 0)] rogue_client)).
Proof.
  destruct rogue_client_state as (Hs & Hc & He & Hg).
  apply (unprintable_type_stops_server later 0
           (mkSocket 0 "client_1" OPEN true [] false no_fault)
           (mkClient 0 "client_1" "::1" 1769596200000
              (JObj [("toString", JNum 0 0)]) true 1) rogue_client).
  - exact He.
  - exact Hg.
  - unfold find_socket. rewrite Hs. reflexivity.
  - exact Hc.
  - reflexivity.
  - intros c Hin _. rewrite Hs in Hin. destruct Hin as [<- | [<- | []]]; reflexivity.
Defined.

Lemma find_socket_shape h token l l' :
  Forall2 (fun c c' => c' = c \/ (is_target (Some h) c = true /\ c' = put (Data token) c)) l l' ->
  List.find (fun c => Nat.eqb (handle c) h) l'
  = List.find (fun c => Nat.eqb (handle c) h) l.
Proof.
  induction 1 as [|c c' l l' Hc _ IH]; [reflexivity|]. simpl.
  destruct Hc as [-> | [Ht ->]].
  - rewrite IH. reflexivity.
  - simpl. unfold is_target, is_sender in Ht.
    destruct (Nat.eqb (handle c) h); [discriminate|exact IH].
Qed.

Lemma message_try_sender h id message st :
  find_socket h (snd (message_try h id message st)) = find_socket h st.
Proof.
  unfold find_socket. eapply find_socket_shape. apply message_try_shape.
Qed.

(** X5.  Whatever makes the body of the message handler raise, the
    handler itself completes: it logs the error, hands the error notice
    to the sender when the socket of the sender is open and accepts it,
    and leaves every other socket as the body left it. *)
Theorem processing_error_reported (h : nat) (ws : WebSocket) (message : string)
    (e : js_error) (st st2 : State) :
  find_socket h st = Some ws ->
  message_try h (clientId ws) message st = (Throw e, st2) ->
  exists st',
    on_message h message st = (Normal tt, st') /\
    Forall2 (fun c c' => handle c <> h -> c' = c) (wss_clients st2) (wss_clients st') /\
    clients st' = clients st2 /\
    (exists tail,
       console st'
       = console st2 ++ LogProcessingError (clientId ws) (err_message e) :: tail) /\
    (is_open (readyState ws) = true ->
     send_fault ws (JStr (error_notice (err_message e))) = None ->
     find_socket h st' = Some (put (Data (JStr (error_notice (err_message e)))) ws)).
Proof.
  intros Hws Htry.
  pose proof (message_try_sender h (clientId ws) message st) as Hsender.
  rewrite Htry, Hws in Hsender. simpl in Hsender.
  unfold on_message. rewrite Hws. unfold message_handler, try_catch. rewrite Htry.
  unfold bind at 1. unfold modify at 1.
  set (st3 := log (LogProcessingError (clientId ws) (err_message e)) st2).
  destruct (sendToClient_others h (error_notice (err_message e)) st3) as [Hr Hothers].
  pose proof (sendToClient_clients h (error_notice (err_message e)) st3) as Hclients.
  pose proof (fun w => sendToClient_sent h (error_notice (err_message e)) w st3) as Hsent.
  destruct (sendToClient h (error_notice (err_message e)) st3) as [r st'] eqn:Hrun.
  simpl in Hr, Hothers, Hclients, Hsent. subst r.
  exists st'. split; [reflexivity|]. split; [exact Hothers|]. split; [exact Hclients|].
  split.
  - unfold sendToClient in Hrun. change (find_socket h st3) with (find_socket h st2) in Hrun.
    rewrite Hsender in Hrun.
    destruct (is_open (readyState ws)).
    + unfold ws_send in Hrun. destruct (send_fault ws _); injection Hrun as <-; simpl.
      * eexists. rewrite <- app_assoc. reflexivity.
      * exists []. reflexivity.
    + injection Hrun as <-. exists []. reflexivity.
  - intros Hopen Hf. apply Hsent; assumption.
Qed.

Lemma faulty_second_state :
  find_socket 0 faulty_second = Some (mkSocket 0 "client_1" OPEN true [] false no_fault) /\
  fst (message_try 0 "client_1" "red" faulty_second)
  = Throw (mkError "Error" "write EPIPE").
Proof. vm_compute. split; reflexivity. Qed.

Lemma processing_error_reported_witness :
  exists st',
    on_message 0 "red" faulty_second = (Normal tt, st') /\
    Forall2 (fun c c' => handle c <> 0 -> c' = c)
      (wss_clients (snd (message_try 0 "client_1" "red" faulty_second))) (wss_clients st') /\
    clients st' = clients (snd (message_try 0 "client_1" "red" faulty_second)) /\
    (exists tail,
       console st'
       = console (snd (message_try 0 "client_1" "red" faulty_second))
         ++ LogProcessingError "client_1" "write EPIPE" :: tail) /\
    (is_open OPEN = true ->
     no_fault (JStr (error_notice "write EPIPE")) = None ->
     find_socket 0 st'
     = Some (put (Data (JStr (error_notice "write EPIPE")))
               (mkSocket 0 "client_1" OPEN true [] false no_fault))).
Proof.
  destruct faulty_second_state as (Hs & Ht).
  apply (processing_error_reported 0 (mkSocket 0 "client_1" OPEN true [] false no_fault)
           "red" (mkError "Error" "write EPIPE") faulty_second
           (snd (message_try 0 "client_1" "red" faulty_second))).
  - exact Hs.
  - cbn [clientId]. rewrite (surjective_pairing (message_try 0 "client_1" "red" faulty_second)).
    rewrite Ht. reflexivity.
Defined.

Lemma message_handler_unprintable h id rec message st :
  clients st !! id = Some rec ->
  printable (js_or (client_type rec) (JStr "unknown")) = false ->
  message_try h id message st = (Throw to_primitive_error, counted id st).
Proof.
  intros Hrec Hp. rewrite message_try_spec. cbv zeta.
  assert (Hc : clients (counted id st) !! id = Some (incr_messageCount rec)).
  { unfold counted. rewrite Hrec. simpl. rewrite lookup_alter_eq, Hrec. reflexivity. }
  rewrite (getClientInfo_unprintable id (incr_messageCount rec) _ Hc Hp). reflexivity.
Qed.

(** X6.  A client whose recorded type cannot be converted to text is
    cut off: every message it sends from then on, whatever it holds, is
    counted but never parsed and never forwarded.  No other socket is
    handed anything, the record keeps its type (a payload that declares
    a new one changes nothing), and the log gets the line of the
    processing error. *)
Theorem unprintable_type_silences (h : nat) (ws : WebSocket) (rec : Client)
    (message : string) (st : State) :
  find_socket h st = Some ws ->
  clients st !! clientId ws = Some rec ->
  printable (js_or (client_type rec) (JStr "unknown")) = false ->
  exists st',
    on_message h message st = (Normal tt, st') /\
    Forall2 (fun c c' => handle c <> h -> c' = c) (wss_clients st) (wss_clients st') /\
    clients st' !! clientId ws = Some (incr_messageCount rec) /\
    (exists tail,
       console st'
       = console st
         ++ LogProcessingError (clientId ws) "Cannot convert object to primitive value"
            :: tail).
Proof.
  intros Hws Hrec Hp.
  pose proof (message_handler_unprintable h (clientId ws) rec message st Hrec Hp) as Htry.
  pose proof (message_try_sender h (clientId ws) message st) as Hsender.
  rewrite Htry, Hws in Hsender. simpl in Hsender.
  unfold on_message. rewrite Hws. unfold message_handler, try_catch. rewrite Htry.
  unfold bind at 1. unfold modify at 1.
  set (msg := err_message to_primitive_error).
  set (st3 := log (LogProcessingError (clientId ws) msg) (counted (clientId ws) st)).
  destruct (sendToClient_others h (error_notice msg) st3) as [Hr Hothers].
  pose proof (sendToClient_clients h (error_notice msg) st3) as Hclients.
  destruct (sendToClient h (error_notice msg) st3) as [r st'] eqn:Hrun.
  simpl in Hr, Hothers, Hclients. subst r.
  exists st'. split; [reflexivity|]. split; [|split].
  - change (wss_clients st3) with (wss_clients (counted (clientId ws) st)) in Hothers.
    rewrite counted_sockets in Hothers. exact Hothers.
  - rewrite Hclients. change (clients st3) with (clients (counted (clientId ws) st)).
    unfold counted. rewrite Hrec. simpl. rewrite lookup_alter_eq, Hrec. reflexivity.
  - assert (Hcons : console (counted (clientId ws) st) = console st).
    { unfold counted. destruct (clients st !! clientId ws); reflexivity. }
    unfold sendToClient in Hrun. change (find_socket h st3)
      with (find_socket h (counted (clientId ws) st)) in Hrun.
    rewrite Hsender in Hrun.
    destruct (is_open (readyState ws)).
    + unfold ws_send in Hrun. destruct (send_fault ws _); injection Hrun as <-; simpl;
        rewrite Hcons.
      * eexists. rewrite <- app_assoc. reflexivity.
      * exists []. reflexivity.
    + injection Hrun as <-. simpl. rewrite Hcons. exists []. reflexivity.
Qed.

Lemma unprintable_type_silences_witness :
  exists st',
    on_message 0 unity_message rogue_client = (Normal tt, st') /\
    Forall2 (fun c c' => handle c <> 0 -> c' = c) (wss_clients rogue_client) (wss_clients st') /\
    clients st' !! "client_1"
    = Some (incr_messageCount
              (mkClient 0 "client_1" "::1" 1769596200000
                 (JObj [("toString", JNum 0 0)]) true 1)) /\
    (exists tail,
       console st'
       = console rogue_client
         ++ LogProcessingError "client_1" "Cannot convert object to primitive value" :: tail).
Proof.
  destruct rogue_client_state as (Hs & Hc & _).
  apply (unprintable_type_silences 0 (mkSocket 0 "client_1" OPEN true [] false no_fault)
           (mkClient 0 "client_1" "::1" 1769596200000
              (JObj [("toString", JNum 0 0)]) true 1) unity_message rogue_client).
  - unfold find_socket. rewrite Hs. reflexivity.
  - exact Hc.
  - reflexivity.
Defined.

Lemma message_handler_cut_off h id rec message st :
  clients st !! id = Some rec ->
  printable (js_or (client_type rec) (JStr "unknown")) = false ->
  clients (snd (message_handler h id message st)) = clients (counted id st).
Proof.
  intros Hrec Hp. unfold message_handler, try_catch.
  rewrite (message_handler_unprintable h id rec message st Hrec Hp).
  unfold bind at 1. unfold modify at 1. rewrite sendToClient_clients. reflexivity.
Qed.

(** X7.  Every message of a client that has a record is counted, once:
    whether the payload parses or not, whether it is forwarded, refused
    by a socket or never processed, the handler completes and the record
    of the sender then holds one message more (the count is a number of
    JavaScript, which stays at 2^53) and is the record of the same
    socket, made at the same time. *)
Theorem every_message_counted (h : nat) (ws : WebSocket) (rec : Client)
    (message : string) (st : State) :
  find_socket h st = Some ws ->
  clients st !! clientId ws = Some rec ->
  exists st' rec',
    on_message h message st = (Normal tt, st') /\
    clients st' !! clientId ws = Some rec' /\
    messageCount rec' = js_succ (messageCount rec) /\
    client_ws rec' = client_ws rec /\
    client_ip rec' = client_ip rec /\
    connectedAt rec' = connectedAt rec.
Proof.
  intros Hws Hrec. unfold on_message. rewrite Hws.
  destruct (message_handler_total h (clientId ws) message st) as (st' & Hrun & _).
  exists st'.
  assert (Hc : clients (counted (clientId ws) st) !! clientId ws
               = Some (incr_messageCount rec)).
  { unfold counted. rewrite Hrec. simpl. rewrite lookup_alter_eq, Hrec. reflexivity. }
  destruct (printable (js_or (client_type rec) (JStr "unknown"))) eqn:Hp.
  - pose proof (message_handler_record h _ rec message st Hrec Hp) as Hcl.
    rewrite Hrun in Hcl. simpl in Hcl.
    destruct (declared_role message) as [role|] eqn:Hrole.
    + exists (set_type role (incr_messageCount rec)). split; [exact Hrun|].
      split; [|repeat split].
      rewrite Hcl. apply role_update_record; [exact Hrole|exact Hc].
    + exists (incr_messageCount rec). split; [exact Hrun|].
      split; [|repeat split].
      rewrite Hcl. unfold role_update. rewrite Hrole. exact Hc.
  - pose proof (message_handler_cut_off h _ rec message st Hrec Hp) as Hcl.
    rewrite Hrun in Hcl. simpl in Hcl.
    exists (incr_messageCount rec). split; [exact Hrun|].
    split; [|repeat split]. rewrite Hcl. exact Hc.
Qed.

Lemma every_message_counted_witness :
  exists st' rec',
    on_message 0 "red" two_clients = (Normal tt, st') /\
    clients st' !! "client_1" = Some rec' /\
    messageCount rec' = js_succ 0 /\
    client_ws rec' = 0 /\
    client_ip rec' = "::1" /\
    connectedAt rec' = 1769596200000%Z.
Proof.
  destruct two_clients_state as (Hs & _).
  apply (every_message_counted 0 (mkSocket 0 "client_1" OPEN true [] false no_fault)
           (mkClient 0 "client_1" "::1" 1769596200000 (JStr "unknown") true 0)
           "red" two_clients).
  - unfold find_socket. rewrite Hs. reflexivity.
  - vm_compute. reflexivity.
Defined.

(** X8 (identifiers within the exact range of the counter).  After any
    run of the server from its start (accepts, messages, closes,
    heartbeats, in any order) in which at most 2^53 ids have been handed
    out, the k-th id handed out is [client_k] and no id has been handed
    out twice. *)
Theorem identity_uniqueness (trace : list (Clock * event)) :
  (Z.of_nat (List.length (assigned_ids (run trace initial))) <= 2 ^ 53)%Z ->
  assigned_ids (run trace initial)
  = List.map (fun k => "client_" +:+ pretty (Z.of_nat k))
      (seq 1 (List.length (assigned_ids (run trace initial)))) /\
  NoDup (assigned_ids (run trace initial)).
Proof.
  intros Hle.
  destruct (run_allotted trace initial 0 eq_refl) as (m & Hm).
  unfold allotted in Hm. injection Hm as _ Hids.
  rewrite Hids in Hle |- *. rewrite length_map, length_seq in Hle |- *.
  assert (Hmap : List.map nth_id (seq 1 m)
                 = List.map (fun k => "client_" +:+ pretty (Z.of_nat k)) (seq 1 m)).
  { apply map_ext_in. intros i Hi. apply in_seq in Hi. apply nth_id_small. lia. }
  rewrite Hmap. split; [reflexivity|].
  apply (NoDup_fmap_2_strong (fun k => "client_" +:+ pretty (Z.of_nat k))).
  - intros a b _ _. apply client_id_inj.
  - apply NoDup_seq.
Qed.

Lemma identity_uniqueness_witness :
  assigned_ids (run [accept; accept; (noon, Close 0); accept] initial)
  = List.map (fun k => "client_" +:+ pretty (Z.of_nat k))
      (seq 1 (List.length
                (assigned_ids (run [accept; accept; (noon, Close 0); accept] initial)))) /\
  NoDup (assigned_ids (run [accept; accept; (noon, Close 0); accept] initial)).
Proof.
  apply (identity_uniqueness [accept; accept; (noon, Close 0); accept]).
  vm_compute. discriminate.
Defined.


End ServerFacts.

(** * Properties of the browser client *)

Module BrowserFacts.

Import Browser.
Local Open Scope js_scope.

(** With its element on the page, [displayMessage] completes; the
    variables of the script and the sockets are as before. *)
Lemma displayMessage_ok message type el p :
  messageDisplay p = Some el ->
  exists p',
    displayMessage message type p = (Normal tt, p') /\
    websocket p' = websocket p /\
    reconnectAttempts p' = reconnectAttempts p /\
    reconnectTimer p' = reconnectTimer p /\
    isManualDisconnect p' = isManualDisconnect p /\
    released p' = released p /\
    connectionStatus p' = connectionStatus p /\
    colorButtons p' = colorButtons p /\
    console p' = console p /\
    (exists el', messageDisplay p' = Some el' /\ textContent el' = message).
Proof.
  intros Hel. unfold displayMessage. rewrite Hel.
  destruct (String.eqb type "success"); eexists; (split; [reflexivity|]);
    simpl; repeat (split; [reflexivity|]); eexists; split; reflexivity.
Qed.

(** ** C10 *)

(** C10 (the client-side send), as the code has it.  On a page that has
    its message element, for every datum: without a socket, or with a
    socket that is not open, no send is attempted, the page says so and
    the answer is false.  With an open socket [send] is called once.
    When the call returns, the datum is sent and the answer is true.
    When the call throws, nothing is sent and the [catch] reads the
    message of what was thrown: when that gives a text, the page shows
    it and the answer is false; when it raises (as for a thrown [null]
    or [undefined]), [sendData] raises that error to its caller. *)
Theorem sendData_total (data : datum) (p : Page) (el : Element) :
  messageDisplay p = Some el ->
  exists r p',
    sendData data p = (r, p') /\
    match websocket p with
    | None =>
        r = Normal false /\ websocket p' = None /\
        exists el', messageDisplay p' = Some el' /\
                    textContent el' = "Cannot send: Not connected to server"
    | Some ws =>
        if is_open (readyState ws) then
          exists ws',
            websocket p' = Some ws' /\
            send_calls ws' = S (send_calls ws) /\
            readyState ws' = readyState ws /\
            match send_raises ws data with
            | None => r = Normal true /\ sent ws' = sent ws ++ [data]
            | Some error =>
                sent ws' = sent ws /\
                match message_text error with
                | Normal text =>
                    r = Normal false /\
                    exists el', messageDisplay p' = Some el' /\
                                textContent el' = "Error sending data: " +:+ text
                | Throw e => r = Throw e
                end
            end
        else
          r = Normal false /\ websocket p' = Some ws /\
          exists el', messageDisplay p' = Some el' /\
                      textContent el' = "Cannot send: Not connected to server"
    end.
Proof.
  intros Hel. unfold sendData. unfold bind at 1. unfold get at 1.
  destruct (websocket p) as [ws|] eqn:Hws.
  - destruct (is_open (readyState ws)) eqn:Hopen; cbn [negb].
    + unfold websocket_send, send_raises. rewrite Hws.
      assert (Hr : readyState ws = OPEN) by (destruct (readyState ws); try discriminate; reflexivity).
      destruct (conversion data) as [error|] eqn:Hconv.
      * set (p1 := set_websocket _ p).
        unfold bind at 1. unfold modify at 1. unfold bind at 1. unfold lift at 1.
        destruct (message_text error) as [text|e] eqn:Hm.
        -- destruct (displayMessage_ok ("Error sending data: " +:+ text) "error" el
                       (console_log (LogSendError error) p1) Hel)
             as (p' & Hd & Hw & _ & _ & _ & _ & _ & _ & _ & Hshown).
           unfold bind. rewrite Hd. exists (Normal false), p'. split; [reflexivity|].
           eexists. split; [rewrite Hw; reflexivity|].
           simpl. repeat split. exact Hshown.
        -- do 2 eexists. split; [reflexivity|].
           eexists. split; [reflexivity|]. simpl. repeat split.
      * rewrite Hr. destruct (send_fault ws data) as [error|] eqn:Hf.
        -- set (p1 := set_websocket _ p).
           unfold bind at 1. unfold modify at 1. unfold bind at 1. unfold lift at 1.
           destruct (message_text error) as [text|e] eqn:Hm.
           ++ destruct (displayMessage_ok ("Error sending data: " +:+ text) "error" el
                          (console_log (LogSendError error) p1) Hel)
                as (p' & Hd & Hw & _ & _ & _ & _ & _ & _ & _ & Hshown).
              unfold bind. rewrite Hd. exists (Normal false), p'. split; [reflexivity|].
              eexists. split; [rewrite Hw; reflexivity|].
              simpl. repeat split. exact Hshown.
           ++ do 2 eexists. split; [reflexivity|].
              eexists. split; [reflexivity|]. simpl. repeat split.
        -- unfold bind, modify, ret. do 2 eexists. split; [reflexivity|].
           eexists. split; [reflexivity|]. simpl. repeat split.
    + destruct (displayMessage_ok "Cannot send: Not connected to server" "error" el p Hel)
        as (p' & Hd & Hw & _ & _ & _ & _ & _ & _ & _ & Hshown).
      unfold bind. rewrite Hd. exists (Normal false), p'. split; [reflexivity|].
      rewrite Hw, Hws. repeat split. exact Hshown.
  - destruct (displayMessage_ok "Cannot send: Not connected to server" "error" el p Hel)
      as (p' & Hd & Hw & _ & _ & _ & _ & _ & _ & _ & Hshown).
    unfold bind. rewrite Hd. exists (Normal false), p'. split; [reflexivity|].
    rewrite Hw, Hws. repeat split. exact Hshown.
Qed.

Lemma sendData_total_witness :
  exists r p',
    sendData (Value (JStr "#FF0000")) connected_page = (r, p') /\
    exists ws',
      websocket p' = Some ws' /\
      send_calls ws' = 1 /\
      readyState ws' = OPEN /\
      r = Normal true /\ sent ws' = [Value (JStr "#FF0000")].
Proof.
  exact (sendData_total (Value (JStr "#FF0000")) connected_page
           (mkElement EmptyString ["message"]) eq_refl).
Defined.

(** [sendData] raises to its caller: on a page without the message
    element when there is no socket to send on, and on the sample page
    with an open socket when the conversion of the datum throws
    [null], of which the [catch] cannot read the message. *)
Lemma sendData_raises :
  sendData (Value (JStr "#FF0000")) bare_page
  = (Throw (set_property_error "textContent"), bare_page) /\
  fst (sendData throws_null connected_page) = Throw (type_error "null" "message") /\
  (exists el, messageDisplay connected_page = Some el).
Proof.
  split; [reflexivity|]. split; [reflexivity|]. eexists. reflexivity.
Qed.

(** ** What the listeners keep *)

Lemma keeps_ret {A} (I : Page -> Prop) (a : A) : keeps I (ret a).
Proof. intros p Hp. exact Hp. Qed.

Lemma keeps_lift {A} (I : Page -> Prop) (c : completion A) : keeps I (lift c).
Proof. intros p Hp. exact Hp. Qed.

Lemma keeps_modify (I : Page -> Prop) f : (forall p, I p -> I (f p)) -> keeps I (modify f).
Proof. intros H p Hp. apply H. exact Hp. Qed.

Lemma keeps_bind {A B} (I : Page -> Prop) (m : M Page A) (k : A -> M Page B) :
  keeps I m -> (forall a, keeps I (k a)) -> keeps I (bind m k).
Proof.
  intros Hm Hk p Hp. unfold bind. specialize (Hm p Hp).
  destruct (m p) as [[a|e] p1]; simpl in *; [|exact Hm].
  apply Hk. exact Hm.
Qed.

(** After [get] the continuation runs in the state it was handed. *)
Lemma keeps_get_bind {B} (I : Page -> Prop) (k : Page -> M Page B) :
  (forall p, I p -> I (snd (k p p))) -> keeps I (bind get k).
Proof. intros H p Hp. unfold bind, get. apply H. exact Hp. Qed.

Lemma keeps_try_catch {A} (I : Page -> Prop) (m : M Page A) (k : js_error -> M Page A) :
  keeps I m -> (forall e, keeps I (k e)) -> keeps I (try_catch m k).
Proof.
  intros Hm Hk p Hp. unfold try_catch. specialize (Hm p Hp).
  destruct (m p) as [[a|e] p1]; simpl in *; [exact Hm|].
  apply Hk. exact Hm.
Qed.

Section Keeps.

Variable I : Page -> Prop.

Hypothesis I_message : forall e p, I p -> I (set_messageDisplay e p).
Hypothesis I_status : forall e p, I p -> I (set_connectionStatus e p).
Hypothesis I_buttons : forall f p, I p -> I (set_colorButtons f p).
Hypothesis I_console : forall e p, I p -> I (console_log e p).
Hypothesis I_timer :
  forall t p, t <> Reconnect -> I p -> I (snd (setTimeout t p)).

Lemma keeps_displayMessage message type : keeps I (displayMessage message type).
Proof.
  intros p Hp. unfold displayMessage.
  destruct (messageDisplay p) as [el|]; [|exact Hp].
  destruct (String.eqb type "success").
  - unfold bind, ret.
    match goal with
    | |- context [setTimeout ?t ?q] =>
        pose proof (I_timer t q ltac:(discriminate) (I_message _ _ Hp)) as H;
        destruct (setTimeout t q) as [[id|e] q']; exact H
    end.
  - apply I_message. exact Hp.
Qed.

Lemma keeps_updateConnectionStatus b : keeps I (updateConnectionStatus b).
Proof.
  intros p Hp. unfold updateConnectionStatus.
  destruct (connectionStatus p); [apply I_status|]; exact Hp.
Qed.

Lemma keeps_clear_message message : keeps I (callback (ClearMessage message)).
Proof.
  apply keeps_get_bind. intros p Hp.
  destruct (messageDisplay p) as [el|]; [|exact Hp].
  destruct (String.eqb (textContent el) message); [|exact Hp].
  apply I_message. exact Hp.
Qed.

Lemma keeps_restore_opacity i : keeps I (callback (RestoreOpacity i)).
Proof. apply keeps_modify. intros p Hp. apply I_buttons. exact Hp. Qed.

End Keeps.

(** ** The invariant of the reconnection *)

Lemma NoDup_map_filter {A B} (g : A -> B) (f : A -> bool) (l : list A) :
  NoDup (List.map g l) -> NoDup (List.map g (List.filter f l)).
Proof.
  induction l as [|x l IH]; simpl; [auto|].
  intros H. apply NoDup_cons in H as [Hx Hl].
  destruct (f x); simpl; [|auto].
  apply NoDup_cons. split; [|auto].
  intros Hin. apply Hx.
  apply list_elem_of_In, in_map_iff in Hin as (y & Hy & Hin).
  apply filter_In in Hin as [Hin _].
  apply list_elem_of_In, in_map_iff. exists y. auto.
Qed.

Lemma timers_fresh_setTimeout t p :
  timers_fresh p -> timers_fresh (snd (setTimeout t p)).
Proof.
  intros [Hnd Hlt]. unfold timers_fresh. simpl. split.
  - rewrite map_app. simpl. apply NoDup_app. split; [exact Hnd|]. split.
    + intros x Hx Hx'. apply list_elem_of_singleton in Hx'. subst x.
      apply list_elem_of_In, in_map_iff in Hx as (y & Hy & Hin).
      specialize (Hlt y Hin). rewrite Hy in Hlt. lia.
    + apply NoDup_singleton.
  - intros y Hin. apply in_app_iff in Hin as [Hin | [<- | []]].
    + specialize (Hlt y Hin). lia.
    + simpl. lia.
Qed.

Lemma timers_fresh_clearTimeout id p :
  timers_fresh p -> timers_fresh (clearTimeout id p).
Proof.
  intros [Hnd Hlt]. unfold timers_fresh. simpl. split.
  - apply NoDup_map_filter. exact Hnd.
  - intros y Hin. apply filter_In in Hin as [Hin _]. apply Hlt. exact Hin.
Qed.

Lemma pending_setTimeout_other t p :
  t <> Reconnect ->
  pending_reconnects (snd (setTimeout t p)) = pending_reconnects p.
Proof.
  intros Ht. unfold pending_reconnects. simpl. rewrite List.filter_app. simpl.
  unfold is_reconnect at 2. simpl. destruct t; try contradiction; apply app_nil_r.
Qed.

Lemma pending_clearTimeout id p t :
  In t (pending_reconnects (clearTimeout id p)) ->
  In t (pending_reconnects p) /\ fst t <> id.
Proof.
  unfold pending_reconnects. simpl. intros H.
  apply filter_In in H as [H Hr]. apply filter_In in H as [H Hid].
  split; [apply filter_In; auto|].
  intros Heq. rewrite Heq, Pos.eqb_refl in Hid. discriminate.
Qed.

Lemma invariant_message e p :
  reconnect_invariant p -> reconnect_invariant (set_messageDisplay e p).
Proof. intros H. exact H. Qed.

Lemma invariant_status e p :
  reconnect_invariant p -> reconnect_invariant (set_connectionStatus e p).
Proof. intros H. exact H. Qed.

Lemma invariant_buttons f p :
  reconnect_invariant p -> reconnect_invariant (set_colorButtons f p).
Proof. intros H. exact H. Qed.

Lemma invariant_console e p :
  reconnect_invariant p -> reconnect_invariant (console_log e p).
Proof. intros H. exact H. Qed.

Lemma invariant_timer t p :
  t <> Reconnect -> reconnect_invariant p -> reconnect_invariant (snd (setTimeout t p)).
Proof.
  intros Ht (Ha & Hp & Hf). split; [exact Ha|]. split.
  - rewrite (pending_setTimeout_other t p Ht). exact Hp.
  - apply timers_fresh_setTimeout. exact Hf.
Qed.

(** Once the timer that [reconnectTimer] names is cleared, no
    reconnection is pending. *)
Lemma cleared_none_pending p :
  reconnect_invariant p ->
  pending_reconnects
    (match reconnectTimer p with Some id => clearTimeout id p | None => p end) = [].
Proof.
  intros (_ & Hp & _).
  set (q := match reconnectTimer p with Some id => clearTimeout id p | None => p end).
  destruct (pending_reconnects q) as [|t l] eqn:E; [reflexivity|exfalso].
  assert (Hin : In t (pending_reconnects q)) by (rewrite E; left; reflexivity).
  unfold q in Hin. clear E q.
  destruct (reconnectTimer p) as [id|] eqn:Hid.
  - apply pending_clearTimeout in Hin as [Hin Hne].
    specialize (Hp t Hin). congruence.
  - specialize (Hp t Hin). discriminate.
Qed.

Section KeepsSend.

Variable I : Page -> Prop.

Hypothesis I_message : forall e p, I p -> I (set_messageDisplay e p).
Hypothesis I_buttons : forall f p, I p -> I (set_colorButtons f p).
Hypothesis I_console : forall e p, I p -> I (console_log e p).
Hypothesis I_timer :
  forall t p, t <> Reconnect -> I p -> I (snd (setTimeout t p)).
Hypothesis I_sent :
  forall ws w p, websocket p = Some ws -> I p -> I (set_websocket (Some w) p).

Lemma websocket_send_keeps data p : I p -> I (snd (websocket_send data p)).
Proof.
  intros Hp. unfold websocket_send.
  destruct (websocket p) as [ws|] eqn:Hws; [|exact Hp].
  destruct (conversion data); [apply (I_sent ws); assumption|].
  destruct (readyState ws); try destruct (send_fault ws data);
    apply (I_sent ws); assumption.
Qed.

Lemma keeps_sendData data : keeps I (sendData data).
Proof.
  apply keeps_get_bind. intros p Hp.
  match goal with |- context [if ?b then _ else _] => destruct b end.
  - apply keeps_bind; [apply keeps_displayMessage; assumption|intros; apply keeps_ret|exact Hp].
  - pose proof (websocket_send_keeps data p Hp) as Hs.
    destruct (websocket_send data p) as [[|error] p1]; simpl in Hs.
    + apply keeps_bind; [apply keeps_modify; intros; apply I_console; assumption| |exact Hs].
      intros; apply keeps_ret.
    + apply keeps_bind; [apply keeps_modify; intros; apply I_console; assumption| |exact Hs].
      intros _. apply keeps_bind; [apply keeps_lift|].
      intros text. apply keeps_bind; [apply keeps_displayMessage; assumption|].
      intros; apply keeps_ret.
Qed.

Lemma keeps_handleColorButtonClick i : keeps I (handleColorButtonClick i).
Proof.
  apply keeps_get_bind. intros p Hp.
  destruct (colorButtons p !! i) as [button|]; [|exact Hp].
  assert (Hlog : keeps I (modify (console_log LogNoColor)))
    by (apply keeps_modify; intros; apply I_console; assumption).
  destruct (data_color button) as [colorHex|]; [|apply Hlog; exact Hp].
  destruct (String.eqb colorHex EmptyString); [apply Hlog; exact Hp|].
  apply keeps_bind; [apply keeps_sendData| |exact Hp].
  intros success. destruct success; [|apply keeps_ret].
  apply keeps_bind; [apply keeps_displayMessage; assumption|]. intros _.
  apply keeps_bind; [apply keeps_modify; intros; apply I_buttons; assumption|]. intros _.
  apply keeps_bind; [|intros; apply keeps_ret].
  intros q Hq. apply I_timer; [discriminate|exact Hq].
Qed.

Lemma keeps_click i : keeps I (click i).
Proof.
  apply keeps_try_catch; [apply keeps_handleColorButtonClick|intros; apply keeps_ret].
Qed.

Lemma keeps_handleKeyPress tagName key : keeps I (handleKeyPress tagName key).
Proof.
  unfold handleKeyPress.
  destruct (String.eqb tagName "INPUT" || String.eqb tagName "TEXTAREA"); [apply keeps_ret|].
  destruct (assoc (toLowerCase key) keyMap) as [color|]; [|apply keeps_ret].
  apply keeps_get_bind. intros p Hp.
  destruct (querySelector color (colorButtons p) 0) as [[i button]|]; [|exact Hp].
  destruct (negb (disabled button)); [apply keeps_click|]; exact Hp.
Qed.

End KeepsSend.

Lemma invariant_clearTimeout id p :
  reconnect_invariant p -> reconnect_invariant (clearTimeout id p).
Proof.
  intros (Ha & Hp & Hf). split; [exact Ha|]. split.
  - intros t Ht. apply pending_clearTimeout in Ht as [Ht _]. apply Hp. exact Ht.
  - apply timers_fresh_clearTimeout. exact Hf.
Qed.

Lemma keeps_invariant_displayMessage message type :
  keeps reconnect_invariant (displayMessage message type).
Proof.
  apply keeps_displayMessage; auto using invariant_message, invariant_timer.
Qed.

Lemma keeps_invariant_status b : keeps reconnect_invariant (updateConnectionStatus b).
Proof. apply keeps_updateConnectionStatus. auto using invariant_status. Qed.

Lemma keeps_invariant_scheduleReconnect : keeps reconnect_invariant scheduleReconnect.
Proof.
  apply keeps_get_bind. intros p Hp.
  pose proof (cleared_none_pending p Hp) as Hnone.
  assert (Hq : reconnect_invariant
                 (match reconnectTimer p with Some id => clearTimeout id p | None => p end))
    by (destruct (reconnectTimer p); [apply invariant_clearTimeout|]; exact Hp).
  assert (Hstep : (match reconnectTimer p with
                   | Some id => modify (clearTimeout id)
                   | None => ret tt
                   end) p
                  = (Normal tt,
                     match reconnectTimer p with Some id => clearTimeout id p | None => p end))
    by (destruct (reconnectTimer p); reflexivity).
  unfold bind at 1. rewrite Hstep.
  set (q := match reconnectTimer p with Some id => clearTimeout id p | None => p end) in *.
  destruct (MAX_RECONNECT_ATTEMPTS <=? reconnectAttempts p)%Z eqn:Hmax.
  - apply keeps_invariant_displayMessage. exact Hq.
  - apply Z.leb_gt in Hmax. destruct Hp as ((Ha0 & _) & _). destruct Hq as (_ & _ & Hf).
    unfold bind, modify. simpl. split; [simpl; lia|]. split.
    + unfold pending_reconnects. simpl. rewrite List.filter_app. simpl.
      unfold pending_reconnects in Hnone. simpl in Hnone. rewrite Hnone. simpl.
      intros t [<- | []]. reflexivity.
    + exact (timers_fresh_setTimeout Reconnect
               (set_reconnectAttempts (reconnectAttempts p + 1)%Z q) Hf).
Qed.

Lemma keeps_invariant_connectWebSocket : keeps reconnect_invariant connectWebSocket.
Proof.
  apply keeps_try_catch.
  - apply keeps_get_bind. intros p Hp.
    match goal with |- context [if ?b then _ else _] => destruct b end; [exact Hp|].
    apply keeps_bind; [apply keeps_invariant_displayMessage| |exact Hp]. intros _.
    apply keeps_bind.
    + intros q Hq. unfold new_WebSocket. destruct (construct_fault q); exact Hq.
    + intros ws. apply keeps_modify. intros q Hq. destruct (websocket q); exact Hq.
  - intros e. apply keeps_bind; [apply keeps_modify; intros q Hq; exact Hq|]. intros _.
    apply keeps_bind; [apply keeps_invariant_status|]. intros _.
    apply keeps_bind; [apply keeps_invariant_displayMessage|]. intros _.
    apply keeps_invariant_scheduleReconnect.
Qed.

Lemma keeps_invariant_open : keeps reconnect_invariant handleConnectionOpen.
Proof.
  apply keeps_bind.
  { apply keeps_modify. intros p (Ha & Hp & Hf). split; [|split; assumption].
    simpl. unfold MAX_RECONNECT_ATTEMPTS. lia. }
  intros _. apply keeps_bind; [apply keeps_modify; intros q Hq; exact Hq|]. intros _.
  apply keeps_bind; [apply keeps_invariant_status|]. intros _.
  apply keeps_bind; [apply keeps_modify; intros q Hq; exact Hq|]. intros _.
  apply keeps_invariant_displayMessage.
Qed.

Lemma keeps_invariant_close : keeps reconnect_invariant handleConnectionClose.
Proof.
  apply keeps_bind; [apply keeps_invariant_status|]. intros _.
  apply keeps_bind; [apply keeps_modify; intros q Hq; exact Hq|]. intros _.
  apply keeps_get_bind. intros p Hp.
  destruct (negb (isManualDisconnect p)).
  - apply keeps_bind; [apply keeps_invariant_displayMessage| |exact Hp].
    intros _. apply keeps_invariant_scheduleReconnect.
  - apply keeps_invariant_displayMessage. exact Hp.
Qed.

Lemma disconnect_timer_step p :
  reconnect_invariant p ->
  exists q,
    (match reconnectTimer p with
     | Some id => modify (clearTimeout id) ;;; modify (set_reconnectTimer None)
     | None => ret tt
     end) p = (Normal tt, q) /\
    reconnect_invariant q /\ pending_reconnects q = [] /\
    websocket q = websocket p /\ isManualDisconnect q = isManualDisconnect p /\
    released q = released p.
Proof.
  intros Hp. pose proof (cleared_none_pending p Hp) as Hnone.
  destruct (reconnectTimer p) as [id|] eqn:Hid.
  - eexists. split; [reflexivity|].
    pose proof (invariant_clearTimeout id p Hp) as (Ha & _ & Hf).
    split; [|split; [exact Hnone|repeat split]].
    split; [exact Ha|]. split; [|exact Hf].
    intros t Ht. change (In t (pending_reconnects (clearTimeout id p))) in Ht.
    rewrite Hnone in Ht. destruct Ht.
  - exists p. split; [reflexivity|]. split; [exact Hp|]. split; [exact Hnone|repeat split].
Qed.

Lemma keeps_invariant_disconnect : keeps reconnect_invariant disconnectWebSocket.
Proof.
  apply keeps_bind; [apply keeps_modify; intros q Hq; exact Hq|]. intros _.
  apply keeps_get_bind. intros p Hp.
  destruct (disconnect_timer_step p Hp) as (q & Hstep & Hq & _).
  unfold bind at 1. rewrite Hstep.
  destruct (websocket p); [|exact Hq].
  unfold bind, modify. simpl. exact Hq.
Qed.

Lemma keeps_invariant_callback t : keeps reconnect_invariant (callback t).
Proof.
  destruct t.
  - apply keeps_get_bind. intros p Hp.
    apply keeps_bind; [apply keeps_modify; intros q Hq; exact Hq| |exact Hp].
    intros _. apply keeps_invariant_connectWebSocket.
  - apply keeps_clear_message. auto using invariant_message.
  - apply keeps_restore_opacity. auto using invariant_buttons.
Qed.

Lemma keeps_invariant_fire id : keeps reconnect_invariant (fire id).
Proof.
  apply keeps_get_bind. intros p Hp.
  destruct (List.find _ (timers p)) as [[i t]|]; [|exact Hp].
  apply keeps_bind; [| |exact Hp].
  - apply keeps_modify. intros; apply invariant_clearTimeout; assumption.
  - intros _. apply keeps_invariant_callback.
Qed.

Lemma keeps_invariant_listener ev : keeps reconnect_invariant (listener ev).
Proof.
  assert (Hsent : forall ws w p, websocket p = Some ws -> reconnect_invariant p ->
                                 reconnect_invariant (set_websocket (Some w) p))
    by (intros ws w p _ H; exact H).
  destruct ev; simpl.
  - (* Loaded *)
    apply keeps_bind; [apply keeps_modify; intros q Hq; exact Hq|]. intros _.
    apply keeps_bind; [apply keeps_invariant_displayMessage|]. intros _.
    apply keeps_invariant_connectWebSocket.
  - apply keeps_bind; [|intros; apply keeps_invariant_open].
    destruct current; [|apply keeps_ret].
    apply keeps_modify. intros q Hq. unfold set_readyState. destruct (websocket q); exact Hq.
  - apply keeps_bind; [|intros; apply keeps_invariant_close].
    destruct current; [|apply keeps_ret].
    apply keeps_modify. intros q Hq. unfold set_readyState. destruct (websocket q); exact Hq.
  - apply keeps_invariant_displayMessage.
  - apply keeps_invariant_displayMessage.
  - apply keeps_invariant_fire.
  - apply keeps_handleColorButtonClick;
      auto using invariant_message, invariant_buttons, invariant_console, invariant_timer.
  - apply keeps_handleKeyPress;
      auto using invariant_message, invariant_buttons, invariant_console, invariant_timer.
  - apply keeps_get_bind. intros p Hp.
    match goal with |- context [if ?b then _ else _] => destruct b end; [|exact Hp].
    destruct (negb (isManualDisconnect p)); [|exact Hp].
    apply keeps_invariant_connectWebSocket. exact Hp.
  - apply keeps_invariant_disconnect.
  - apply keeps_invariant_connectWebSocket.
  - apply keeps_invariant_disconnect.
  - apply keeps_bind; [|intros; apply keeps_ret].
    apply keeps_sendData;
      auto using invariant_message, invariant_buttons, invariant_console, invariant_timer.
Qed.

Lemma run_invariant trace p :
  reconnect_invariant p -> reconnect_invariant (run trace p).
Proof.
  revert p. induction trace as [|ev rest IH]; intros p Hp; simpl; [exact Hp|].
  apply IH. apply keeps_invariant_listener. exact Hp.
Qed.

Lemma script_start_invariant p :
  script_start p -> reconnect_invariant p.
Proof.
  intros (_ & Ha & _ & _ & Ht & _). split; [|split; [|split]].
  - rewrite Ha. unfold MAX_RECONNECT_ATTEMPTS. lia.
  - unfold pending_reconnects. rewrite Ht. intros t [].
  - rewrite Ht. constructor.
  - rewrite Ht. intros t [].
Qed.

(** The close of the socket the variable refers to, on a page that has
    its two elements, when the disconnect was not asked for: the page
    says so, the buttons are disabled, and a reconnection is scheduled
    unless [MAX_RECONNECT_ATTEMPTS] have been made. *)
Lemma close_step p s el :
  connectionStatus p = Some s ->
  messageDisplay p = Some el ->
  isManualDisconnect p = false ->
  exists q,
    listener (SocketCloses true) p = (Normal tt, q) /\
    reconnectAttempts q
    = (if (MAX_RECONNECT_ATTEMPTS <=? reconnectAttempts p)%Z
       then reconnectAttempts p else reconnectAttempts p + 1)%Z /\
    timers q
    = timers (match reconnectTimer p with Some id => clearTimeout id p | None => p end)
      ++ (if (MAX_RECONNECT_ATTEMPTS <=? reconnectAttempts p)%Z
          then [] else [(next_timer p, Reconnect)]) /\
    reconnectTimer q
    = (if (MAX_RECONNECT_ATTEMPTS <=? reconnectAttempts p)%Z
       then reconnectTimer p else Some (next_timer p)) /\
    isManualDisconnect q = false /\
    (exists s', connectionStatus q = Some s' /\ textContent s' = "Disconnected") /\
    (exists el',
       messageDisplay q = Some el' /\
       textContent el'
       = if (MAX_RECONNECT_ATTEMPTS <=? reconnectAttempts p)%Z
         then "Failed to reconnect after 5 attempts. Please refresh the page."
         else "Connection lost. Attempting to reconnect...") /\
    Forall (fun b => disabled b = true) (colorButtons q).
Proof.
  intros Hs Hel Hm.
  destruct p as [ws ra rt md cs msg cb tm nt rel hn cf tf co].
  simpl in Hs, Hel, Hm. subst cs msg md.
  assert (Hb : Forall (fun b => disabled b = true)
                 (List.map (fun b => mkButton (data_color b) (data_name b) (negb false)
                                       (opacity b)) cb)).
  { apply Forall_fmap, Forall_forall. intros b _. reflexivity. }
  unfold listener, handleConnectionClose, updateConnectionStatus, scheduleReconnect,
    displayMessage, set_readyState, enableButtons, bind, modify, get, ret, setTimeout.
  destruct ws as [w|]; destruct rt as [id|];
    destruct (MAX_RECONNECT_ATTEMPTS <=? ra)%Z eqn:Hmax;
    repeat first [rewrite Hmax | progress cbn -[classList_add classList_remove Z.leb]];
    eexists; (split; [reflexivity|]);
    repeat first [rewrite Hmax | rewrite app_nil_r
                 | progress cbn -[classList_add classList_remove Z.leb]];
    repeat split; eauto.
Qed.

(** ** Further properties of the browser client *)

Lemma run_app l1 l2 p : run (l1 ++ l2) p = run l2 (run l1 p).
Proof. revert p. induction l1 as [|ev l1 IH]; intros p; simpl; [reflexivity|apply IH]. Qed.

(** The opening of a socket resets the count of the attempts, whatever
    the handler meets afterwards. *)
Lemma open_resets current p : reconnectAttempts (dispatch (SocketOpens current) p) = 0%Z.
Proof.
  unfold dispatch, listener.
  set (p1 := snd ((if current then modify (set_readyState OPEN) else ret tt) p)).
  assert (H1 : (if current then modify (set_readyState OPEN) else ret tt) p = (Normal tt, p1))
    by (unfold p1; destruct current; reflexivity).
  unfold bind at 1. rewrite H1. unfold handleConnectionOpen.
  unfold bind at 1. unfold modify at 1. unfold bind at 1. unfold modify at 1.
  set (p2 := set_isManualDisconnect false (set_reconnectAttempts 0 p1)).
  assert (H2 : reconnectAttempts p2 = 0%Z) by reflexivity.
  revert H2. generalize p2. clear. intros p H.
  assert (Ht : forall t q, t <> Reconnect -> reconnectAttempts q = 0%Z ->
                           reconnectAttempts (snd (setTimeout t q)) = 0%Z)
    by (intros t q _ Hq; exact Hq).
  apply (keeps_bind (fun q => reconnectAttempts q = 0%Z)); [| |exact H].
  - apply keeps_updateConnectionStatus. intros e q Hq. exact Hq.
  - intros _. apply keeps_bind; [apply keeps_modify; intros q Hq; exact Hq|].
    intros _. apply keeps_displayMessage; [intros e q Hq; exact Hq|exact Ht].
Qed.

(** X9.  However the page is driven from the start of the script
    (socket events, timers, clicks, keys, visibility changes, calls of
    [window.ColorController], in any order), the count of the reconnect
    attempts stays between 0 and [MAX_RECONNECT_ATTEMPTS].  From there,
    the close of the current socket that was not asked for, on a page
    with its two elements, counts one attempt more unless the count is
    at the maximum, and the opening of a socket sets the count to 0. *)
Theorem reconnect_attempts_bounded (p : Page) (trace : list event) :
  script_start p ->
  (0 <= reconnectAttempts (run trace p) <= MAX_RECONNECT_ATTEMPTS)%Z /\
  (forall s el,
     connectionStatus (run trace p) = Some s ->
     messageDisplay (run trace p) = Some el ->
     isManualDisconnect (run trace p) = false ->
     reconnectAttempts (run (trace ++ [SocketCloses true]) p)
     = Z.min (reconnectAttempts (run trace p) + 1) MAX_RECONNECT_ATTEMPTS) /\
  (forall current, reconnectAttempts (run (trace ++ [SocketOpens current]) p) = 0%Z).
Proof.
  intros Hstart.
  pose proof (run_invariant trace p (script_start_invariant p Hstart)) as (Hb & _).
  split; [exact Hb|]. split.
  - intros s el Hs Hel Hm. rewrite run_app. cbn [run]. unfold dispatch.
    destruct (close_step _ s el Hs Hel Hm) as (q & Hq & Ha & _).
    rewrite Hq. cbn [snd]. rewrite Ha.
    destruct (MAX_RECONNECT_ATTEMPTS <=? reconnectAttempts (run trace p))%Z eqn:E;
      [apply Z.leb_le in E|apply Z.leb_gt in E]; lia.
  - intros current. rewrite run_app. cbn [run]. apply open_resets.
Qed.

Lemma reconnect_attempts_bounded_witness :
  (0 <= reconnectAttempts (run [Loaded; SocketCloses true; TimerFires 1] fresh_page)
     <= MAX_RECONNECT_ATTEMPTS)%Z /\
  (forall s el,
     connectionStatus (run [Loaded; SocketCloses true; TimerFires 1] fresh_page) = Some s ->
     messageDisplay (run [Loaded; SocketCloses true; TimerFires 1] fresh_page) = Some el ->
     isManualDisconnect (run [Loaded; SocketCloses true; TimerFires 1] fresh_page) = false ->
     reconnectAttempts
       (run ([Loaded; SocketCloses true; TimerFires 1] ++ [SocketCloses true]) fresh_page)
     = Z.min (reconnectAttempts (run [Loaded; SocketCloses true; TimerFires 1] fresh_page) + 1)
         MAX_RECONNECT_ATTEMPTS) /\
  (forall current,
     reconnectAttempts
       (run ([Loaded; SocketCloses true; TimerFires 1] ++ [SocketOpens current]) fresh_page)
     = 0%Z).
Proof.
  apply (reconnect_attempts_bounded fresh_page).
  repeat split; reflexivity.
Defined.

Lemma same_id_at_most_one {A} (l : list (positive * A)) (id : positive) :
  NoDup (List.map fst l) -> (forall t, In t l -> fst t = id) -> List.length l <= 1.
Proof.
  intros Hnd Hid. destruct l as [|a [|b l]]; simpl; try lia.
  exfalso. simpl in Hnd. apply NoDup_cons in Hnd as [Hnot _]. apply Hnot.
  rewrite (Hid a), <- (Hid b) by (simpl; auto). left.
Qed.

(** X10.  However the page is driven from the start of the script, at
    most one reconnection is pending at any time, and it is the timer
    that the variable [reconnectTimer] names.  From there, the close of
    the current socket that was not asked for, on a page with its two
    elements, leaves exactly one reconnection pending, the one it has
    just scheduled, or none when the count of the attempts is at the
    maximum. *)
Theorem single_pending_reconnect (p : Page) (trace : list event) :
  script_start p ->
  List.length (pending_reconnects (run trace p)) <= 1 /\
  (forall t, In t (pending_reconnects (run trace p)) ->
             reconnectTimer (run trace p) = Some (fst t) /\ snd t = Reconnect) /\
  (forall s el,
     connectionStatus (run trace p) = Some s ->
     messageDisplay (run trace p) = Some el ->
     isManualDisconnect (run trace p) = false ->
     pending_reconnects (run (trace ++ [SocketCloses true]) p)
     = if (MAX_RECONNECT_ATTEMPTS <=? reconnectAttempts (run trace p))%Z
       then [] else [(next_timer (run trace p), Reconnect)]).
Proof.
  intros Hstart.
  pose proof (run_invariant trace p (script_start_invariant p Hstart)) as Hinv.
  destruct Hinv as (Ha & Hp & Hnd & Hfresh).
  split; [|split].
  - assert (Hnd' : NoDup (List.map fst (pending_reconnects (run trace p))))
      by (unfold pending_reconnects; apply NoDup_map_filter; exact Hnd).
    destruct (pending_reconnects (run trace p)) as [|t l]; [simpl; lia|].
    apply (same_id_at_most_one _ (fst t)); [exact Hnd'|].
    intros u Hu. pose proof (Hp u Hu) as H1.
    pose proof (Hp t (or_introl eq_refl)) as H2. congruence.
  - intros t Ht. split; [apply Hp; exact Ht|].
    apply filter_In in Ht as [_ Ht]. unfold is_reconnect in Ht.
    destruct (snd t); try discriminate. reflexivity.
  - intros s el Hs Hel Hm. rewrite run_app. cbn [run]. unfold dispatch.
    destruct (close_step _ s el Hs Hel Hm) as (q & Hq & _ & Ht & _).
    rewrite Hq. cbn [snd]. unfold pending_reconnects at 1. rewrite Ht, List.filter_app.
    pose proof (cleared_none_pending (run trace p)
                  (conj Ha (conj Hp (conj Hnd Hfresh)))) as Hnone.
    unfold pending_reconnects in Hnone. rewrite Hnone.
    destruct (MAX_RECONNECT_ATTEMPTS <=? reconnectAttempts (run trace p))%Z; reflexivity.
Qed.

Lemma single_pending_reconnect_witness :
  List.length (pending_reconnects (run [Loaded; SocketCloses true] fresh_page)) <= 1 /\
  (forall t,
     In t (pending_reconnects (run [Loaded; SocketCloses true] fresh_page)) ->
     reconnectTimer (run [Loaded; SocketCloses true] fresh_page) = Some (fst t)
     /\ snd t = Reconnect) /\
  (forall s el,
     connectionStatus (run [Loaded; SocketCloses true] fresh_page) = Some s ->
     messageDisplay (run [Loaded; SocketCloses true] fresh_page) = Some el ->
     isManualDisconnect (run [Loaded; SocketCloses true] fresh_page) = false ->
     pending_reconnects (run ([Loaded; SocketCloses true] ++ [SocketCloses true]) fresh_page)
     = if (MAX_RECONNECT_ATTEMPTS
           <=? reconnectAttempts (run [Loaded; SocketCloses true] fresh_page))%Z
       then [] else [(next_timer (run [Loaded; SocketCloses true] fresh_page), Reconnect)]).
Proof.
  apply (single_pending_reconnect fresh_page).
  repeat split; reflexivity.
Defined.

Lemma disconnected_timer t p :
  t <> Reconnect -> disconnected p -> disconnected (snd (setTimeout t p)).
Proof.
  intros Ht (Hm & Hw & Hp). repeat split; [exact Hm|exact Hw|].
  rewrite (pending_setTimeout_other t p Ht). exact Hp.
Qed.

Lemma disconnected_clearTimeout id p :
  disconnected p -> disconnected (clearTimeout id p).
Proof.
  intros (Hm & Hw & Hp). repeat split; [exact Hm|exact Hw|].
  destruct (pending_reconnects (clearTimeout id p)) as [|t l] eqn:E; [reflexivity|].
  assert (Hin : In t (pending_reconnects (clearTimeout id p)))
    by (rewrite E; left; reflexivity).
  apply pending_clearTimeout in Hin as [Hin _]. rewrite Hp in Hin. destruct Hin.
Qed.

Lemma keeps_disconnected_displayMessage message type :
  keeps disconnected (displayMessage message type).
Proof.
  apply keeps_displayMessage; [intros e p H; exact H|apply disconnected_timer].
Qed.

Lemma keeps_disconnected_disconnect : keeps disconnected disconnectWebSocket.
Proof.
  apply keeps_bind; [apply keeps_modify; intros q (_ & Hw & Hp); repeat split; assumption|].
  intros _. apply keeps_get_bind. intros p Hp.
  destruct Hp as (Hm & Hw & Hp). rewrite Hw.
  assert (Hq : disconnected
                 (snd ((match reconnectTimer p with
                        | Some id => modify (clearTimeout id) ;;; modify (set_reconnectTimer None)
                        | None => ret tt
                        end) p))).
  { destruct (reconnectTimer p) as [id|]; [|repeat split; assumption].
    exact (disconnected_clearTimeout id p (conj Hm (conj Hw Hp))). }
  unfold bind at 1.
  destruct ((match reconnectTimer p with
             | Some id => modify (clearTimeout id) ;;; modify (set_reconnectTimer None)
             | None => ret tt
             end) p) as [[u|e] q]; exact Hq.
Qed.

(** The events that leave the page disconnected keep it so. *)
Lemma keeps_disconnected_listener ev :
  stays_disconnected ev = true -> keeps disconnected (listener ev).
Proof.
  assert (Hmsg : forall e p, disconnected p -> disconnected (set_messageDisplay e p))
    by (intros e p H; exact H).
  assert (Hst : forall e p, disconnected p -> disconnected (set_connectionStatus e p))
    by (intros e p H; exact H).
  assert (Hbt : forall f p, disconnected p -> disconnected (set_colorButtons f p))
    by (intros f p H; exact H).
  assert (Hco : forall e p, disconnected p -> disconnected (console_log e p))
    by (intros e p H; exact H).
  assert (Hsent : forall ws w p, websocket p = Some ws -> disconnected p ->
                                 disconnected (set_websocket (Some w) p))
    by (intros ws w p Hws (_ & Hnone & _); congruence).
  intros Hev. destruct ev; try discriminate; simpl.
  - (* a socket closes *)
    apply keeps_bind.
    { destruct current; [|apply keeps_ret].
      apply keeps_modify. intros q Hq. unfold set_readyState.
      destruct Hq as (Hm & Hw & Hp). rewrite Hw. repeat split; assumption. }
    intros _. apply keeps_bind; [apply keeps_updateConnectionStatus; exact Hst|]. intros _.
    apply keeps_bind; [apply keeps_modify; intros; apply Hbt; assumption|]. intros _.
    apply keeps_get_bind. intros p Hp.
    destruct Hp as (Hm & Hw & Hp). rewrite Hm. simpl.
    apply keeps_disconnected_displayMessage. repeat split; assumption.
  - apply keeps_disconnected_displayMessage.
  - apply keeps_disconnected_displayMessage.
  - (* a timer comes due: it is no reconnection *)
    apply keeps_get_bind. intros p Hp.
    destruct (List.find _ (timers p)) as [[i t]|] eqn:Hfind; [|exact Hp].
    assert (Ht : t <> Reconnect).
    { intros ->. apply find_some in Hfind as [Hin _].
      destruct Hp as (_ & _ & Hp).
      assert (Hin' : In (i, Reconnect) (pending_reconnects p))
        by (apply filter_In; split; [exact Hin|reflexivity]).
      rewrite Hp in Hin'. destruct Hin'. }
    apply keeps_bind; [| |exact Hp].
    + apply keeps_modify. intros; apply disconnected_clearTimeout; assumption.
    + intros _. destruct t; [contradiction| |].
      * apply keeps_clear_message. exact Hmsg.
      * apply keeps_restore_opacity. exact Hbt.
  - apply keeps_handleColorButtonClick; auto using disconnected_timer.
  - apply keeps_handleKeyPress; auto using disconnected_timer.
  - apply keeps_get_bind. intros p Hp.
    destruct Hp as (Hm & Hw & Hp). rewrite Hm, Hw. simpl.
    destruct (negb hidden); repeat split; assumption.
  - apply keeps_disconnected_disconnect.
  - apply keeps_disconnected_disconnect.
  - apply keeps_bind; [|intros; apply keeps_ret].
    apply keeps_sendData; auto using disconnected_timer.
Qed.

Lemma disconnect_disconnects p :
  reconnect_invariant p -> disconnected (dispatch CallDisconnect p).
Proof.
  intros Hp. unfold dispatch. simpl. unfold disconnectWebSocket.
  unfold bind at 1. unfold modify at 1. unfold bind at 1. unfold get at 1.
  set (p1 := set_isManualDisconnect true p).
  assert (Hp1 : reconnect_invariant p1) by exact Hp.
  destruct (disconnect_timer_step p1 Hp1) as (q & Hstep & _ & Hnone & Hw & Hm & _).
  unfold bind at 1. rewrite Hstep.
  destruct (websocket p1) as [ws|]; simpl.
  - repeat split; [exact Hm|exact Hnone].
  - repeat split; [exact Hm|exact Hw|exact Hnone].
Qed.

(** What [disconnect] does to the socket the variable refers to: it is
    closed and let go. *)
Lemma disconnect_releases p ws :
  reconnect_invariant p ->
  websocket p = Some ws ->
  released (dispatch CallDisconnect p) = released p ++ [ws_close ws].
Proof.
  intros Hp Hws. unfold dispatch. simpl. unfold disconnectWebSocket.
  unfold bind at 1. unfold modify at 1. unfold bind at 1. unfold get at 1.
  set (p1 := set_isManualDisconnect true p).
  assert (Hp1 : reconnect_invariant p1) by exact Hp.
  destruct (disconnect_timer_step p1 Hp1) as (q & Hstep & _ & _ & _ & _ & Hrel).
  unfold bind at 1. rewrite Hstep.
  change (websocket p1) with (websocket p). rewrite Hws.
  unfold bind, modify. simpl. rewrite Hrel. reflexivity.
Qed.

(** X11.  A manual disconnect is final.  However the page was driven
    before, a call of [disconnect] closes the socket the variable
    refers to (one call of [close], after which the socket is not open)
    and lets it go; after the call no event but the opening of a socket
    or a call that connects brings a socket or a reconnection back:
    through closes, errors and messages of the sockets left behind,
    timers that come due, clicks, keys, visibility changes and calls of
    [send], the variable [websocket] stays empty, no reconnection is
    pending and the disconnect stays marked manual. *)
Theorem manual_disconnect_is_final (p : Page) (before after : list event) :
  script_start p ->
  forallb stays_disconnected after = true ->
  isManualDisconnect (run (before ++ CallDisconnect :: after) p) = true /\
  websocket (run (before ++ CallDisconnect :: after) p) = None /\
  List.filter is_reconnect (timers (run (before ++ CallDisconnect :: after) p)) = [] /\
  (forall ws,
     websocket (run before p) = Some ws ->
     exists closed,
       released (run (before ++ [CallDisconnect]) p) = released (run before p) ++ [closed] /\
       url closed = url ws /\
       close_calls closed = S (close_calls ws) /\
       sent closed = sent ws /\
       is_open (readyState closed) = false).
Proof.
  intros Hstart Hafter.
  pose proof (run_invariant before p (script_start_invariant p Hstart)) as Hinv.
  assert (Hfinal : disconnected (run (before ++ CallDisconnect :: after) p)).
  { rewrite run_app. cbn [run].
    pose proof (disconnect_disconnects _ Hinv) as Hd.
    revert Hd Hafter. generalize (dispatch CallDisconnect (run before p)).
    induction after as [|ev rest IH]; intros q Hq Hall; simpl; [exact Hq|].
    simpl in Hall. apply andb_prop in Hall as [Hev Hrest].
    apply IH; [|exact Hrest].
    apply keeps_disconnected_listener; assumption. }
  destruct Hfinal as (Hm & Hw & Hp).
  split; [exact Hm|]. split; [exact Hw|]. split; [exact Hp|].
  intros ws Hws. exists (ws_close ws).
  rewrite run_app. cbn [run]. rewrite (disconnect_releases _ ws Hinv Hws).
  split; [reflexivity|]. unfold ws_close. simpl.
  repeat split. destruct (readyState ws); reflexivity.
Qed.

Lemma manual_disconnect_is_final_witness :
  isManualDisconnect
    (run ([Loaded; SocketOpens true]
          ++ CallDisconnect
             :: [SocketCloses false; VisibilityChange false; KeyPress "BODY" "1";
                 SocketFails]) fresh_page) = true /\
  websocket
    (run ([Loaded; SocketOpens true]
          ++ CallDisconnect
             :: [SocketCloses false; VisibilityChange false; KeyPress "BODY" "1";
                 SocketFails]) fresh_page) = None /\
  List.filter is_reconnect
    (timers
       (run ([Loaded; SocketOpens true]
             ++ CallDisconnect
                :: [SocketCloses false; VisibilityChange false; KeyPress "BODY" "1";
                    SocketFails]) fresh_page)) = [] /\
  (forall ws,
     websocket (run [Loaded; SocketOpens true] fresh_page) = Some ws ->
     exists closed,
       released (run ([Loaded; SocketOpens true] ++ [CallDisconnect]) fresh_page)
       = released (run [Loaded; SocketOpens true] fresh_page) ++ [closed] /\
       url closed = url ws /\
       close_calls closed = S (close_calls ws) /\
       sent closed = sent ws /\
       is_open (readyState closed) = false).
Proof.
  apply (manual_disconnect_is_final fresh_page).
  - repeat split; reflexivity.
  - reflexivity.
Defined.

Lemma querySelector_found color bs k i button :
  querySelector color bs k = Some (i, button) ->
  exists j, i = k + j /\ bs !! j = Some button /\ data_color button = Some color.
Proof.
  revert k. induction bs as [|b rest IH]; intros k H; simpl in H; [discriminate|].
  assert (Hrest : querySelector color rest (S k) = Some (i, button) ->
                  exists j, i = k + j /\ (b :: rest) !! j = Some button
                            /\ data_color button = Some color).
  { intros Hr. destruct (IH _ Hr) as (j & -> & Hj & Hc).
    exists (S j). split; [lia|]. split; [exact Hj|exact Hc]. }
  destruct (data_color b) as [c|] eqn:Hc; [|auto].
  destruct (String.eqb c color) eqn:E; [|auto].
  injection H as <- <-. apply String.eqb_eq in E. subst c.
  exists 0. split; [lia|]. split; [reflexivity|exact Hc].
Qed.

Lemma keyMap_colors key color :
  assoc key keyMap = Some color -> String.eqb color EmptyString = false.
Proof.
  unfold keyMap. simpl.
  repeat match goal with
         | |- context [String.eqb key ?k] =>
             destruct (String.eqb key k); [intros H; injection H as <-; reflexivity|]
         end.
  discriminate.
Qed.

(** A click on a colour button of a connected page: the colour is sent,
    the page says so, the button is dimmed, and the two timers that
    clear the message and restore the button are set. *)
Lemma handleColorButtonClick_sends i button color ws el p :
  colorButtons p !! i = Some button ->
  data_color button = Some color ->
  String.eqb color EmptyString = false ->
  websocket p = Some ws ->
  readyState ws = OPEN ->
  send_fault ws (Value (JStr color)) = None ->
  messageDisplay p = Some el ->
  exists q ws' el' button',
    handleColorButtonClick i p = (Normal tt, q) /\
    websocket q = Some ws' /\
    sent ws' = sent ws ++ [Value (JStr color)] /\
    send_calls ws' = S (send_calls ws) /\
    messageDisplay q = Some el' /\
    textContent el'
    = "Sent: " +:+ match data_name button with
                   | Some n => if String.eqb n EmptyString then color else n
                   | None => color
                   end +:+ " (" +:+ color +:+ ")" /\
    colorButtons q !! i = Some button' /\
    opacity button' = "0.7" /\
    timers q
    = timers p ++ [(next_timer p, ClearMessage (textContent el'));
                   (Pos.succ (next_timer p), RestoreOpacity i)].
Proof.
  intros Hb Hc Hne Hws Hr Hf Hel.
  destruct p as [w ra rt md cs msg cb tm nt rel hn cf tf co].
  simpl in Hb, Hws, Hel. subst w msg.
  unfold handleColorButtonClick. unfold bind at 1. unfold get at 1.
  cbn [colorButtons]. rewrite Hb, Hc, Hne.
  unfold bind at 1. unfold sendData. unfold bind at 1. unfold get at 1.
  cbn [websocket]. rewrite Hr. cbn [is_open negb].
  unfold websocket_send. cbn [websocket conversion printable]. rewrite Hr, Hf.
  unfold bind, modify, ret, displayMessage, setTimeout, set_opacity.
  unfold set_timers, set_colorButtons, set_messageDisplay, set_websocket, console_log.
  cbn -[String.append classList_add classList_remove lookup insert].
  rewrite Hb.
  do 4 eexists. split; [reflexivity|].
  cbn -[String.append classList_add classList_remove lookup insert].
  repeat (split; [reflexivity|]).
  split; [apply list_lookup_insert_eq; eapply lookup_lt_Some; exact Hb|].
  split; [reflexivity|]. rewrite <- app_assoc. reflexivity.
Qed.

(** X12.  A key of the colour map, pressed outside an input field on a
    connected page whose socket takes the colour, when the first button
    of that colour is enabled: the handler completes, the colour of the
    key is sent once as a text, the page shows which colour was sent
    (by the name of the button, or by the colour when the button has no
    name), the button is dimmed, and the timers that clear the message
    and restore the button are set.  A key pressed in an input field or
    a text area, and a key that is not in the map, do nothing. *)
Theorem key_sends_color (tagName key color : string) (i : nat) (button : Button)
    (ws : WebSocket) (el : Element) (p : Page) :
  String.eqb tagName "INPUT" = false ->
  String.eqb tagName "TEXTAREA" = false ->
  assoc (toLowerCase key) keyMap = Some color ->
  querySelector color (colorButtons p) 0 = Some (i, button) ->
  disabled button = false ->
  websocket p = Some ws ->
  readyState ws = OPEN ->
  send_fault ws (Value (JStr color)) = None ->
  messageDisplay p = Some el ->
  (exists q ws' el' button',
     handleKeyPress tagName key p = (Normal tt, q) /\
     websocket q = Some ws' /\
     sent ws' = sent ws ++ [Value (JStr color)] /\
     send_calls ws' = S (send_calls ws) /\
     messageDisplay q = Some el' /\
     textContent el'
     = "Sent: " +:+ match data_name button with
                    | Some n => if String.eqb n EmptyString then color else n
                    | None => color
                    end +:+ " (" +:+ color +:+ ")" /\
     colorButtons q !! i = Some button' /\
     opacity button' = "0.7" /\
     timers q
     = timers p ++ [(next_timer p, ClearMessage (textContent el'));
                    (Pos.succ (next_timer p), RestoreOpacity i)]) /\
  (forall k q, handleKeyPress "INPUT" k q = (Normal tt, q)
               /\ handleKeyPress "TEXTAREA" k q = (Normal tt, q)) /\
  (forall tag k q, assoc (toLowerCase k) keyMap = None ->
                   handleKeyPress tag k q = (Normal tt, q)).
Proof.
  intros Ht1 Ht2 Hkey Hq Hdis Hws Hr Hf Hel. split; [|split].
  - destruct (querySelector_found _ _ _ _ _ Hq) as (j & -> & Hb & Hc).
    destruct (handleColorButtonClick_sends (0 + j) button color ws el p Hb Hc
                (keyMap_colors _ _ Hkey) Hws Hr Hf Hel)
      as (q & ws' & el' & button' & Hrun & Hrest).
    exists q, ws', el', button'. split; [|exact Hrest].
    unfold handleKeyPress. rewrite Ht1, Ht2, Hkey. cbn [orb].
    unfold bind at 1. unfold get at 1. rewrite Hq, Hdis. cbn [negb].
    unfold click, try_catch. rewrite Hrun. reflexivity.
  - intros k q. split; reflexivity.
  - intros tag k q Hnone. unfold handleKeyPress. rewrite Hnone.
    destruct (String.eqb tag "INPUT" || String.eqb tag "TEXTAREA"); reflexivity.
Qed.

Lemma key_sends_color_witness :
  (exists q ws' el' button',
     handleKeyPress "BODY" "9" connected_page = (Normal tt, q) /\
     websocket q = Some ws' /\
     sent ws' = [] ++ [Value (JStr "#FF0000")] /\
     send_calls ws' = 1 /\
     messageDisplay q = Some el' /\
     textContent el' = "Sent: Rouge (#FF0000)" /\
     colorButtons q !! 0 = Some button' /\
     opacity button' = "0.7" /\
     timers q
     = [] ++ [(1%positive, ClearMessage (textContent el'));
              (2%positive, RestoreOpacity 0)]) /\
  (forall k q, handleKeyPress "INPUT" k q = (Normal tt, q)
               /\ handleKeyPress "TEXTAREA" k q = (Normal tt, q)) /\
  (forall tag k q, assoc (toLowerCase k) keyMap = None ->
                   handleKeyPress tag k q = (Normal tt, q)).
Proof.
  apply (key_sends_color "BODY" "9" "#FF0000" 0
           (mkButton (Some "#FF0000") (Some "Rouge") false "1")
           (mkSocket "ws://localhost:8080" OPEN 0 [] (fun _ => None) 0)
           (mkElement EmptyString ["message"]) connected_page);
    reflexivity.
Defined.

(** X13.  The start of the application on a page that has its two
    elements.  [init] completes with the buttons disabled.  When the
    constructor of the socket returns, the variable [websocket] refers
    to a new socket that is connecting to the address of config.js,
    nothing is scheduled and the page says that it is connecting.  When
    the constructor throws, the error is caught: there is no socket, the
    status is Disconnected, the page shows the message of the error,
    and the first reconnection is scheduled.  The address is the local
    one exactly for the host names localhost and 127.0.0.1. *)
Theorem init_connects (p : Page) (s el : Element) :
  script_start p ->
  connectionStatus p = Some s ->
  messageDisplay p = Some el ->
  (exists q el',
     init p = (Normal tt, q) /\
     Forall (fun b => disabled b = true) (colorButtons q) /\
     List.length (colorButtons q) = List.length (colorButtons p) /\
     messageDisplay q = Some el' /\
     match construct_fault p with
     | None =>
         websocket q
         = Some (mkSocket (WS_SERVER_URL (hostname p)) CONNECTING 0 [] (transport_fault p) 0) /\
         textContent el' = "Connecting to server..." /\
         timers q = [] /\ reconnectAttempts q = 0%Z /\ reconnectTimer q = None /\
         connectionStatus q = Some s
     | Some e =>
         websocket q = None /\
         textContent el' = "Connection failed: " +:+ err_message e /\
         timers q = [(next_timer p, Reconnect)] /\
         reconnectAttempts q = 1%Z /\ reconnectTimer q = Some (next_timer p) /\
         console q = console p ++ [LogConnectError e] /\
         exists s', connectionStatus q = Some s' /\ textContent s' = "Disconnected"
     end) /\
  WS_SERVER_URL "localhost" = "ws://localhost:8080" /\
  WS_SERVER_URL "127.0.0.1" = "ws://localhost:8080" /\
  (forall host, host <> "localhost" -> host <> "127.0.0.1" ->
                WS_SERVER_URL host = "wss://vrcia-controller-site.onrender.com").
Proof.
  intros (Hw & Ha & Ht & Hm & Htm & Hrel) Hs Hel.
  split; [|split; [reflexivity|split; [reflexivity|]]].
  - destruct p as [w ra rt md cs msg cb tm nt rel hn cf tf co].
    simpl in Hw, Ha, Ht, Hm, Htm, Hrel, Hs, Hel. subst.
    assert (Hb : Forall (fun b => disabled b = true)
                   (List.map (fun b => mkButton (data_color b) (data_name b) (negb false)
                                         (opacity b)) cb))
      by (apply Forall_fmap, Forall_forall; intros b _; reflexivity).
    unfold init, connectWebSocket, try_catch, displayMessage, new_WebSocket,
      updateConnectionStatus, scheduleReconnect, enableButtons, bind, modify, get, ret,
      setTimeout.
    destruct cf as [e|];
      cbn -[String.append classList_add classList_remove WS_SERVER_URL];
      do 2 eexists; (split; [reflexivity|]);
      cbn -[String.append classList_add classList_remove WS_SERVER_URL];
      rewrite ?length_map; repeat split; eauto.
  - intros host H1 H2. unfold WS_SERVER_URL.
    apply String.eqb_neq in H1, H2. rewrite H1, H2. reflexivity.
Qed.

Lemma init_connects_witness :
  (exists q el',
     init fresh_page = (Normal tt, q) /\
     Forall (fun b => disabled b = true) (colorButtons q) /\
     List.length (colorButtons q) = 2 /\
     messageDisplay q = Some el' /\
     websocket q = Some (mkSocket "ws://localhost:8080" CONNECTING 0 [] (fun _ => None) 0) /\
     textContent el' = "Connecting to server..." /\
     timers q = [] /\ reconnectAttempts q = 0%Z /\ reconnectTimer q = None /\
     connectionStatus q = Some (mkElement "Disconnected" ["status"; "disconnected"])) /\
  WS_SERVER_URL "localhost" = "ws://localhost:8080" /\
  WS_SERVER_URL "127.0.0.1" = "ws://localhost:8080" /\
  (forall host, host <> "localhost" -> host <> "127.0.0.1" ->
                WS_SERVER_URL host = "wss://vrcia-controller-site.onrender.com").
Proof.
  apply (init_connects fresh_page (mkElement "Disconnected" ["status"; "disconnected"])
           (mkElement EmptyString ["message"])).
  - repeat split; reflexivity.
  - reflexivity.
  - reflexivity.
Defined.

End BrowserFacts.
